(** * HeArtSpace backend: session enrollment and like toggle

    A shallow embedding of the route handlers of [server.js] that touch the
    [Session], [SessionAttendee], [Artwork], [Like] and [Comment] tables,
    together with the part of the relational store they rely on.

    The store (Prisma over PostgreSQL) is modelled as a record of tables;
    each table is the list of its rows in insertion order.  A handler is a
    function from the store to a response and the store it leaves behind.
    Store calls live in a small state-and-exception monad: a thrown
    exception keeps the store as it was when it was thrown, exactly as the
    handlers' [try { ... } catch] blocks see it (no handler opens a
    transaction around several calls).

    An id sequence moves whenever the store executes an INSERT, also one
    that a constraint then refuses or a transaction rolls back; a call
    refused before its statement is executed (an argument of the wrong type,
    a number out of range, a text or a date the store cannot hold) moves
    nothing.

    Requests are handled one after the other: interleavings of concurrent
    requests are not part of this model. *)

From Stdlib Require Import ZArith List String Ascii Bool Lia.
Import ListNotations.
Local Open Scope string_scope.
Local Open Scope list_scope.
Local Open Scope Z_scope.

Set Implicit Arguments.

(* ===================================================================== *)
(** * JavaScript helpers *)
(* ===================================================================== *)

Module Js.

(** White space skipped by [parseInt]: TAB, LF, VT, FF, CR and SP.  The
    strings of the model are ASCII. *)
Definition is_white_space (c : ascii) : bool :=
  let n := nat_of_ascii c in
  existsb (Nat.eqb n) [9; 10; 11; 12; 13; 32]%nat.

Fixpoint trim_start (s : string) : string :=
  match s with
  | String c r => if is_white_space c then trim_start r else s
  | EmptyString => s
  end.

(** Value of a character as a digit in radix [R], if it is one. *)
Definition digit_value (R : Z) (c : ascii) : option Z :=
  let n := Z.of_nat (nat_of_ascii c) in
  let v :=
    if (48 <=? n) && (n <=? 57) then Some (n - 48)
    else if (97 <=? n) && (n <=? 122) then Some (n - 97 + 10)
    else if (65 <=? n) && (n <=? 90) then Some (n - 65 + 10)
    else None in
  match v with
  | Some d => if d <? R then Some d else None
  | None => None
  end.

(** The number denoted by the longest prefix of [s] made of radix-[R]
    digits; [acc] is what has been read so far ([None]: no digit yet). *)
Fixpoint digits_prefix (R : Z) (s : string) (acc : option Z) : option Z :=
  match s with
  | String c r =>
      match digit_value R c with
      | Some d =>
          digits_prefix R r
            (Some (R * match acc with Some a => a | None => 0 end + d))
      | None => acc
      end
  | EmptyString => acc
  end.

(** [parseInt(string)] with no radix argument.  [None] is [NaN].  The
    argument is the string conversion of the value handed to [parseInt]. *)
Definition parseInt (input : string) : option Z :=
  let s := trim_start input in
  let '(sign, s) :=
    match s with
    | String "-" r => (-1, r)
    | String "+" r => (1, r)
    | _ => (1, s)
    end in
  let '(R, s) :=
    match s with
    | String "0" (String "x" r) => (16, r)
    | String "0" (String "X" r) => (16, r)
    | _ => (10, s)
    end in
  option_map (Z.mul sign) (digits_prefix R s None).

End Js.

(* ===================================================================== *)
(** * The relational store *)
(* ===================================================================== *)

(** ** Rows

    Columns follow [migration.sql] for [Session] and [SessionAttendee] and
    the [data] objects of the [create] calls in [server.js] for the other
    tables.  The [createdAt]/[updatedAt] columns are filled by the store
    from its clock and are left out.  The [User] table is left out too:
    the user id of a request comes from a token the server signed for an
    existing user, and no route deletes users. *)

Record Session := mkSession {
  s_id : Z;
  s_title : string;
  s_date : Z;               (* time value of the Date, ms since the epoch *)
  s_time : string;
  s_maxAttendees : Z;
  s_userId : Z
}.

Record SessionAttendee := mkAttendee {
  a_id : Z;
  a_sessionId : Z;
  a_userId : Z
}.

Record Artwork := mkArtwork {
  w_id : Z;
  w_title : string;
  w_description : string;
  w_imageUrl : string;
  w_userId : Z
}.

Record Like := mkLike {
  l_id : Z;
  l_userId : Z;
  l_artworkId : Z
}.

Record Comment := mkComment {
  c_id : Z;
  c_content : string;
  c_userId : Z;
  c_artworkId : Z
}.

(** ** The database: the five tables and the SERIAL sequences used by the
    modelled inserts. *)
Record DB := mkDB {
  sessions : list Session;
  attendees : list SessionAttendee;
  artworks : list Artwork;
  likes : list Like;
  comments : list Comment;
  next_session_id : Z;
  next_attendee_id : Z;
  next_like_id : Z
}.

Definition empty_db : DB := mkDB [] [] [] [] [] 1 1 1.

(** ** Exceptions a store call (or the handler itself) can throw. *)
Inductive Exn :=
| ValidationError          (* value refused before a statement is executed *)
| UniqueConstraintFailed   (* P2002 *)
| ForeignKeyConstraintFailed (* P2003 *)
| RecordNotFound           (* P2025 *)
| TypeError.               (* property read on null *)

(** ** The monad of store calls. *)
Definition Prisma (A : Type) : Type := DB -> (Exn + A) * DB.

Definition ret {A} (a : A) : Prisma A := fun db => (inr a, db).

Definition throw {A} (e : Exn) : Prisma A := fun db => (inl e, db).

Definition bind {A B} (m : Prisma A) (k : A -> Prisma B) : Prisma B :=
  fun db =>
    match m db with
    | (inr a, db') => k a db'
    | (inl e, db') => (inl e, db')
    end.

Notation "x <- m ;; k" := (bind m (fun x => k))
  (at level 61, m at next level, right associativity).
Notation "m ;;; k" := (bind m (fun _ => k))
  (at level 61, right associativity).

(** ** Argument checks

    Every [Int] column is a PostgreSQL [INTEGER]; a JavaScript number that
    is [NaN] or does not fit 32 bits is rejected by the client. *)
Definition int32 (n : Z) : bool := (-2147483648 <=? n) && (n <=? 2147483647).

Definition check_Int (v : option Z) : Prisma Z :=
  match v with
  | Some n => if int32 n then ret n else throw ValidationError
  | None => throw ValidationError
  end.

(** A [TEXT] column holds every string but those with a NUL character; a
    value that is missing or no string is refused as well. *)
Fixpoint text_ok (s : string) : bool :=
  match s with
  | EmptyString => true
  | String c r => negb (Ascii.eqb c Ascii.zero) && text_ok r
  end.

Definition check_text (v : option string) : Prisma string :=
  match v with
  | Some s => if text_ok s then ret s else throw ValidationError
  | None => throw ValidationError
  end.

(** A [TIMESTAMP(3)] column reached through the client holds the dates of a
    range that is narrower than that of the JavaScript [Date].  The sources
    do not tell the range: which time values the store takes is a parameter
    of the model. *)
Class StoreRange := {
  stores_date : Z -> bool
}.

Definition check_date {range : StoreRange} (v : option Z) : Prisma Z :=
  match v with
  | Some d => if stores_date d then ret d else throw ValidationError
  | None => throw ValidationError
  end.

(** ** Session and SessionAttendee *)

(** A session as the handlers read it back with [include: { attendees }]. *)
Record SessionView := mkView {
  v_session : Session;
  v_attendees : list SessionAttendee
}.

Definition attendees_of (sid : Z) (db : DB) : list SessionAttendee :=
  filter (fun a => a_sessionId a =? sid) (attendees db).

Definition lookup_session (sid : Z) (db : DB) : option Session :=
  find (fun s => s_id s =? sid) (sessions db).

Definition view_of (db : DB) (s : Session) : SessionView :=
  mkView s (attendees_of (s_id s) db).

(** [prisma.session.findUnique({ where: { id } })] *)
Definition session_findUnique (id : option Z) : Prisma (option Session) :=
  sid <- check_Int id ;;
  fun db => (inr (lookup_session sid db), db).

(** [prisma.session.findUnique({ where: { id }, include: { attendees } })] *)
Definition session_findUnique_include (id : option Z)
  : Prisma (option SessionView) :=
  sid <- check_Int id ;;
  fun db => (inr (option_map (view_of db) (lookup_session sid db)), db).

Definition is_attendee (sid uid : Z) (db : DB) : bool :=
  existsb (fun a => (a_sessionId a =? sid) && (a_userId a =? uid))
          (attendees db).

(** The store once an attendee id is drawn from the sequence and lost. *)
Definition skip_attendee_id (db : DB) : DB :=
  mkDB (sessions db) (attendees db) (artworks db) (likes db) (comments db)
       (next_session_id db) (next_attendee_id db + 1) (next_like_id db).

(** Insertion of one attendee row.  The id is drawn first; the unique index
    [SessionAttendee_sessionId_userId_key] is checked when the row goes in
    and the foreign key to [Session] at the end of the statement; a refused
    insert does not give the id back. *)
Definition attendee_insert (sid uid : Z) : Prisma SessionAttendee :=
  fun db =>
    if is_attendee sid uid db
    then (inl UniqueConstraintFailed, skip_attendee_id db)
    else
      match lookup_session sid db with
      | None => (inl ForeignKeyConstraintFailed, skip_attendee_id db)
      | Some _ =>
          let row := mkAttendee (next_attendee_id db) sid uid in
          (inr row,
           mkDB (sessions db) (attendees db ++ [row]) (artworks db)
                (likes db) (comments db) (next_session_id db)
                (next_attendee_id db + 1) (next_like_id db))
      end.

(** [prisma.sessionAttendee.create({ data: { sessionId, userId } })] *)
Definition sessionAttendee_create (sessionId : option Z) (userId : Z)
  : Prisma SessionAttendee :=
  sid <- check_Int sessionId ;;
  attendee_insert sid userId.

(** [prisma.sessionAttendee.deleteMany({ where })]: [userId] is absent from
    the filter of the delete-session route. *)
Definition sessionAttendee_deleteMany (sessionId : option Z)
  (userId : option Z) : Prisma unit :=
  sid <- check_Int sessionId ;;
  fun db =>
    let hit a :=
      (a_sessionId a =? sid) &&
      match userId with Some u => a_userId a =? u | None => true end in
    (inr tt,
     mkDB (sessions db) (filter (fun a => negb (hit a)) (attendees db))
          (artworks db) (likes db) (comments db) (next_session_id db)
          (next_attendee_id db) (next_like_id db)).

(** The [data] object of [prisma.session.create]. *)
Record SessionData := mkSessionData {
  d_title : option string;
  d_date : option Z;
  d_time : option string;
  d_maxAttendees : option Z;
  d_userId : Z
}.

Section Store.

Context {range : StoreRange}.

(** [prisma.session.create] with the nested [attendees: { create:
    [{ userId }] }]: the session row and the attendee row are written in one
    transaction, so a failure of the nested insert leaves no row behind; the
    ids drawn from the two sequences are lost. *)
Definition session_create (d : SessionData) : Prisma SessionView :=
  title <- check_text (d_title d) ;;
  date <- check_date (d_date d) ;;
  time <- check_text (d_time d) ;;
  maxAttendees <- check_Int (d_maxAttendees d) ;;
  fun db =>
    let s := mkSession (next_session_id db) title date time maxAttendees
                       (d_userId d) in
    let db1 := mkDB (sessions db ++ [s]) (attendees db) (artworks db)
                    (likes db) (comments db) (next_session_id db + 1)
                    (next_attendee_id db) (next_like_id db) in
    match attendee_insert (s_id s) (d_userId d) db1 with
    | (inr _, db2) => (inr (view_of db2 s), db2)
    | (inl e, db2) =>
        (inl e,
         mkDB (sessions db) (attendees db) (artworks db) (likes db)
              (comments db) (next_session_id db2) (next_attendee_id db2)
              (next_like_id db))
    end.

(** [prisma.session.delete({ where: { id } })]; the foreign key of
    [SessionAttendee] is [ON DELETE CASCADE]. *)
Definition session_delete (id : option Z) : Prisma Session :=
  sid <- check_Int id ;;
  fun db =>
    match lookup_session sid db with
    | None => (inl RecordNotFound, db)
    | Some s =>
        (inr s,
         mkDB (filter (fun s => negb (s_id s =? sid)) (sessions db))
              (filter (fun a => negb (a_sessionId a =? sid)) (attendees db))
              (artworks db) (likes db) (comments db) (next_session_id db)
              (next_attendee_id db) (next_like_id db))
    end.

(** ** Artwork, Like and Comment

    The Prisma schema of these tables is not part of the sources at hand.
    That [Like] carries the compound unique key [userId_artworkId] is read
    off the [findUnique] call of the like route.  Whether the store keeps a
    foreign key from [Like] and [Comment] to [Artwork], and with which
    referential action, is a parameter of the model. *)
Inductive FkMode :=
| NoForeignKey   (* relations kept by the client only *)
| Restrict       (* referenced artwork cannot be deleted *)
| Cascade.       (* deleting the artwork deletes the referencing rows *)

Definition fk_checked (fk : FkMode) : bool :=
  match fk with NoForeignKey => false | _ => true end.

Definition lookup_artwork (wid : Z) (db : DB) : option Artwork :=
  find (fun w => w_id w =? wid) (artworks db).

Definition lookup_like (uid wid : Z) (db : DB) : option Like :=
  find (fun l => (l_userId l =? uid) && (l_artworkId l =? wid)) (likes db).

Definition set_likes (ls : list Like) (db : DB) : DB :=
  mkDB (sessions db) (attendees db) (artworks db) ls (comments db)
       (next_session_id db) (next_attendee_id db) (next_like_id db).

Definition set_comments (cs : list Comment) (db : DB) : DB :=
  mkDB (sessions db) (attendees db) (artworks db) (likes db) cs
       (next_session_id db) (next_attendee_id db) (next_like_id db).

Definition set_artworks (ws : list Artwork) (db : DB) : DB :=
  mkDB (sessions db) (attendees db) ws (likes db) (comments db)
       (next_session_id db) (next_attendee_id db) (next_like_id db).

(** The store once a like id is drawn from the sequence and lost. *)
Definition skip_like_id (db : DB) : DB :=
  mkDB (sessions db) (attendees db) (artworks db) (likes db) (comments db)
       (next_session_id db) (next_attendee_id db) (next_like_id db + 1).

Section ArtworkStore.

Variable fk : FkMode.

(** [prisma.artwork.findUnique({ where: { id } })] *)
Definition artwork_findUnique (id : option Z) : Prisma (option Artwork) :=
  wid <- check_Int id ;;
  fun db => (inr (lookup_artwork wid db), db).

(** [prisma.like.findUnique({ where: { userId_artworkId: { userId,
    artworkId } } })] *)
Definition like_findUnique (userId : Z) (artworkId : option Z)
  : Prisma (option Like) :=
  wid <- check_Int artworkId ;;
  fun db => (inr (lookup_like userId wid db), db).

(** [prisma.like.delete({ where: { id } })] *)
Definition like_delete (id : Z) : Prisma unit :=
  fun db =>
    if existsb (fun l => l_id l =? id) (likes db)
    then (inr tt,
          set_likes (filter (fun l => negb (l_id l =? id)) (likes db)) db)
    else (inl RecordNotFound, db).

(** [prisma.like.create({ data: { userId, artworkId } })]: the id is drawn
    first, the unique key is checked when the row goes in and the foreign
    key at the end of the statement; a refused insert does not give the id
    back. *)
Definition like_create (userId : Z) (artworkId : option Z) : Prisma Like :=
  wid <- check_Int artworkId ;;
  fun db =>
    match lookup_like userId wid db with
    | Some _ => (inl UniqueConstraintFailed, skip_like_id db)
    | None =>
        if fk_checked fk &&
           match lookup_artwork wid db with Some _ => false | None => true end
        then (inl ForeignKeyConstraintFailed, skip_like_id db)
        else
          let row := mkLike (next_like_id db) userId wid in
          (inr row,
           mkDB (sessions db) (attendees db) (artworks db)
                (likes db ++ [row]) (comments db) (next_session_id db)
                (next_attendee_id db) (next_like_id db + 1))
    end.

(** [prisma.like.deleteMany({ where: { artworkId } })] *)
Definition like_deleteMany (artworkId : option Z) : Prisma unit :=
  wid <- check_Int artworkId ;;
  fun db =>
    (inr tt,
     set_likes (filter (fun l => negb (l_artworkId l =? wid)) (likes db)) db).

(** [prisma.comment.deleteMany({ where: { artworkId } })] *)
Definition comment_deleteMany (artworkId : option Z) : Prisma unit :=
  wid <- check_Int artworkId ;;
  fun db =>
    (inr tt,
     set_comments
       (filter (fun c => negb (c_artworkId c =? wid)) (comments db)) db).

Definition referenced (wid : Z) (db : DB) : bool :=
  existsb (fun l => l_artworkId l =? wid) (likes db) ||
  existsb (fun c => c_artworkId c =? wid) (comments db).

(** [prisma.artwork.delete({ where: { id } })] *)
Definition artwork_delete (id : option Z) : Prisma unit :=
  wid <- check_Int id ;;
  fun db =>
    match lookup_artwork wid db with
    | None => (inl RecordNotFound, db)
    | Some _ =>
        let rest := filter (fun w => negb (w_id w =? wid)) (artworks db) in
        match fk with
        | NoForeignKey => (inr tt, set_artworks rest db)
        | Restrict =>
            if referenced wid db then (inl ForeignKeyConstraintFailed, db)
            else (inr tt, set_artworks rest db)
        | Cascade =>
            (inr tt,
             set_artworks rest
               (set_comments
                  (filter (fun c => negb (c_artworkId c =? wid))
                          (comments db))
                  (set_likes
                     (filter (fun l => negb (l_artworkId l =? wid))
                             (likes db)) db)))
        end
    end.

End ArtworkStore.

(* ===================================================================== *)
(** * Route handlers *)
(* ===================================================================== *)

(** ** Responses *)

Inductive Json :=
| JError (error : string)                  (* { error } *)
| JErrorWith (prefix : string) (e : Exn)   (* { error: prefix + e.message } *)
| JMessage (message : string)              (* { message } *)
| JLiked (message : string) (liked : bool) (* { message, liked } *)
| JSession (session : option SessionView). (* a session, or null *)

Record Response := mkResponse {
  status : Z;
  body : Json
}.

(** [res.json(x)] *)
Definition json (x : Json) : Response := mkResponse 200 x.

(** [try { ... } catch (error) { ... }] around the body of a handler. *)
Definition try_catch (m : Prisma Response) (handler : Exn -> Response)
  : DB -> Response * DB :=
  fun db =>
    match m db with
    | (inr r, db') => (r, db')
    | (inl e, db') => (handler e, db')
    end.

(** ** Session routes

    In every handler [userId] is [req.userId], set by [authenticateToken],
    and [id] is the route parameter [req.params.id]. *)

(** The body of [POST /api/sessions].  [b_maxAttendees] is the string
    conversion of the field, which is what [parseInt] reads; [b_date] is
    the time value of [new Date(date)], [None] for an invalid date;
    [b_title] and [b_time] are [None] when the field is not a string.
    Whether the store takes the title, the date and the time is checked by
    [session_create]. *)
Record SessionBody := mkSessionBody {
  b_title : option string;
  b_date : option Z;
  b_time : option string;
  b_maxAttendees : string
}.

(** [app.post('/api/sessions', ...)] *)
Definition create_session_handler (userId : Z) (b : SessionBody)
  : DB -> Response * DB :=
  try_catch
    (session <- session_create
                  (mkSessionData (b_title b) (b_date b) (b_time b)
                     (Js.parseInt (b_maxAttendees b)) userId) ;;
     ret (json (JSession (Some session))))
    (fun error => mkResponse 500 (JErrorWith "Failed to create session: " error)).

(** [app.post('/api/sessions/:id/join', ...)] *)
Definition join_handler (userId : Z) (id : string) : DB -> Response * DB :=
  try_catch
    (let sessionId := Js.parseInt id in
     session <- session_findUnique_include sessionId ;;
     match session with
     | None => ret (mkResponse 404 (JError "Session not found"))
     | Some session =>
         let alreadyJoined :=
           existsb (fun a => a_userId a =? userId) (v_attendees session) in
         if alreadyJoined
         then ret (mkResponse 400 (JError "Already joined this session"))
         else if Z.of_nat (List.length (v_attendees session))
                 >=? s_maxAttendees (v_session session)
         then ret (mkResponse 400 (JError "Session is full"))
         else
           sessionAttendee_create sessionId userId ;;;
           updatedSession <- session_findUnique_include sessionId ;;
           ret (json (JSession updatedSession))
     end)
    (fun _ => mkResponse 500 (JError "Failed to join session")).

(** [app.post('/api/sessions/:id/leave', ...)].  [session.userId] is read
    without a null check: on a missing session the read throws. *)
Definition leave_handler (userId : Z) (id : string) : DB -> Response * DB :=
  try_catch
    (let sessionId := Js.parseInt id in
     session <- session_findUnique sessionId ;;
     creator <- match session with
                | Some session => ret (s_userId session)
                | None => throw TypeError
                end ;;
     if creator =? userId
     then ret (mkResponse 400 (JError "Cannot leave a session you created"))
     else
       sessionAttendee_deleteMany sessionId (Some userId) ;;;
       updatedSession <- session_findUnique_include sessionId ;;
       ret (json (JSession updatedSession)))
    (fun _ => mkResponse 500 (JError "Failed to leave session")).

(** [app.delete('/api/sessions/:id', ...)] *)
Definition delete_session_handler (userId : Z) (id : string)
  : DB -> Response * DB :=
  try_catch
    (let sessionId := Js.parseInt id in
     session <- session_findUnique sessionId ;;
     match session with
     | None => ret (mkResponse 404 (JError "Session not found"))
     | Some session =>
         if negb (s_userId session =? userId)
         then ret (mkResponse 403
                     (JError "You can only delete your own sessions"))
         else
           sessionAttendee_deleteMany sessionId None ;;;
           session_delete sessionId ;;;
           ret (json (JMessage "Session deleted successfully"))
     end)
    (fun _ => mkResponse 500 (JError "Failed to delete session")).

(** ** Artwork routes *)

Section ArtworkRoutes.

Variable fk : FkMode.

(** [app.post('/api/artworks/:id/like', ...)] *)
Definition like_handler (userId : Z) (id : string) : DB -> Response * DB :=
  try_catch
    (let artworkId := Js.parseInt id in
     existingLike <- like_findUnique userId artworkId ;;
     match existingLike with
     | Some existingLike =>
         like_delete (l_id existingLike) ;;;
         ret (json (JLiked "Unliked" false))
     | None =>
         like_create fk userId artworkId ;;;
         ret (json (JLiked "Liked" true))
     end)
    (fun error => mkResponse 500 (JErrorWith "Server error: " error)).

(** [app.delete('/api/artworks/:id', ...)] *)
Definition delete_artwork_handler (userId : Z) (id : string)
  : DB -> Response * DB :=
  try_catch
    (let artworkId := Js.parseInt id in
     artwork <- artwork_findUnique artworkId ;;
     match artwork with
     | None => ret (mkResponse 404 (JError "Artwork not found"))
     | Some artwork =>
         if negb (w_userId artwork =? userId)
         then ret (mkResponse 403
                     (JError "You can only delete your own artworks"))
         else
           like_deleteMany artworkId ;;;
           comment_deleteMany artworkId ;;;
           artwork_delete fk artworkId ;;;
           ret (json (JMessage "Artwork deleted successfully"))
     end)
    (fun _ => mkResponse 500 (JError "Failed to delete artwork")).

End ArtworkRoutes.

(** ** Sequences of session requests *)

Inductive Request :=
| CreateSession (userId : Z) (b : SessionBody)
| Join (userId : Z) (id : string)
| Leave (userId : Z) (id : string)
| DeleteSession (userId : Z) (id : string).

Definition handle (r : Request) : DB -> Response * DB :=
  match r with
  | CreateSession u b => create_session_handler u b
  | Join u id => join_handler u id
  | Leave u id => leave_handler u id
  | DeleteSession u id => delete_session_handler u id
  end.

(** The store after serving the requests of [rs] in order. *)
Fixpoint run (rs : list Request) (db : DB) : DB :=
  match rs with
  | [] => db
  | r :: rs => run rs (snd (handle r db))
  end.

(** States the server can be in: those reached from the empty database. *)
Definition reachable (db : DB) : Prop :=
  exists rs, run rs empty_db = db.

(** ** The enrollment scenario of the specification *)

Definition breathwork : SessionBody :=
  mkSessionBody (Some "Breathwork") (Some 1736467200000) (Some "18:00") "2".

Definition scenario : list Request :=
  [CreateSession 1 breathwork; Join 2 "1"; Join 3 "1"; Leave 2 "1";
   Leave 1 "1"; DeleteSession 1 "1"].

Fixpoint statuses (rs : list Request) (db : DB) : list Z :=
  match rs with
  | [] => []
  | r :: rs => status (fst (handle r db)) :: statuses rs (snd (handle r db))
  end.

(** ** Vocabulary of the statements *)

(** The route parameter [id] denotes the integer [sid] and the store
    accepts it as an [Int]. *)
Definition route_id (id : string) (sid : Z) : Prop :=
  Js.parseInt id = Some sid /\ int32 sid = true.

(** Number of attendee rows of a session. *)
Definition attendee_count (sid : Z) (db : DB) : Z :=
  Z.of_nat (List.length (attendees_of sid db)).

Definition has_like (uid wid : Z) (db : DB) : bool :=
  existsb (fun l => (l_userId l =? uid) && (l_artworkId l =? wid)) (likes db).

Definition attendee_key (a : SessionAttendee) : Z * Z :=
  (a_sessionId a, a_userId a).

Definition like_key (l : Like) : Z * Z := (l_userId l, l_artworkId l).

(** What the schema guarantees of the stored rows, and what the session
    routes keep true on top of it. *)
Record Inv (db : DB) : Prop := mkInv {
  inv_fresh : forall s, In s (sessions db) -> s_id s < next_session_id db;
  inv_pkey : NoDup (map s_id (sessions db));
  inv_fkey : forall a, In a (attendees db) ->
             exists s, In s (sessions db) /\ s_id s = a_sessionId a;
  inv_unique : NoDup (map attendee_key (attendees db));
  inv_creator : forall s, In s (sessions db) ->
                is_attendee (s_id s) (s_userId s) db = true;
  inv_capacity : forall s, In s (sessions db) ->
                 attendee_count (s_id s) db <= Z.max 1 (s_maxAttendees s)
}.

(** The one change a session request makes to the store, if any.  A request
    that writes no row may still have drawn ids from the sequences. *)
Inductive effect (db db' : DB) : Prop :=
| Unchanged :
    sessions db' = sessions db -> attendees db' = attendees db ->
    next_session_id db <= next_session_id db' ->
    effect db db'
| Created (s : Session) (row : SessionAttendee) :
    s_id s = next_session_id db ->
    attendee_key row = (s_id s, s_userId s) ->
    is_attendee (s_id s) (s_userId s) db = false ->
    sessions db' = sessions db ++ [s] ->
    attendees db' = attendees db ++ [row] ->
    next_session_id db' = next_session_id db + 1 ->
    effect db db'
| Joined (s : Session) (row : SessionAttendee) :
    lookup_session (s_id s) db = Some s ->
    a_sessionId row = s_id s ->
    is_attendee (s_id s) (a_userId row) db = false ->
    attendee_count (s_id s) db < s_maxAttendees s ->
    sessions db' = sessions db ->
    attendees db' = attendees db ++ [row] ->
    next_session_id db' = next_session_id db ->
    effect db db'
| Left (s : Session) (uid : Z) :
    lookup_session (s_id s) db = Some s ->
    s_userId s <> uid ->
    sessions db' = sessions db ->
    attendees db' =
      filter (fun a => negb ((a_sessionId a =? s_id s) && (a_userId a =? uid)))
             (attendees db) ->
    next_session_id db' = next_session_id db ->
    effect db db'
| Deleted (sid : Z) :
    sessions db' = filter (fun s => negb (s_id s =? sid)) (sessions db) ->
    attendees db' =
      filter (fun a => negb (a_sessionId a =? sid)) (attendees db) ->
    next_session_id db' = next_session_id db ->
    effect db db'.

(** ** Stores the handlers leave behind *)

(** The store once the attendee row of user [uid] in session [sid] is
    inserted. *)
Definition inserted (sid uid : Z) (db : DB) : DB :=
  mkDB (sessions db) (attendees db ++ [mkAttendee (next_attendee_id db) sid uid])
       (artworks db) (likes db) (comments db) (next_session_id db)
       (next_attendee_id db + 1) (next_like_id db).

(** The store once the attendee rows of user [uid] in session [sid] are
    deleted. *)
Definition removed (sid uid : Z) (db : DB) : DB :=
  mkDB (sessions db)
       (filter (fun a => negb ((a_sessionId a =? sid) && (a_userId a =? uid)))
               (attendees db))
       (artworks db) (likes db) (comments db) (next_session_id db)
       (next_attendee_id db) (next_like_id db).

(** The store once session [sid] and its attendee rows are deleted. *)
Definition dropped (sid : Z) (db : DB) : DB :=
  mkDB (filter (fun s => negb (s_id s =? sid)) (sessions db))
       (filter (fun a => negb (a_sessionId a =? sid)) (attendees db))
       (artworks db) (likes db) (comments db) (next_session_id db)
       (next_attendee_id db) (next_like_id db).

(** The store once session [s] and the attendee row of its creator are
    inserted. *)
Definition opened (s : Session) (db : DB) : DB :=
  mkDB (sessions db ++ [s])
       (attendees db ++ [mkAttendee (next_attendee_id db) (s_id s) (s_userId s)])
       (artworks db) (likes db) (comments db) (next_session_id db + 1)
       (next_attendee_id db + 1) (next_like_id db).

(** The body [b] carries a title, a date and a time that the store takes
    and a capacity that [parseInt] reads as the 32-bit integer [n]. *)
Definition takes_body (b : SessionBody) (title : string) (date : Z)
  (time : string) (n : Z) : Prop :=
  (b_title b = Some title /\ text_ok title = true) /\
  (b_date b = Some date /\ stores_date date = true) /\
  (b_time b = Some time /\ text_ok time = true) /\
  Js.parseInt (b_maxAttendees b) = Some n /\ int32 n = true.

(** The store once a create-session transaction is rolled back: the two ids
    it drew are lost. *)
Definition aborted (db : DB) : DB :=
  mkDB (sessions db) (attendees db) (artworks db) (likes db) (comments db)
       (next_session_id db + 1) (next_attendee_id db + 1) (next_like_id db).

(** The session row written by [create_session_handler]. *)
Definition new_session (uid : Z) (title : string) (date : Z) (time : string)
  (maxAttendees : Z) (db : DB) : Session :=
  mkSession (next_session_id db) title date time maxAttendees uid.

(** The store once the like of user [uid] on artwork [wid] is inserted. *)
Definition liked (uid wid : Z) (db : DB) : DB :=
  mkDB (sessions db) (attendees db) (artworks db)
       (likes db ++ [mkLike (next_like_id db) uid wid]) (comments db)
       (next_session_id db) (next_attendee_id db) (next_like_id db + 1).

(** The store once the like rows with the id of [l] are deleted. *)
Definition unliked (l : Like) (db : DB) : DB :=
  set_likes (filter (fun x => negb (l_id x =? l_id l)) (likes db)) db.

(** The store once the likes and comments of artwork [wid] are deleted. *)
Definition stripped (wid : Z) (db : DB) : DB :=
  set_comments (filter (fun c => negb (c_artworkId c =? wid)) (comments db))
    (set_likes (filter (fun l => negb (l_artworkId l =? wid)) (likes db)) db).

(** ... and once the artwork itself is deleted too. *)
Definition purged (wid : Z) (db : DB) : DB :=
  set_artworks (filter (fun w => negb (w_id w =? wid)) (artworks db))
    (stripped wid db).

(** Sample requests and stores. *)
Definition zero_capacity : SessionBody :=
  mkSessionBody (Some "Breathwork") (Some 1736467200000) (Some "18:00") "0".

Definition solo : SessionBody :=
  mkSessionBody (Some "Solo") (Some 1736467200000) (Some "07:30") "1".

Definition gallery : DB :=
  mkDB [] [] [mkArtwork 5 "Dawn" "oil on canvas" "dawn.png" 1]
       [mkLike 1 2 5] [mkComment 1 "lovely" 3 5; mkComment 2 "warm" 2 5]
       1 1 2.

(** A store outside the schema: an attendee row of a session that is not
    stored, with the id the next session is to get. *)
Definition dangling : DB :=
  mkDB [] [mkAttendee 1 1 7] [] [] [] 1 2 1.

(** ** What a session request did

    [outcome db r db'] reads: serving [r] on [db] left [db'], with the
    checks the handler made on the way. *)
Inductive outcome (db : DB) : Request -> DB -> Prop :=
| Refused r : outcome db r db
| Aborted uid b :
    is_attendee (next_session_id db) uid db = true ->
    outcome db (CreateSession uid b) (aborted db)
| DidCreate uid b s :
    s_id s = next_session_id db -> s_userId s = uid ->
    is_attendee (s_id s) uid db = false ->
    outcome db (CreateSession uid b) (opened s db)
| DidJoin uid id s :
    route_id id (s_id s) -> lookup_session (s_id s) db = Some s ->
    is_attendee (s_id s) uid db = false ->
    attendee_count (s_id s) db < s_maxAttendees s ->
    outcome db (Join uid id) (inserted (s_id s) uid db)
| DidLeave uid id s :
    route_id id (s_id s) -> lookup_session (s_id s) db = Some s ->
    s_userId s <> uid ->
    outcome db (Leave uid id) (removed (s_id s) uid db)
| DidDelete uid id s :
    route_id id (s_id s) -> lookup_session (s_id s) db = Some s ->
    s_userId s = uid ->
    outcome db (DeleteSession uid id) (dropped (s_id s) db).

(* ===================================================================== *)
(** * The other routes of [server.js] *)
(* ===================================================================== *)

(** ** The authentication middleware *)

(** [s.split(sep)] for a one-character separator. *)
Fixpoint split_on (sep : ascii) (s : string) : list string :=
  match s with
  | EmptyString => [EmptyString]
  | String c r =>
      if Ascii.eqb c sep then EmptyString :: split_on sep r
      else match split_on sep r with
           | piece :: pieces => String c piece :: pieces
           | [] => [String c EmptyString]
           end
  end.

(** [!v] for a value that is a string or [undefined] ([None]). *)
Definition falsy (v : option string) : bool :=
  match v with
  | None => true
  | Some EmptyString => true
  | Some _ => false
  end.

(** What the middleware does with a request: it answers it itself, or sets
    [req.userId] and calls [next()]. *)
Inductive Auth :=
| Denied (status : Z) (error : string)
| Granted (userId : Z).

Section Authentication.

(** [jwt.verify(token, JWT_SECRET, callback)]: the [id] of the verified
    payload, or [None] when the callback receives an error. *)
Variable jwt_verify : string -> option Z.

(** [authenticateToken]; [authHeader] is [req.headers['authorization']]. *)
Definition authenticateToken (authHeader : option string) : Auth :=
  let token :=
    if falsy authHeader then authHeader
    else match authHeader with
         | Some h => nth_error (split_on " " h) 1
         | None => None
         end in
  if falsy token then Denied 401 "Access denied. No token provided."
  else match token with
       | Some t =>
           match jwt_verify t with
           | None => Denied 403 "Invalid token"
           | Some id => Granted id
           end
       | None => Denied 401 "Access denied. No token provided."
       end.

(** A session or artwork route behind the middleware:
    [app.post(path, authenticateToken, handler)]. *)
Definition authenticated (authHeader : option string)
  (handler : Z -> DB -> Response * DB) : DB -> Response * DB :=
  match authenticateToken authHeader with
  | Denied st error => fun db => (mkResponse st (JError error), db)
  | Granted userId => handler userId
  end.

End Authentication.

(** A string without the space character. *)
Fixpoint no_space (s : string) : bool :=
  match s with
  | EmptyString => true
  | String c r => negb (Ascii.eqb c " ") && no_space r
  end.

(** ** Store calls on the other tables

    The tables below are touched by no session or artwork route; each group
    of routes is modelled over the tables it reads and writes.  A call can
    also fail outside the store (bcrypt refusing its arguments). *)

Inductive Failure :=
| StoreFailure (e : Exn)
| IllegalArguments.        (* bcryptjs: 'Illegal arguments' *)

Definition Tx (S A : Type) : Type := S -> (Failure + A) * S.

Definition tx_ret {S A} (a : A) : Tx S A := fun st => (inr a, st).

Definition tx_throw {S A} (e : Failure) : Tx S A := fun st => (inl e, st).

Definition tx_bind {S A B} (m : Tx S A) (k : A -> Tx S B) : Tx S B :=
  fun st =>
    match m st with
    | (inr a, st') => k a st'
    | (inl e, st') => (inl e, st')
    end.

Notation "x <~ m ;; k" := (tx_bind m (fun x => k))
  (at level 61, m at next level, right associativity).

Definition tx_check_Int {S} (v : option Z) : Tx S Z :=
  match v with
  | Some n =>
      if int32 n then tx_ret n else tx_throw (StoreFailure ValidationError)
  | None => tx_throw (StoreFailure ValidationError)
  end.

Definition tx_check_text {S} (v : string) : Tx S string :=
  if text_ok v then tx_ret v else tx_throw (StoreFailure ValidationError).

(** ** Community posts *)

Record Post := mkPost {
  p_id : Z;
  p_content : string;
  p_userId : Z
}.

Record Board := mkBoard {
  posts : list Post;
  next_post_id : Z
}.

(** ** Accounts *)

Record User := mkUser {
  u_id : Z;
  u_email : string;
  u_password : string;      (* the bcrypt hash *)
  u_name : string
}.

Record Accounts := mkAccounts {
  users : list User;
  next_user_id : Z
}.

(** ** Learning progress *)

Record Progress := mkProgress {
  g_id : Z;
  g_userId : Z;
  g_moduleId : Z;
  g_completed : bool
}.

Record Ledger := mkLedger {
  progress : list Progress;
  next_progress_id : Z
}.

(** ** Responses of these routes *)

Inductive Payload :=
| PError (error : string)                   (* { error } *)
| PErrorWith (prefix : string) (e : Failure) (* { error: prefix + e.message } *)
| PMessage (message : string)               (* { message } *)
| PPost (post : Post)
| PComment (comment : Comment)
| PAuth (token : string) (id : Z) (email name : string)
                               (* { token, user: { id, email, name } } *)
| PProgress (row : Progress).

Record Reply := mkReply {
  code : Z;
  payload : Payload
}.

Definition tx_try {S} (m : Tx S Reply) (handler : Failure -> Reply)
  : S -> Reply * S :=
  fun st =>
    match m st with
    | (inr r, st') => (r, st')
    | (inl e, st') => (handler e, st')
    end.

(** ** Post routes *)

Definition lookup_post (pid : Z) (b : Board) : option Post :=
  find (fun p => p_id p =? pid) (posts b).

(** [prisma.post.create({ data: { content, userId } })] *)
Definition post_create (content : string) (userId : Z) : Tx Board Post :=
  content <~ tx_check_text content ;;
  fun b =>
    let row := mkPost (next_post_id b) content userId in
    (inr row, mkBoard (posts b ++ [row]) (next_post_id b + 1)).

(** [prisma.post.findUnique({ where: { id } })] *)
Definition post_findUnique (id : option Z) : Tx Board (option Post) :=
  pid <~ tx_check_Int id ;;
  fun b => (inr (lookup_post pid b), b).

(** [prisma.post.delete({ where: { id } })] *)
Definition post_delete (id : option Z) : Tx Board unit :=
  pid <~ tx_check_Int id ;;
  fun b =>
    match lookup_post pid b with
    | None => (inl (StoreFailure RecordNotFound), b)
    | Some _ =>
        (inr tt,
         mkBoard (filter (fun p => negb (p_id p =? pid)) (posts b))
                 (next_post_id b))
    end.

(** [app.post('/api/posts', ...)]; [content] is [None] when the body has no
    such field. *)
Definition create_post_handler (userId : Z) (content : option string)
  : Board -> Reply * Board :=
  tx_try
    (if falsy content
     then tx_ret (mkReply 400 (PError "Content is required"))
     else match content with
          | Some content =>
              post <~ post_create content userId ;;
              tx_ret (mkReply 201 (PPost post))
          | None => tx_ret (mkReply 400 (PError "Content is required"))
          end)
    (fun error => mkReply 500 (PErrorWith "Server error: " error)).

(** [app.delete('/api/posts/:id', ...)] *)
Definition delete_post_handler (userId : Z) (id : string)
  : Board -> Reply * Board :=
  tx_try
    (let postId := Js.parseInt id in
     post <~ post_findUnique postId ;;
     match post with
     | None => tx_ret (mkReply 404 (PError "Post not found"))
     | Some post =>
         if negb (p_userId post =? userId)
         then tx_ret (mkReply 403
                        (PError "You can only delete your own posts"))
         else
           _ <~ post_delete postId ;;
           tx_ret (mkReply 200 (PMessage "Post deleted successfully"))
     end)
    (fun _ => mkReply 500 (PError "Failed to delete post")).

Inductive PostRequest :=
| CreatePost (userId : Z) (content : option string)
| DeletePost (userId : Z) (id : string).

Definition serve_post (r : PostRequest) : Board -> Reply * Board :=
  match r with
  | CreatePost u c => create_post_handler u c
  | DeletePost u id => delete_post_handler u id
  end.

Fixpoint run_posts (rs : list PostRequest) (b : Board) : Board :=
  match rs with
  | [] => b
  | r :: rs => run_posts rs (snd (serve_post r b))
  end.

(** Post ids come from the sequence and are unique. *)
Record BoardInv (b : Board) : Prop := mkBoardInv {
  board_fresh : forall p, In p (posts b) -> p_id p < next_post_id b;
  board_pkey : NoDup (map p_id (posts b))
}.

(** ** Account routes *)

Definition lookup_user (email : string) (acc : Accounts) : option User :=
  find (fun u => String.eqb (u_email u) email) (users acc).

(** [prisma.user.findUnique({ where: { email } })]: without an email the
    unique filter is empty and the client rejects the call; an email that
    is no text for the store is refused as well. *)
Definition user_findUnique (email : option string)
  : Tx Accounts (option User) :=
  match email with
  | None => tx_throw (StoreFailure ValidationError)
  | Some email =>
      email <~ tx_check_text email ;;
      fun acc => (inr (lookup_user email acc), acc)
  end.

(** [prisma.user.create({ data: { email, password, name } })]; [email] is
    a unique column, and an insert it refuses does not give the id back. *)
Definition user_create (email password name : string) : Tx Accounts User :=
  email <~ tx_check_text email ;;
  password <~ tx_check_text password ;;
  name <~ tx_check_text name ;;
  fun acc =>
    match lookup_user email acc with
    | Some _ =>
        (inl (StoreFailure UniqueConstraintFailed),
         mkAccounts (users acc) (next_user_id acc + 1))
    | None =>
        let row := mkUser (next_user_id acc) email password name in
        (inr row, mkAccounts (users acc ++ [row]) (next_user_id acc + 1))
    end.

Record Credentials := mkCredentials {
  f_email : option string;
  f_password : option string;
  f_name : option string
}.

Section AccountRoutes.

(** [bcrypt.hash(password, 10)] draws a random salt: the salt drawn for a
    request is an input of its handler.  [jwt.sign] stamps the token with
    the time of issue, an input as well. *)
Variable bcrypt_hash : string -> Z -> string.
Variable bcrypt_compare : string -> string -> bool.
Variable jwt_sign : Z -> Z -> string.

(** [app.post('/api/auth/signup', ...)] *)
Definition signup_handler (salt now : Z) (b : Credentials)
  : Accounts -> Reply * Accounts :=
  tx_try
    (if falsy (f_email b) || falsy (f_password b) || falsy (f_name b)
     then tx_ret (mkReply 400 (PError "All fields are required"))
     else match f_email b, f_password b, f_name b with
          | Some email, Some password, Some name =>
              existingUser <~ user_findUnique (Some email) ;;
              match existingUser with
              | Some _ => tx_ret (mkReply 400 (PError "User already exists"))
              | None =>
                  let hashedPassword := bcrypt_hash password salt in
                  user <~ user_create email hashedPassword name ;;
                  let token := jwt_sign (u_id user) now in
                  tx_ret (mkReply 201
                            (PAuth token (u_id user) (u_email user)
                                   (u_name user)))
              end
          | _, _, _ => tx_ret (mkReply 400 (PError "All fields are required"))
          end)
    (fun error => mkReply 500 (PErrorWith "Server error: " error)).

(** [bcrypt.compare(password, hash)] rejects a password that is not a
    string. *)
Definition compare (password : option string) (hash : string)
  : Tx Accounts bool :=
  match password with
  | None => tx_throw IllegalArguments
  | Some password => tx_ret (bcrypt_compare password hash)
  end.

(** [app.post('/api/auth/signin', ...)]; the [name] field is not read. *)
Definition signin_handler (now : Z) (b : Credentials)
  : Accounts -> Reply * Accounts :=
  tx_try
    (user <~ user_findUnique (f_email b) ;;
     match user with
     | None => tx_ret (mkReply 400 (PError "Invalid credentials"))
     | Some user =>
         validPassword <~ compare (f_password b) (u_password user) ;;
         if negb validPassword
         then tx_ret (mkReply 400 (PError "Invalid credentials"))
         else
           let token := jwt_sign (u_id user) now in
           tx_ret (mkReply 200
                     (PAuth token (u_id user) (u_email user) (u_name user)))
     end)
    (fun error => mkReply 500 (PErrorWith "Server error: " error)).

Inductive AccountRequest :=
| Signup (salt now : Z) (b : Credentials)
| Signin (now : Z) (b : Credentials).

Definition serve_account (r : AccountRequest)
  : Accounts -> Reply * Accounts :=
  match r with
  | Signup salt now b => signup_handler salt now b
  | Signin now b => signin_handler now b
  end.

Fixpoint run_accounts (rs : list AccountRequest) (acc : Accounts)
  : Accounts :=
  match rs with
  | [] => acc
  | r :: rs => run_accounts rs (snd (serve_account r acc))
  end.

End AccountRoutes.

(** The email column is unique. *)
Definition unique_emails (acc : Accounts) : Prop :=
  NoDup (map u_email (users acc)).

(** ** Progress route *)

Definition progress_key (g : Progress) : Z * Z := (g_userId g, g_moduleId g).

Definition is_progress (uid mid : Z) (g : Progress) : bool :=
  (g_userId g =? uid) && (g_moduleId g =? mid).

Definition lookup_progress (uid mid : Z) (l : Ledger) : option Progress :=
  find (is_progress uid mid) (progress l).

Section ProgressRoute.

(** Whether the store takes a progress row for a module id: the [Module]
    table is written by no route, and the schema that says whether
    [Progress] references it is not among the sources. *)
Variable accepts_module : Z -> bool.

(** [prisma.progress.upsert({ where: { userId_moduleId: { userId,
    moduleId } }, update: { completed }, create: { userId, moduleId,
    completed } })]: one insert that turns into an update when the pair is
    already stored.  The id for the row to insert is drawn from the sequence
    in every case, also when the row is then updated or refused. *)
Definition progress_upsert (userId : Z) (moduleId : option Z)
  (completed : bool) : Tx Ledger Progress :=
  mid <~ tx_check_Int moduleId ;;
  fun l =>
    match lookup_progress userId mid l with
    | Some row =>
        let row' := mkProgress (g_id row) (g_userId row) (g_moduleId row)
                               completed in
        (inr row',
         mkLedger
           (map (fun g => if is_progress userId mid g
                          then mkProgress (g_id g) (g_userId g)
                                          (g_moduleId g) completed
                          else g) (progress l))
           (next_progress_id l + 1))
    | None =>
        if accepts_module mid
        then
          let row := mkProgress (next_progress_id l) userId mid completed in
          (inr row,
           mkLedger (progress l ++ [row]) (next_progress_id l + 1))
        else (inl (StoreFailure ForeignKeyConstraintFailed),
              mkLedger (progress l) (next_progress_id l + 1))
    end.

(** [app.post('/api/progress', ...)]; [moduleId] is the string conversion
    of the body field, which is what [parseInt] reads, and [completed] is
    the boolean of the body. *)
Definition update_progress_handler (userId : Z) (moduleId : string)
  (completed : bool) : Ledger -> Reply * Ledger :=
  tx_try
    (progress <~ progress_upsert userId (Js.parseInt moduleId) completed ;;
     tx_ret (mkReply 200 (PProgress progress)))
    (fun error => mkReply 500 (PErrorWith "Server error: " error)).

End ProgressRoute.

(** ** Comment route *)

(** The store with the sequence of the comment ids. *)
Record Thread := mkThread {
  t_db : DB;
  next_comment_id : Z
}.

Section CommentRoute.

Variable fk : FkMode.

(** [prisma.comment.create({ data: { content, userId, artworkId } })]; an
    insert refused by the foreign key does not give the id back. *)
Definition comment_create (content : string) (userId : Z)
  (artworkId : option Z) : Tx Thread Comment :=
  content <~ tx_check_text content ;;
  wid <~ tx_check_Int artworkId ;;
  fun t =>
    if fk_checked fk &&
       match lookup_artwork wid (t_db t) with
       | Some _ => false
       | None => true
       end
    then (inl (StoreFailure ForeignKeyConstraintFailed),
          mkThread (t_db t) (next_comment_id t + 1))
    else
      let row := mkComment (next_comment_id t) content userId wid in
      (inr row,
       mkThread (set_comments (comments (t_db t) ++ [row]) (t_db t))
                (next_comment_id t + 1)).

(** [app.post('/api/artworks/:id/comments', ...)]; [content] is [None]
    when the body has no such field. *)
Definition comment_handler (userId : Z) (id : string)
  (content : option string) : Thread -> Reply * Thread :=
  tx_try
    (let artworkId := Js.parseInt id in
     if falsy content
     then tx_ret (mkReply 400 (PError "Comment content is required"))
     else match content with
          | Some content =>
              comment <~ comment_create content userId artworkId ;;
              tx_ret (mkReply 201 (PComment comment))
          | None =>
              tx_ret (mkReply 400 (PError "Comment content is required"))
          end)
    (fun error => mkReply 500 (PErrorWith "Server error: " error)).

End CommentRoute.

(** ** Sample data for these routes *)

Definition sample_verify (token : string) : option Z :=
  if String.eqb token "tok-1" then Some 1 else None.

Definition sample_hash (password : string) (salt : Z) : string :=
  "$2a$10$" ++ password.

Definition sample_compare (password hash : string) : bool :=
  String.eqb hash ("$2a$10$" ++ password).

Definition sample_sign (id now : Z) : string :=
  if id =? 1 then "tok-1" else "tok-n".

Definition ada : Credentials :=
  mkCredentials (Some "ada@example.org") (Some "s3cret") (Some "Ada").

Definition board : Board :=
  mkBoard [mkPost 1 "hello" 1; mkPost 2 "welcome" 2] 3.

Definition ledger : Ledger :=
  mkLedger [mkProgress 1 1 4 false; mkProgress 2 2 4 true] 3.

Definition members : Accounts :=
  mkAccounts [mkUser 1 "ada@example.org" "$2a$10$s3cret" "Ada"] 2.

Definition bob : Credentials :=
  mkCredentials (Some "bob@example.org") (Some "hunter2") (Some "Bob").

(** The store range of the examples: the dates of the years 1 to 9999,
    in milliseconds since 1970. *)
Definition four_digit_years : StoreRange :=
  {| stores_date :=
       fun d => (-62135596800000 <=? d) && (d <=? 253402300799999) |}.

End Store.

(* ===================================================================== *)
(** * Properties *)
(* ===================================================================== *)

Section Properties.

Context {range : StoreRange}.

(** ** [parseInt] and the scenario of the specification *)

Example parseInt_examples :
  Js.parseInt "2" = Some 2 /\ Js.parseInt "  -0x1F" = Some (-31) /\
  Js.parseInt "12abc" = Some 12 /\ Js.parseInt "abc" = None /\
  Js.parseInt "0x" = None /\ Js.parseInt "undefined" = None.
Proof. repeat split; reflexivity. Qed.

(** ** Lists *)

Lemma existsb_filter {A} (p q : A -> bool) (l : list A) :
  existsb p (filter q l) = existsb (fun a => q a && p a) l.
Proof.
  induction l as [|x l IH]; simpl; [reflexivity|].
  destruct (q x); simpl; rewrite IH; reflexivity.
Qed.

Lemma filter_filter {A} (p q : A -> bool) (l : list A) :
  filter p (filter q l) = filter (fun a => q a && p a) l.
Proof.
  induction l as [|x l IH]; simpl; [reflexivity|].
  destruct (q x); simpl; [destruct (p x)|]; rewrite IH; reflexivity.
Qed.

Lemma filter_all {A} (p : A -> bool) (l : list A) :
  existsb (fun a => negb (p a)) l = false -> filter p l = l.
Proof.
  induction l as [|x l IH]; simpl; [reflexivity|].
  destruct (p x); simpl; [|discriminate].
  intros H. rewrite IH by assumption. reflexivity.
Qed.

Lemma filter_none {A} (p : A -> bool) (l : list A) :
  existsb p l = false -> filter p l = [].
Proof.
  induction l as [|x l IH]; simpl; [reflexivity|].
  destruct (p x); simpl; [discriminate|]. exact IH.
Qed.

Lemma existsb_false_iff {A} (p : A -> bool) (l : list A) :
  existsb p l = false <-> forall a, In a l -> p a = false.
Proof.
  split.
  - intros H a Ha. destruct (p a) eqn:E; [|reflexivity].
    rewrite <- H. symmetry. apply existsb_exists. exists a. auto.
  - intros H. destruct (existsb p l) eqn:E; [|reflexivity].
    apply existsb_exists in E. destruct E as [a [Ha Hp]].
    rewrite (H a Ha) in Hp. discriminate.
Qed.

Lemma find_app_none {A} (p : A -> bool) (l : list A) (x : A) :
  find p l = None -> find p (l ++ [x]) = if p x then Some x else None.
Proof.
  induction l as [|y l IH]; simpl; [reflexivity|].
  destruct (p y); [discriminate|exact IH].
Qed.

Lemma find_app_some {A} (p : A -> bool) (l l' : list A) (x : A) :
  find p l = Some x -> find p (l ++ l') = Some x.
Proof.
  induction l as [|y l IH]; simpl; [discriminate|].
  destruct (p y); [auto|exact IH].
Qed.

Lemma find_app_last {A} (p : A -> bool) (l : list A) (x : A) :
  p x = true -> exists y, find p (l ++ [x]) = Some y.
Proof.
  intros Hx. destruct (find p l) eqn:E.
  - exists a. apply find_app_some. exact E.
  - exists x. rewrite find_app_none by exact E. rewrite Hx. reflexivity.
Qed.

(** ** Store lookups *)

Lemma lookup_session_some sid db s :
  lookup_session sid db = Some s -> In s (sessions db) /\ s_id s = sid.
Proof.
  unfold lookup_session. intros H. apply find_some in H.
  destruct H as [Hin Hid]. apply Z.eqb_eq in Hid. auto.
Qed.

Lemma lookup_session_in db s :
  NoDup (map s_id (sessions db)) -> In s (sessions db) ->
  lookup_session (s_id s) db = Some s.
Proof.
  unfold lookup_session. induction (sessions db) as [|x l IH]; simpl.
  - intros _ [].
  - intros Hnd [->|Hin].
    + rewrite Z.eqb_refl. reflexivity.
    + inversion Hnd as [|? ? Hx Hl]; subst.
      destruct (s_id x =? s_id s) eqn:E.
      * apply Z.eqb_eq in E. exfalso. apply Hx. rewrite E.
        apply in_map. exact Hin.
      * apply IH; assumption.
Qed.

Lemma joined_iff_attendee sid uid db :
  existsb (fun a => a_userId a =? uid) (attendees_of sid db)
  = is_attendee sid uid db.
Proof. unfold attendees_of, is_attendee. apply existsb_filter. Qed.

Lemma is_attendee_true sid uid db :
  is_attendee sid uid db = true <->
  In (sid, uid) (map attendee_key (attendees db)).
Proof.
  unfold is_attendee. rewrite existsb_exists, in_map_iff. split.
  - intros [a [Ha Hk]]. exists a. split; [|exact Ha].
    apply andb_true_iff in Hk. destruct Hk as [H1 H2].
    apply Z.eqb_eq in H1, H2. unfold attendee_key. congruence.
  - intros [a [Hk Ha]]. exists a. split; [exact Ha|].
    unfold attendee_key in Hk. inversion Hk. rewrite !Z.eqb_refl. reflexivity.
Qed.

Lemma check_Int_ok sid : int32 sid = true -> check_Int (Some sid) = ret sid.
Proof. intros H. unfold check_Int. rewrite H. reflexivity. Qed.

(** ** What each session handler computes *)

Lemma join_handler_eq uid id sid db :
  route_id id sid ->
  join_handler uid id db =
  match lookup_session sid db with
  | None => (mkResponse 404 (JError "Session not found"), db)
  | Some s =>
      if is_attendee sid uid db
      then (mkResponse 400 (JError "Already joined this session"), db)
      else if attendee_count sid db >=? s_maxAttendees s
      then (mkResponse 400 (JError "Session is full"), db)
      else (json (JSession (Some (view_of (inserted sid uid db) s))),
            inserted sid uid db)
  end.
Proof.
  intros [Hp Hr]. unfold join_handler, try_catch, bind.
  unfold session_findUnique_include, sessionAttendee_create, bind.
  rewrite Hp, (check_Int_ok _ Hr). unfold ret. simpl.
  destruct (lookup_session sid db) as [s|] eqn:Hs; simpl; [|reflexivity].
  destruct (lookup_session_some _ _ Hs) as [_ Hid].
  rewrite Hid, joined_iff_attendee.
  destruct (is_attendee sid uid db) eqn:Hm; [reflexivity|].
  fold (attendee_count sid db).
  destruct (attendee_count sid db >=? s_maxAttendees s); [reflexivity|].
  unfold attendee_insert. rewrite Hs, Hm.
  fold (inserted sid uid db).
  replace (lookup_session sid (inserted sid uid db)) with (Some s)
    by (symmetry; exact Hs).
  reflexivity.
Qed.

Lemma leave_handler_eq uid id sid db :
  route_id id sid ->
  leave_handler uid id db =
  match lookup_session sid db with
  | None => (mkResponse 500 (JError "Failed to leave session"), db)
  | Some s =>
      if s_userId s =? uid
      then (mkResponse 400 (JError "Cannot leave a session you created"), db)
      else (json (JSession (Some (view_of (removed sid uid db) s))),
            removed sid uid db)
  end.
Proof.
  intros [Hp Hr]. unfold leave_handler, try_catch, bind.
  unfold session_findUnique, session_findUnique_include,
    sessionAttendee_deleteMany, bind.
  rewrite Hp, (check_Int_ok _ Hr). unfold ret, throw. simpl.
  destruct (lookup_session sid db) as [s|] eqn:Hs; simpl; [|reflexivity].
  destruct (s_userId s =? uid); [reflexivity|].
  fold (removed sid uid db).
  replace (lookup_session sid (removed sid uid db)) with (Some s)
    by (symmetry; exact Hs).
  reflexivity.
Qed.

Lemma delete_session_handler_eq uid id sid db :
  route_id id sid ->
  delete_session_handler uid id db =
  match lookup_session sid db with
  | None => (mkResponse 404 (JError "Session not found"), db)
  | Some s =>
      if s_userId s =? uid
      then (json (JMessage "Session deleted successfully"), dropped sid db)
      else (mkResponse 403 (JError "You can only delete your own sessions"),
            db)
  end.
Proof.
  intros [Hp Hr]. unfold delete_session_handler, try_catch, bind.
  unfold session_findUnique, sessionAttendee_deleteMany, session_delete, bind.
  rewrite Hp, (check_Int_ok _ Hr). unfold ret. simpl.
  destruct (lookup_session sid db) as [s|] eqn:Hs; simpl; [|reflexivity].
  destruct (s_userId s =? uid); simpl; [|reflexivity].
  unfold lookup_session in *. simpl. rewrite Hs. simpl.
  unfold dropped. rewrite filter_filter. f_equal. f_equal.
  apply filter_ext. intros a.
  destruct (a_sessionId a =? sid); reflexivity.
Qed.

Lemma route_id_cases id :
  (exists sid, route_id id sid) \/
  check_Int (Js.parseInt id) = throw ValidationError.
Proof.
  unfold route_id, check_Int. destruct (Js.parseInt id) as [n|]; [|auto].
  destruct (int32 n) eqn:E; [left; exists n; auto | auto].
Qed.

Lemma join_handler_rejected uid id db :
  check_Int (Js.parseInt id) = throw ValidationError ->
  join_handler uid id db =
  (mkResponse 500 (JError "Failed to join session"), db).
Proof.
  intros H. unfold join_handler, try_catch, bind, session_findUnique_include,
    bind. rewrite H. reflexivity.
Qed.

Lemma leave_handler_rejected uid id db :
  check_Int (Js.parseInt id) = throw ValidationError ->
  leave_handler uid id db =
  (mkResponse 500 (JError "Failed to leave session"), db).
Proof.
  intros H. unfold leave_handler, try_catch, bind, session_findUnique, bind.
  rewrite H. reflexivity.
Qed.

Lemma delete_session_handler_rejected uid id db :
  check_Int (Js.parseInt id) = throw ValidationError ->
  delete_session_handler uid id db =
  (mkResponse 500 (JError "Failed to delete session"), db).
Proof.
  intros H. unfold delete_session_handler, try_catch, bind,
    session_findUnique, bind. rewrite H. reflexivity.
Qed.

Lemma create_session_handler_refused uid b db :
  (forall title date time n, ~ takes_body b title date time n) ->
  create_session_handler uid b db =
  (mkResponse 500 (JErrorWith "Failed to create session: " ValidationError),
   db).
Proof.
  intros Hno.
  unfold create_session_handler, try_catch, bind, session_create, bind.
  simpl. unfold check_text, check_date, check_Int.
  destruct (b_title b) as [t|] eqn:Ht; [|reflexivity].
  destruct (text_ok t) eqn:Ht'; [|reflexivity].
  destruct (b_date b) as [d|] eqn:Hd; [|reflexivity].
  destruct (stores_date d) eqn:Hd'; [|reflexivity].
  destruct (b_time b) as [tm|] eqn:Htm; [|reflexivity].
  destruct (text_ok tm) eqn:Htm'; [|reflexivity].
  destruct (Js.parseInt (b_maxAttendees b)) as [n|] eqn:Hn; [|reflexivity].
  destruct (int32 n) eqn:Hr; [|reflexivity].
  exfalso. apply (Hno t d tm n). unfold takes_body. rewrite Ht, Hd, Htm, Hn.
  repeat split; assumption.
Qed.

Lemma create_session_handler_run uid b db title date time n :
  takes_body b title date time n ->
  create_session_handler uid b db =
  if is_attendee (next_session_id db) uid db
  then (mkResponse 500
          (JErrorWith "Failed to create session: " UniqueConstraintFailed),
        aborted db)
  else (json (JSession (Some (view_of (opened (new_session uid title date time n
                                                     db) db)
                                 (new_session uid title date time n db)))),
        opened (new_session uid title date time n db) db).
Proof.
  intros [[Ht Ht'] [[Hd Hd'] [[Htm Htm'] [Hn Hr]]]].
  unfold create_session_handler, try_catch, bind, session_create, bind.
  simpl. rewrite Ht, Hd, Htm, Hn. simpl. rewrite Ht', Hd', Htm', Hr.
  unfold ret. cbv beta iota. unfold attendee_insert, is_attendee. simpl.
  destruct (existsb _ (attendees db)); [reflexivity|].
  destruct (find_app_last (fun x => s_id x =? next_session_id db)
              (sessions db)
              (mkSession (next_session_id db) title date time n uid))
    as [y Hy].
  { simpl. apply Z.eqb_refl. }
  unfold lookup_session at 1. simpl. rewrite Hy. reflexivity.
Qed.

Lemma create_session_handler_ok uid b db title date time n :
  takes_body b title date time n ->
  is_attendee (next_session_id db) uid db = false ->
  let s := new_session uid title date time n db in
  create_session_handler uid b db =
  (json (JSession (Some (view_of (opened s db) s))), opened s db).
Proof.
  intros Hb Hm s. rewrite (create_session_handler_run uid db Hb), Hm.
  reflexivity.
Qed.

Lemma takes_body_dec b :
  (exists title date time n, takes_body b title date time n) \/
  (forall title date time n, ~ takes_body b title date time n).
Proof.
  unfold takes_body.
  destruct (b_title b) as [t|];
    [|right; intros ? ? ? ? [[H _] _]; discriminate].
  destruct (text_ok t) eqn:Ht;
    [|right; intros ? ? ? ? [[H1 H2] _]; congruence].
  destruct (b_date b) as [d|];
    [|right; intros ? ? ? ? [_ [[H _] _]]; discriminate].
  destruct (stores_date d) eqn:Hd;
    [|right; intros ? ? ? ? [_ [[H1 H2] _]]; congruence].
  destruct (b_time b) as [tm|];
    [|right; intros ? ? ? ? [_ [_ [[H _] _]]]; discriminate].
  destruct (text_ok tm) eqn:Htm;
    [|right; intros ? ? ? ? [_ [_ [[H1 H2] _]]]; congruence].
  destruct (Js.parseInt (b_maxAttendees b)) as [n|];
    [|right; intros ? ? ? ? [_ [_ [_ [H _]]]]; discriminate].
  destruct (int32 n) eqn:Hn;
    [|right; intros ? ? ? ? [_ [_ [_ [H1 H2]]]]; congruence].
  left. exists t, d, tm, n. repeat split; assumption.
Qed.

Lemma create_session_handler_cases uid b db :
  (exists e, create_session_handler uid b db =
             (mkResponse 500 (JErrorWith "Failed to create session: " e), db))
  \/
  (is_attendee (next_session_id db) uid db = true /\
   create_session_handler uid b db =
   (mkResponse 500
      (JErrorWith "Failed to create session: " UniqueConstraintFailed),
    aborted db))
  \/
  (exists title date time n,
     takes_body b title date time n /\
     is_attendee (next_session_id db) uid db = false).
Proof.
  destruct (takes_body_dec b) as [(t & d & tm & n & Hb)|Hno].
  - destruct (is_attendee (next_session_id db) uid db) eqn:Hm.
    + right. left. split; [reflexivity|].
      rewrite (create_session_handler_run uid db Hb), Hm. reflexivity.
    + right. right. exists t, d, tm, n. auto.
  - left. exists ValidationError.
    apply create_session_handler_refused. exact Hno.
Qed.

(** ** Every session request has one of the five effects *)

Lemma unchanged_refl db : effect db db.
Proof. apply Unchanged; [reflexivity|reflexivity|lia]. Qed.

Lemma handle_effect r db : effect db (snd (handle r db)).
Proof.
  destruct r as [u b|u id|u id|u id]; simpl.
  - destruct (create_session_handler_cases u b db)
      as [[e He]|[[Hdup He]|(t & d & tm & n & Hb & Hm)]].
    + rewrite He. apply unchanged_refl.
    + rewrite He. apply Unchanged; simpl; [reflexivity|reflexivity|lia].
    + rewrite (@create_session_handler_ok u b db t d tm n Hb Hm).
      simpl.
      apply Created with (s := new_session u t d tm n db)
        (row := mkAttendee (next_attendee_id db) (next_session_id db) u);
        simpl; try reflexivity. exact Hm.
  - destruct (route_id_cases id) as [[sid Hid]|Hbad].
    + rewrite (join_handler_eq u db Hid).
      destruct (lookup_session sid db) as [s|] eqn:Hs;
        [|apply unchanged_refl].
      destruct (lookup_session_some _ _ Hs) as [_ Hsid].
      destruct (is_attendee sid u db) eqn:Hm; [apply unchanged_refl|].
      destruct (attendee_count sid db >=? s_maxAttendees s) eqn:Hc;
        [apply unchanged_refl|].
      simpl. subst sid.
      eapply Joined with (s := s) (row := mkAttendee _ (s_id s) u); simpl;
        try reflexivity; try assumption.
      rewrite Z.geb_leb in Hc. apply Z.leb_gt in Hc. exact Hc.
    + rewrite join_handler_rejected by exact Hbad. apply unchanged_refl.
  - destruct (route_id_cases id) as [[sid Hid]|Hbad].
    + rewrite (leave_handler_eq u db Hid).
      destruct (lookup_session sid db) as [s|] eqn:Hs;
        [|apply unchanged_refl].
      destruct (lookup_session_some _ _ Hs) as [_ Hsid].
      destruct (s_userId s =? u) eqn:Hu; [apply unchanged_refl|].
      simpl. subst sid. apply Z.eqb_neq in Hu.
      eapply Left with (s := s) (uid := u); simpl; try reflexivity;
        assumption.
    + rewrite leave_handler_rejected by exact Hbad. apply unchanged_refl.
  - destruct (route_id_cases id) as [[sid Hid]|Hbad].
    + rewrite (delete_session_handler_eq u db Hid).
      destruct (lookup_session sid db) as [s|] eqn:Hs;
        [|apply unchanged_refl].
      destruct (s_userId s =? u) eqn:Hu; [|apply unchanged_refl].
      simpl. apply Deleted with (sid := sid); reflexivity.
    + rewrite delete_session_handler_rejected by exact Hbad.
      apply unchanged_refl.
Qed.

(** ** The invariant is kept by every effect *)

Lemma NoDup_snoc {A} (l : list A) (x : A) :
  NoDup l -> ~ In x l -> NoDup (l ++ [x]).
Proof.
  induction l as [|y l IH]; simpl; intros Hnd Hx.
  - constructor; [intros []|constructor].
  - inversion Hnd as [|? ? Hy Hl]; subst. constructor.
    + intros Hin. apply in_app_or in Hin. destruct Hin as [Hin|[->|[]]].
      * contradiction.
      * apply Hx. left. reflexivity.
    + apply IH; [assumption|]. intros Hin. apply Hx. right. assumption.
Qed.

Lemma unique_keys_filter {Row Key} (keep : Row -> bool) (key : Row -> Key)
  (rows : list Row) (Hnd : NoDup (map key rows)) :
  NoDup (map key (filter keep rows)).
Proof.
  induction rows as [|r rows IH]; simpl in *; [constructor|].
  inversion Hnd as [|? ? Hr Hrows]; subst.
  destruct (keep r); simpl; [|auto]. constructor; [|auto].
  intros Hin. apply Hr. apply in_map_iff in Hin.
  destruct Hin as [y [Hy Hin]]. apply filter_In in Hin.
  apply in_map_iff. exists y. tauto.
Qed.

Lemma filter_filter_length_le {A} (p q : A -> bool) (l : list A) :
  (List.length (filter p (filter q l)) <= List.length (filter p l))%nat.
Proof.
  induction l as [|x l IH]; simpl; [lia|].
  destruct (q x); simpl; destruct (p x); simpl; lia.
Qed.

Lemma same_session db s s' :
  NoDup (map s_id (sessions db)) ->
  lookup_session (s_id s) db = Some s -> In s' (sessions db) ->
  s_id s' = s_id s -> s' = s.
Proof.
  intros Hnd Hl Hin Hid. apply (lookup_session_in _ _ Hnd) in Hin.
  rewrite Hid, Hl in Hin. congruence.
Qed.

Lemma effect_inv db db' : effect db db' -> Inv db -> Inv db'.
Proof.
  intros Heff [Hfresh Hpkey Hfkey Huniq Hcre Hcap].
  destruct Heff as
    [Hs Ha Hn
    |s row Hid Hkey Hm Hs Ha Hn
    |s row Hl Hrs Hm Hc Hs Ha Hn
    |s uid Hl Hne Hs Ha Hn
    |sid Hs Ha Hn].
  - (* no row is written *)
    constructor.
    + intros s Hin. rewrite Hs in Hin. specialize (Hfresh _ Hin). lia.
    + rewrite Hs. assumption.
    + intros a Hin. rewrite Ha in Hin. rewrite Hs. auto.
    + rewrite Ha. assumption.
    + intros s Hin. rewrite Hs in Hin. unfold is_attendee. rewrite Ha.
      apply (Hcre _ Hin).
    + intros s Hin. rewrite Hs in Hin. unfold attendee_count, attendees_of.
      rewrite Ha. apply (Hcap _ Hin).
  - (* a session is created *)
    assert (Hrow : a_sessionId row = s_id s)
      by (unfold attendee_key in Hkey; congruence).
    constructor.
    + intros s' Hin. rewrite Hs in Hin. rewrite Hn.
      apply in_app_or in Hin. destruct Hin as [Hin|[<-|[]]].
      * specialize (Hfresh _ Hin). lia.
      * lia.
    + rewrite Hs, map_app. simpl. apply NoDup_snoc; [assumption|].
      intros Hin. apply in_map_iff in Hin. destruct Hin as [x [Hx Hin]].
      specialize (Hfresh _ Hin). lia.
    + intros a Hin. rewrite Ha in Hin. rewrite Hs.
      apply in_app_or in Hin. destruct Hin as [Hin|[<-|[]]].
      * destruct (Hfkey _ Hin) as [s0 [H0 H1]]. exists s0.
        split; [apply in_or_app; auto|assumption].
      * exists s. split; [apply in_or_app; right; left; reflexivity|].
        congruence.
    + rewrite Ha, map_app. simpl. apply NoDup_snoc; [assumption|].
      rewrite Hkey. intros Hin. apply is_attendee_true in Hin. congruence.
    + intros s' Hin. apply is_attendee_true. rewrite Ha, map_app.
      rewrite Hs in Hin. apply in_app_or in Hin.
      destruct Hin as [Hin|[<-|[]]].
      * apply in_or_app. left. apply is_attendee_true. auto.
      * apply in_or_app. right. left. exact Hkey.
    + intros s' Hin. unfold attendee_count, attendees_of.
      rewrite Ha, filter_app, length_app. simpl.
      rewrite Hs in Hin. apply in_app_or in Hin.
      destruct Hin as [Hin|[<-|[]]].
      * specialize (Hfresh _ Hin).
        replace (a_sessionId row =? s_id s') with false
          by (symmetry; apply Z.eqb_neq; lia).
        simpl. specialize (Hcap _ Hin).
        unfold attendee_count, attendees_of in Hcap. lia.
      * rewrite Hrow, Z.eqb_refl. rewrite filter_none; [simpl; lia|].
        apply existsb_false_iff. intros a Hin. apply Z.eqb_neq.
        destruct (Hfkey _ Hin) as [s0 [H0 H1]].
        specialize (Hfresh _ H0). lia.
  - (* a user joins *)
    constructor.
    + intros s' Hin. rewrite Hs in Hin. rewrite Hn. auto.
    + rewrite Hs. assumption.
    + intros a Hin. rewrite Ha in Hin. rewrite Hs.
      apply in_app_or in Hin. destruct Hin as [Hin|[<-|[]]]; [auto|].
      exists s. destruct (lookup_session_some _ _ Hl). split; congruence.
    + rewrite Ha, map_app. simpl. apply NoDup_snoc; [assumption|].
      unfold attendee_key at 1. rewrite Hrs. intros Hin.
      apply is_attendee_true in Hin. congruence.
    + intros s' Hin. apply is_attendee_true. rewrite Ha, map_app.
      rewrite Hs in Hin. apply in_or_app. left. apply is_attendee_true. auto.
    + intros s' Hin. rewrite Hs in Hin. unfold attendee_count, attendees_of.
      rewrite Ha, filter_app, length_app. simpl.
      destruct (a_sessionId row =? s_id s') eqn:E; simpl.
      * apply Z.eqb_eq in E.
        assert (s' = s) by (apply (same_session db); congruence).
        subst s'. unfold attendee_count, attendees_of in Hc. lia.
      * specialize (Hcap _ Hin).
        unfold attendee_count, attendees_of in Hcap. lia.
  - (* a user leaves *)
    constructor.
    + intros s' Hin. rewrite Hs in Hin. rewrite Hn. auto.
    + rewrite Hs. assumption.
    + intros a Hin. rewrite Ha in Hin. rewrite Hs.
      apply filter_In in Hin. destruct Hin as [Hin _]. auto.
    + rewrite Ha. apply unique_keys_filter. assumption.
    + intros s' Hin. rewrite Hs in Hin. unfold is_attendee. rewrite Ha.
      specialize (Hcre _ Hin). unfold is_attendee in Hcre.
      apply existsb_exists in Hcre. destruct Hcre as [a [Hain Hk]].
      apply existsb_exists. exists a. split; [|exact Hk].
      apply filter_In. split; [exact Hain|].
      apply andb_true_iff in Hk. destruct Hk as [H1 H2].
      apply Z.eqb_eq in H1, H2.
      destruct ((a_sessionId a =? s_id s) && (a_userId a =? uid)) eqn:E;
        [|reflexivity].
      apply andb_true_iff in E. destruct E as [E1 E2].
      apply Z.eqb_eq in E1, E2.
      assert (s' = s) by (apply (same_session db); congruence).
      subst s'. congruence.
    + intros s' Hin. rewrite Hs in Hin. specialize (Hcap _ Hin).
      unfold attendee_count, attendees_of in *. rewrite Ha.
      pose proof (filter_filter_length_le
                    (fun a => a_sessionId a =? s_id s')
                    (fun a => negb ((a_sessionId a =? s_id s)
                                    && (a_userId a =? uid)))
                    (attendees db)).
      lia.
  - (* a session is deleted *)
    constructor.
    + intros s' Hin. rewrite Hs in Hin. rewrite Hn.
      apply filter_In in Hin. destruct Hin. auto.
    + rewrite Hs. apply unique_keys_filter. assumption.
    + intros a Hin. rewrite Ha in Hin. rewrite Hs.
      apply filter_In in Hin. destruct Hin as [Hin Hk].
      destruct (Hfkey _ Hin) as [s0 [H0 H1]]. exists s0.
      split; [|assumption]. apply filter_In. split; [assumption|].
      rewrite H1. exact Hk.
    + rewrite Ha. apply unique_keys_filter. assumption.
    + intros s' Hin. rewrite Hs in Hin. apply filter_In in Hin.
      destruct Hin as [Hin Hk]. unfold is_attendee. rewrite Ha.
      specialize (Hcre _ Hin). unfold is_attendee in Hcre.
      apply existsb_exists in Hcre. destruct Hcre as [a [Hain Hk']].
      apply existsb_exists. exists a. split; [|exact Hk'].
      apply filter_In. split; [exact Hain|].
      apply andb_true_iff in Hk'. destruct Hk' as [H1 _].
      apply Z.eqb_eq in H1. rewrite H1. exact Hk.
    + intros s' Hin. rewrite Hs in Hin. apply filter_In in Hin.
      destruct Hin as [Hin _]. specialize (Hcap _ Hin).
      unfold attendee_count, attendees_of in *. rewrite Ha.
      pose proof (filter_filter_length_le
                    (fun a => a_sessionId a =? s_id s')
                    (fun a => negb (a_sessionId a =? sid))
                    (attendees db)).
      lia.
Qed.

Lemma Inv_empty : Inv empty_db.
Proof.
  constructor; simpl; try (intros ? []); constructor.
Qed.

Lemma run_inv rs : forall db, Inv db -> Inv (run rs db).
Proof.
  induction rs as [|r rs IH]; simpl; intros db H; [exact H|].
  apply IH. apply (effect_inv (handle_effect r db) H).
Qed.

Lemma reachable_inv db : reachable db -> Inv db.
Proof. intros [rs <-]. apply run_inv, Inv_empty. Qed.

(** ** Capacity *)

(** C1, amended.  In every state reached by create-session, join, leave and
    delete-session requests, a session with maximum N has at most max(1, N)
    attendee rows, hence at most N whenever N is positive.  A join by a user
    who is not yet an attendee is answered 400 'Session is full', leaving the
    store as it is, whenever the count is at least the maximum; and a join
    that changes the attendee table found the count below the maximum and
    inserted exactly the new row. *)
Theorem capacity_bound db s uid id :
  reachable db -> In s (sessions db) -> route_id id (s_id s) ->
  attendee_count (s_id s) db <= Z.max 1 (s_maxAttendees s) /\
  (is_attendee (s_id s) uid db = false ->
   attendee_count (s_id s) db >= s_maxAttendees s ->
   join_handler uid id db = (mkResponse 400 (JError "Session is full"), db))
  /\
  (attendees (snd (join_handler uid id db)) <> attendees db ->
   attendee_count (s_id s) db < s_maxAttendees s /\
   is_attendee (s_id s) uid db = false /\
   snd (join_handler uid id db) = inserted (s_id s) uid db).
Proof.
  intros Hreach Hin Hid. pose proof (reachable_inv Hreach) as Hinv.
  pose proof (lookup_session_in _ _ (inv_pkey Hinv) Hin) as Hl.
  rewrite (join_handler_eq uid db Hid), Hl.
  split; [exact (inv_capacity Hinv _ Hin)|]. split.
  - intros Hm Hc. rewrite Hm.
    replace (attendee_count (s_id s) db >=? s_maxAttendees s) with true;
      [reflexivity|].
    symmetry. rewrite Z.geb_leb. apply Z.leb_le. lia.
  - destruct (is_attendee (s_id s) uid db);
      [intros H; exfalso; apply H; reflexivity|].
    destruct (attendee_count (s_id s) db >=? s_maxAttendees s) eqn:Hc;
      [intros H; exfalso; apply H; reflexivity|].
    intros _. rewrite Z.geb_leb in Hc. apply Z.leb_gt in Hc. auto.
Qed.

(** ** Duplicate membership *)

(** C2.  When the pair (S, U) is already in SessionAttendee, a join by U for
    S is answered 400 'Already joined this session' and the store is left as
    it is.  No reachable state holds the same (sessionId, userId) pair
    twice, and the store itself refuses the insert of an existing pair: the
    insert fails on the unique index and writes no row (the attendee id it
    drew from the sequence is lost). *)
Theorem already_joined db s uid id :
  reachable db -> In s (sessions db) -> route_id id (s_id s) ->
  is_attendee (s_id s) uid db = true ->
  join_handler uid id db =
    (mkResponse 400 (JError "Already joined this session"), db) /\
  NoDup (map attendee_key (attendees db)) /\
  sessionAttendee_create (Some (s_id s)) uid db =
    (inl UniqueConstraintFailed, skip_attendee_id db) /\
  sessions (skip_attendee_id db) = sessions db /\
  attendees (skip_attendee_id db) = attendees db.
Proof.
  intros Hreach Hin Hid Hm. pose proof (reachable_inv Hreach) as Hinv.
  pose proof (lookup_session_in _ _ (inv_pkey Hinv) Hin) as Hl.
  split; [|split; [|split; [|split; reflexivity]]].
  - rewrite (join_handler_eq uid db Hid), Hl, Hm. reflexivity.
  - exact (inv_unique Hinv).
  - destruct Hid as [_ Hr]. unfold sessionAttendee_create, bind.
    rewrite (check_Int_ok _ Hr). unfold ret, attendee_insert.
    rewrite Hm. reflexivity.
Qed.

(** ** The creator *)

Lemma fresh_no_attendee db :
  Inv db ->
  existsb (fun a => a_sessionId a =? next_session_id db) (attendees db)
  = false.
Proof.
  intros Hinv. apply existsb_false_iff. intros a Hin. apply Z.eqb_neq.
  destruct (inv_fkey Hinv _ Hin) as [s [Hs Hid]].
  pose proof (inv_fresh Hinv _ Hs). lia.
Qed.

Lemma fresh_not_attendee db uid :
  Inv db -> is_attendee (next_session_id db) uid db = false.
Proof.
  intros Hinv. unfold is_attendee. apply existsb_false_iff. intros a Hin.
  pose proof (fresh_no_attendee Hinv) as H.
  rewrite existsb_false_iff in H. rewrite (H a Hin). reflexivity.
Qed.

Lemma fresh_lookup db :
  Inv db -> lookup_session (next_session_id db) db = None.
Proof.
  intros Hinv. unfold lookup_session.
  destruct (find _ (sessions db)) as [s|] eqn:E; [|reflexivity].
  apply find_some in E. destruct E as [Hin Hid]. apply Z.eqb_eq in Hid.
  pose proof (inv_fresh Hinv _ Hin). lia.
Qed.

Lemma opened_view db s :
  Inv db -> s_id s = next_session_id db ->
  lookup_session (s_id s) (opened s db) = Some s /\
  attendees_of (s_id s) (opened s db) =
    [mkAttendee (next_attendee_id db) (s_id s) (s_userId s)].
Proof.
  intros Hinv Hid. split.
  - unfold lookup_session. simpl. rewrite find_app_none.
    + rewrite Z.eqb_refl. reflexivity.
    + rewrite Hid. apply (fresh_lookup Hinv).
  - unfold attendees_of. simpl. rewrite filter_app. simpl.
    rewrite Z.eqb_refl. rewrite filter_none; [reflexivity|].
    rewrite Hid. apply (fresh_no_attendee Hinv).
Qed.

(** C3.  In every reachable state the creator of each stored session is one
    of its attendees, and a leave request by the creator is answered 400
    'Cannot leave a session you created' with the store left as it is.  A
    create-session request answered 200 has written the session and the
    creator's attendee row together, and the attendee list it returns is
    that one row; a create-session request that fails writes nothing. *)
Theorem creator_stays db s id uid b :
  reachable db ->
  (In s (sessions db) -> route_id id (s_id s) ->
   is_attendee (s_id s) (s_userId s) db = true /\
   leave_handler (s_userId s) id db =
     (mkResponse 400 (JError "Cannot leave a session you created"), db)) /\
  (status (fst (create_session_handler uid b db)) = 200 ->
   exists s' row,
     create_session_handler uid b db =
       (json (JSession (Some (mkView s' [row]))), opened s' db) /\
     s_userId s' = uid /\ attendee_key row = (s_id s', uid) /\
     lookup_session (s_id s') (opened s' db) = Some s' /\
     attendees_of (s_id s') (opened s' db) = [row]) /\
  (status (fst (create_session_handler uid b db)) <> 200 ->
   snd (create_session_handler uid b db) = db).
Proof.
  intros Hreach. pose proof (reachable_inv Hreach) as Hinv.
  split; [|split].
  - intros Hin Hid.
    pose proof (lookup_session_in _ _ (inv_pkey Hinv) Hin) as Hl.
    split; [exact (inv_creator Hinv _ Hin)|].
    rewrite (leave_handler_eq (s_userId s) db Hid), Hl, Z.eqb_refl.
    reflexivity.
  - destruct (create_session_handler_cases uid b db)
      as [[e He]|[[Hdup He]|(t & d & tm & n & Hb & Hm)]].
    + rewrite He. simpl. discriminate.
    + rewrite He. simpl. discriminate.
    + intros _.
      rewrite (@create_session_handler_ok uid b db t d tm n Hb Hm).
      set (s' := new_session uid t d tm n db).
      destruct (@opened_view db s' Hinv eq_refl) as [H1 H2].
      exists s', (mkAttendee (next_attendee_id db) (s_id s') (s_userId s')).
      unfold view_of. rewrite H2. repeat split; assumption.
  - destruct (create_session_handler_cases uid b db)
      as [[e He]|[[Hdup He]|(t & d & tm & n & Hb & Hm)]].
    + rewrite He. reflexivity.
    + rewrite (fresh_not_attendee uid Hinv) in Hdup. discriminate.
    + rewrite (@create_session_handler_ok uid b db t d tm n Hb Hm).
      simpl. intros Hne. exfalso. apply Hne. reflexivity.
Qed.

(** ** Leaving a session that does not exist *)

(** On every identifier that references no session the leave handler
    answers 500. *)
Lemma leave_handler_missing uid id sid db :
  route_id id sid -> lookup_session sid db = None ->
  leave_handler uid id db =
  (mkResponse 500 (JError "Failed to leave session"), db).
Proof.
  intros Hid Hl. rewrite (leave_handler_eq uid db Hid), Hl. reflexivity.
Qed.

(** ** Capacity is not validated *)

(** C5, amended.  The capacity field is read with [parseInt] and is not
    checked to be positive.  For a request with a title and a time that are
    texts the store takes and a date it can hold: whenever [parseInt] yields
    a 32-bit integer n, be it positive, zero or negative, the request is
    answered 200 and a session with exactly the given title, date and time,
    capacity n and the caller as creator is stored, together with the
    creator's attendee row; whenever it yields NaN or a number outside 32
    bits, the request is answered 500 and no row is written.  A request
    whose title or time the store does not take as text, or whose date it
    cannot hold, is answered 500 as well and writes nothing. *)
Theorem create_session_capacity db uid b title date time :
  reachable db ->
  b_title b = Some title -> b_date b = Some date -> b_time b = Some time ->
  (text_ok title = true -> stores_date date = true -> text_ok time = true ->
   forall n, Js.parseInt (b_maxAttendees b) = Some n -> int32 n = true ->
     let s := mkSession (next_session_id db) title date time n uid in
     let row := mkAttendee (next_attendee_id db) (next_session_id db) uid in
     create_session_handler uid b db =
       (json (JSession (Some (mkView s [row]))), opened s db) /\
     sessions (opened s db) = sessions db ++ [s] /\
     attendees (opened s db) = attendees db ++ [row] /\
     lookup_session (next_session_id db) (opened s db) = Some s) /\
  (check_Int (Js.parseInt (b_maxAttendees b)) = throw ValidationError ->
   create_session_handler uid b db =
     (mkResponse 500
        (JErrorWith "Failed to create session: " ValidationError), db)) /\
  (text_ok title = false \/ stores_date date = false \/ text_ok time = false
   -> create_session_handler uid b db =
     (mkResponse 500
        (JErrorWith "Failed to create session: " ValidationError), db)).
Proof.
  intros Hreach Ht Hd Htm. pose proof (reachable_inv Hreach) as Hinv.
  split; [|split].
  - intros Ht' Hd' Htm' n Hn Hr s row.
    pose proof (fresh_not_attendee uid Hinv) as Hm.
    assert (Hb : takes_body b title date time n)
      by (unfold takes_body; repeat split; assumption).
    rewrite (@create_session_handler_ok uid b db title date time n Hb Hm).
    destruct (@opened_view db s Hinv eq_refl) as [H1 H2].
    unfold new_session. fold s. unfold view_of. rewrite H2.
    repeat split; try reflexivity. exact H1.
  - intros Hbad. apply create_session_handler_refused.
    intros t d tm n [_ [_ [_ [Hn Hr]]]].
    rewrite Hn in Hbad. unfold check_Int in Hbad. rewrite Hr in Hbad.
    pose proof (f_equal (fun m => fst (m db)) Hbad) as Habs.
    discriminate Habs.
  - intros Hbad. apply create_session_handler_refused.
    intros t d tm n [[Ht1 Ht2] [[Hd1 Hd2] [[Htm1 Htm2] _]]].
    rewrite Ht in Ht1. rewrite Hd in Hd1. rewrite Htm in Htm1.
    inversion Ht1; inversion Hd1; inversion Htm1; subst.
    destruct Hbad as [Hx|[Hx|Hx]]; congruence.
Qed.

(** ** Likes *)

Lemma has_like_lookup uid wid db :
  has_like uid wid db =
  match lookup_like uid wid db with Some _ => true | None => false end.
Proof.
  unfold has_like, lookup_like. induction (likes db) as [|x l IH]; simpl;
    [reflexivity|].
  destruct ((l_userId x =? uid) && (l_artworkId x =? wid)); simpl; auto.
Qed.

Lemma like_key_eqb uid wid l :
  (l_userId l =? uid) && (l_artworkId l =? wid) = true <->
  like_key l = (uid, wid).
Proof.
  unfold like_key. rewrite andb_true_iff, !Z.eqb_eq. split.
  - intros [-> ->]. reflexivity.
  - intros H. inversion H. auto.
Qed.

Lemma has_like_true uid wid db :
  has_like uid wid db = true <-> In (uid, wid) (map like_key (likes db)).
Proof.
  unfold has_like. rewrite existsb_exists, in_map_iff. split.
  - intros [l [Hin Hk]]. exists l. split; [|exact Hin].
    apply like_key_eqb. exact Hk.
  - intros [l [Hk Hin]]. exists l. split; [exact Hin|].
    apply like_key_eqb. exact Hk.
Qed.

Lemma like_handler_eq fk uid id wid db :
  route_id id wid ->
  like_handler fk uid id db =
  match lookup_like uid wid db with
  | Some l => (json (JLiked "Unliked" false), unliked l db)
  | None =>
      if fk_checked fk &&
         match lookup_artwork wid db with Some _ => false | None => true end
      then (mkResponse 500
              (JErrorWith "Server error: " ForeignKeyConstraintFailed),
            skip_like_id db)
      else (json (JLiked "Liked" true), liked uid wid db)
  end.
Proof.
  intros [Hp Hr]. unfold like_handler, try_catch, bind.
  unfold like_findUnique, like_create, bind.
  rewrite Hp, (check_Int_ok _ Hr). unfold ret. simpl.
  destruct (lookup_like uid wid db) as [l|] eqn:Hl; simpl.
  - unfold like_delete.
    replace (existsb (fun x => l_id x =? l_id l) (likes db)) with true;
      [reflexivity|].
    symmetry. apply existsb_exists. exists l. split; [|apply Z.eqb_refl].
    unfold lookup_like in Hl. apply find_some in Hl. tauto.
  - rewrite Hl.
    destruct (fk_checked fk &&
              match lookup_artwork wid db with
              | Some _ => false | None => true end); reflexivity.
Qed.

Lemma NoDup_map_same {A B} (f : A -> B) (l : list A) (x y : A) :
  NoDup (map f l) -> In x l -> In y l -> f x = f y -> x = y.
Proof.
  induction l as [|z l IH]; simpl; [intros _ []|].
  intros Hnd Hx Hy E. inversion Hnd as [|? ? Hz Hl]; subst.
  destruct Hx as [->|Hx], Hy as [->|Hy].
  - reflexivity.
  - exfalso. apply Hz. rewrite E. apply in_map. exact Hy.
  - exfalso. apply Hz. rewrite <- E. apply in_map. exact Hx.
  - apply IH; assumption.
Qed.

Lemma like_toggle_once fk uid id wid w db :
  route_id id wid -> lookup_artwork wid db = Some w ->
  NoDup (map like_key (likes db)) ->
  fst (like_handler fk uid id db) =
    (if has_like uid wid db then json (JLiked "Unliked" false)
     else json (JLiked "Liked" true)) /\
  has_like uid wid (snd (like_handler fk uid id db))
    = negb (has_like uid wid db) /\
  lookup_artwork wid (snd (like_handler fk uid id db)) = Some w /\
  NoDup (map like_key (likes (snd (like_handler fk uid id db)))).
Proof.
  intros Hid Hw Hnd. rewrite (like_handler_eq fk uid db Hid).
  rewrite (has_like_lookup uid wid db).
  destruct (lookup_like uid wid db) as [l|] eqn:Hl.
  - simpl. split; [reflexivity|]. split; [|split].
    + unfold has_like. simpl. apply existsb_false_iff. intros x Hx.
      apply filter_In in Hx. destruct Hx as [Hx Hne].
      destruct ((l_userId x =? uid) && (l_artworkId x =? wid)) eqn:E;
        [|reflexivity].
      apply like_key_eqb in E. unfold lookup_like in Hl.
      apply find_some in Hl. destruct Hl as [Hin Hk].
      apply like_key_eqb in Hk.
      assert (x = l) by (apply (NoDup_map_same like_key (likes db));
                         congruence).
      subst x. rewrite Z.eqb_refl in Hne. discriminate.
    + exact Hw.
    + apply unique_keys_filter. exact Hnd.
  - rewrite Hw, andb_false_r. simpl. split; [reflexivity|].
    split; [|split].
    + unfold has_like. simpl. rewrite existsb_app. simpl.
      rewrite !Z.eqb_refl. simpl. apply orb_true_r.
    + exact Hw.
    + rewrite map_app. simpl. apply NoDup_snoc; [exact Hnd|].
      unfold like_key at 1. simpl. intros Hin.
      apply has_like_true in Hin. rewrite has_like_lookup, Hl in Hin.
      discriminate.
Qed.

(** C6, amended.  The like toggle of a user U on an identifier that
    references no artwork, and that U has no like on, never answers
    NotFound: when the store checks the foreign key from Like to Artwork the
    insert is refused, the answer is 500 and no row is written (the like id
    drawn from the sequence is lost, every table is as before); when it
    does not, the like is written and the answer is 200 with liked true. *)
Theorem like_missing_artwork fk uid id wid db :
  route_id id wid -> lookup_artwork wid db = None ->
  has_like uid wid db = false ->
  status (fst (like_handler fk uid id db)) <> 404 /\
  (fk_checked fk = true ->
   like_handler fk uid id db =
     (mkResponse 500 (JErrorWith "Server error: " ForeignKeyConstraintFailed),
      skip_like_id db) /\
   likes (skip_like_id db) = likes db /\
   artworks (skip_like_id db) = artworks db /\
   comments (skip_like_id db) = comments db /\
   sessions (skip_like_id db) = sessions db /\
   attendees (skip_like_id db) = attendees db) /\
  (fk_checked fk = false ->
   like_handler fk uid id db =
     (json (JLiked "Liked" true), liked uid wid db)).
Proof.
  intros Hid Hw Hl. rewrite (like_handler_eq fk uid db Hid).
  rewrite has_like_lookup in Hl.
  destruct (lookup_like uid wid db); [discriminate|]. rewrite Hw.
  destruct (fk_checked fk); simpl; repeat split; try discriminate;
    reflexivity.
Qed.

(** C7.  For an existing artwork A and a store whose likes are unique per
    (user, artwork): when U's like on A exists, one toggle answers liked
    false and afterwards the like is gone; when it does not exist, one toggle
    answers liked true and afterwards the like exists; and after two toggles
    in a row the like exists exactly when it did before the first. *)
Theorem like_toggle fk uid id wid w db :
  route_id id wid -> lookup_artwork wid db = Some w ->
  NoDup (map like_key (likes db)) ->
  let once := like_handler fk uid id db in
  let twice := like_handler fk uid id (snd once) in
  (has_like uid wid db = true ->
   fst once = json (JLiked "Unliked" false) /\
   has_like uid wid (snd once) = false) /\
  (has_like uid wid db = false ->
   fst once = json (JLiked "Liked" true) /\
   has_like uid wid (snd once) = true) /\
  has_like uid wid (snd twice) = has_like uid wid db.
Proof.
  intros Hid Hw Hnd once twice.
  destruct (like_toggle_once fk uid db Hid Hw Hnd) as [H1 [H2 [H3 H4]]].
  destruct (like_toggle_once fk uid (snd once) Hid H3 H4) as [_ [H5 _]].
  fold once in H1, H2. fold twice in H5.
  split; [|split].
  - intros H. rewrite H in H1, H2. auto.
  - intros H. rewrite H in H1, H2. auto.
  - rewrite H5, H2. apply negb_involutive.
Qed.

(** ** Deleting a session *)

(** C8.  A delete-session request for an identifier that references no
    session is answered 404 and changes nothing; one by a user who is not
    the creator is answered 403 and changes nothing; one by the creator is
    answered 200, removes every attendee row of the session and the session
    itself and nothing else, after which the session is not found. *)
Theorem delete_session_outcomes db uid id sid :
  route_id id sid ->
  (lookup_session sid db = None ->
   delete_session_handler uid id db =
     (mkResponse 404 (JError "Session not found"), db)) /\
  (forall s, lookup_session sid db = Some s -> s_userId s <> uid ->
   delete_session_handler uid id db =
     (mkResponse 403 (JError "You can only delete your own sessions"), db)) /\
  (forall s, lookup_session sid db = Some s -> s_userId s = uid ->
   let db' := snd (delete_session_handler uid id db) in
   fst (delete_session_handler uid id db) =
     json (JMessage "Session deleted successfully") /\
   db' = dropped sid db /\
   attendees_of sid db' = [] /\
   lookup_session sid db' = None /\
   (forall u, join_handler u id db' =
              (mkResponse 404 (JError "Session not found"), db')) /\
   (forall u, delete_session_handler u id db' =
              (mkResponse 404 (JError "Session not found"), db'))).
Proof.
  intros Hid. rewrite (delete_session_handler_eq uid db Hid).
  split; [|split].
  - intros ->. reflexivity.
  - intros s -> Hne. apply Z.eqb_neq in Hne. rewrite Hne. reflexivity.
  - intros s -> <-. rewrite Z.eqb_refl. simpl.
    assert (Hgone : lookup_session sid (dropped sid db) = None).
    { unfold lookup_session, dropped. simpl.
      destruct (find _ (filter _ (sessions db))) as [x|] eqn:E;
        [|reflexivity].
      apply find_some in E. destruct E as [Hin Hx].
      apply filter_In in Hin. destruct Hin as [_ Hne].
      rewrite Hx in Hne. discriminate. }
    repeat split.
    + unfold attendees_of, dropped. simpl. rewrite filter_filter.
      apply filter_none. apply existsb_false_iff. intros a _.
      destruct (a_sessionId a =? sid); reflexivity.
    + exact Hgone.
    + intros u. rewrite (join_handler_eq u _ Hid), Hgone. reflexivity.
    + intros u. rewrite (delete_session_handler_eq u _ Hid), Hgone.
      reflexivity.
Qed.

(** ** Leaving without being a member *)

Lemma removed_absent sid uid db :
  is_attendee sid uid db = false -> removed sid uid db = db.
Proof.
  intros Hm. unfold removed. rewrite filter_all.
  - destruct db; reflexivity.
  - unfold is_attendee in Hm. rewrite existsb_false_iff in *. intros a Hin.
    rewrite (Hm a Hin). reflexivity.
Qed.

(** C9.  A leave request on an existing session by a user who is neither its
    creator nor one of its attendees is answered 200 with the session and its
    current attendee list, and the store is left as it is. *)
Theorem leave_non_member db uid id sid s :
  route_id id sid -> lookup_session sid db = Some s ->
  s_userId s <> uid -> is_attendee sid uid db = false ->
  leave_handler uid id db =
    (mkResponse 200 (JSession (Some (mkView s (attendees_of sid db)))), db).
Proof.
  intros Hid Hl Hne Hm. rewrite (leave_handler_eq uid db Hid), Hl.
  apply Z.eqb_neq in Hne. rewrite Hne. rewrite (removed_absent _ _ _ Hm).
  destruct (lookup_session_some _ _ Hl) as [_ <-]. reflexivity.
Qed.

(** ** Deleting an artwork *)

Lemma filter_idem {A} (p : A -> bool) (l : list A) :
  filter p (filter p l) = filter p l.
Proof.
  rewrite filter_filter. apply filter_ext. intros a. destruct (p a); auto.
Qed.

Lemma stripped_unreferenced wid db : referenced wid (stripped wid db) = false.
Proof.
  unfold referenced, stripped. simpl. apply orb_false_iff. split;
    apply existsb_false_iff; intros x Hin; apply filter_In in Hin;
    destruct Hin as [_ H]; apply negb_true_iff in H; exact H.
Qed.

Lemma artwork_delete_stripped fk wid w db :
  int32 wid = true -> lookup_artwork wid db = Some w ->
  artwork_delete fk (Some wid) (stripped wid db) = (inr tt, purged wid db).
Proof.
  intros Hr Hw. unfold artwork_delete, bind. rewrite (check_Int_ok _ Hr).
  unfold ret.
  replace (lookup_artwork wid (stripped wid db)) with (Some w)
    by (symmetry; exact Hw).
  destruct fk.
  - reflexivity.
  - rewrite stripped_unreferenced. reflexivity.
  - unfold purged, stripped, set_artworks, set_comments, set_likes. simpl.
    rewrite !filter_idem. reflexivity.
Qed.

Lemma strip_calls wid db :
  int32 wid = true ->
  (like_deleteMany (Some wid) ;;; comment_deleteMany (Some wid)) db
  = (inr tt, stripped wid db).
Proof.
  intros Hr. unfold bind, like_deleteMany, comment_deleteMany, bind.
  rewrite (check_Int_ok _ Hr). reflexivity.
Qed.

Lemma delete_artwork_handler_eq fk uid id wid db :
  route_id id wid ->
  delete_artwork_handler fk uid id db =
  match lookup_artwork wid db with
  | None => (mkResponse 404 (JError "Artwork not found"), db)
  | Some w =>
      if w_userId w =? uid
      then (json (JMessage "Artwork deleted successfully"), purged wid db)
      else (mkResponse 403 (JError "You can only delete your own artworks"),
            db)
  end.
Proof.
  intros [Hp Hr]. unfold delete_artwork_handler, try_catch, bind.
  unfold artwork_findUnique, like_deleteMany, comment_deleteMany, bind.
  rewrite Hp, (check_Int_ok _ Hr). unfold ret. cbv beta iota.
  destruct (lookup_artwork wid db) as [w|] eqn:Hw; [|reflexivity].
  destruct (w_userId w =? uid); [|reflexivity].
  change (negb true) with false. cbv beta iota.
  change (artwork_delete fk (Some wid) _)
    with (artwork_delete fk (Some wid) (stripped wid db)).
  rewrite (@artwork_delete_stripped fk wid w db Hr Hw). reflexivity.
Qed.

(** C10.  A delete-artwork request for an identifier that references no
    artwork is answered 404, and one by a user who does not own the artwork
    is answered 403; neither changes the store.  A request by the owner is
    answered 200: the likes and the comments of the artwork are deleted
    first, while the artwork is still stored, then the artwork is deleted;
    afterwards no like, comment or artwork row with that artwork id is
    left, and the other rows are as before. *)
Theorem delete_artwork_outcomes fk db uid id wid :
  route_id id wid ->
  (lookup_artwork wid db = None ->
   delete_artwork_handler fk uid id db =
     (mkResponse 404 (JError "Artwork not found"), db)) /\
  (forall w, lookup_artwork wid db = Some w -> w_userId w <> uid ->
   delete_artwork_handler fk uid id db =
     (mkResponse 403 (JError "You can only delete your own artworks"), db)) /\
  (forall w, lookup_artwork wid db = Some w -> w_userId w = uid ->
   delete_artwork_handler fk uid id db =
     (json (JMessage "Artwork deleted successfully"), purged wid db) /\
   (like_deleteMany (Some wid) ;;; comment_deleteMany (Some wid)) db
     = (inr tt, stripped wid db) /\
   referenced wid (stripped wid db) = false /\
   lookup_artwork wid (stripped wid db) = Some w /\
   artwork_delete fk (Some wid) (stripped wid db) = (inr tt, purged wid db) /\
   (forall l, In l (likes (purged wid db)) <->
              In l (likes db) /\ l_artworkId l <> wid) /\
   (forall c, In c (comments (purged wid db)) <->
              In c (comments db) /\ c_artworkId c <> wid) /\
   (forall a, In a (artworks (purged wid db)) <->
              In a (artworks db) /\ w_id a <> wid)).
Proof.
  intros Hid. pose proof Hid as [Hp Hr].
  rewrite (delete_artwork_handler_eq fk uid db Hid).
  split; [|split].
  - intros ->. reflexivity.
  - intros w -> Hne. apply Z.eqb_neq in Hne. rewrite Hne. reflexivity.
  - intros w Hw <-. rewrite Hw, Z.eqb_refl.
    split; [reflexivity|]. split; [apply (@strip_calls wid db Hr)|].
    split; [apply stripped_unreferenced|]. split; [exact Hw|].
    split; [apply (@artwork_delete_stripped fk wid w db Hr Hw)|].
    unfold purged, stripped. simpl.
    split; [|split]; intros x; rewrite filter_In, negb_true_iff, Z.eqb_neq;
      reflexivity.
Qed.

(* ===================================================================== *)
(** * Further properties of the session routes *)
(* ===================================================================== *)

Unset Implicit Arguments.

Lemma handle_outcome r db :
  outcome db r (snd (handle r db)) /\
  (status (fst (handle r db)) <> 200 ->
   snd (handle r db) = db \/
   (snd (handle r db) = aborted db /\
    exists uid, is_attendee (next_session_id db) uid db = true)).
Proof.
  destruct r as [u b|u id|u id|u id]; simpl.
  - destruct (create_session_handler_cases u b db)
      as [[e He]|[[Hdup He]|(t & d & tm & n & Hb & Hm)]].
    + rewrite He. simpl. split; [apply Refused|left; reflexivity].
    + rewrite He. simpl. split; [apply Aborted; exact Hdup|].
      intros _. right. split; [reflexivity|exists u; exact Hdup].
    + rewrite (@create_session_handler_ok u b db t d tm n Hb Hm).
      simpl. split; [|intros H; exfalso; apply H; reflexivity].
      apply DidCreate; simpl; auto.
  - destruct (route_id_cases id) as [[sid Hid]|Hbad].
    + rewrite (join_handler_eq u db Hid).
      destruct (lookup_session sid db) as [s|] eqn:Hs;
        [|split; [apply Refused|left; reflexivity]].
      destruct (lookup_session_some _ _ Hs) as [_ Hsid]. subst sid.
      destruct (is_attendee (s_id s) u db) eqn:Hm;
        [split; [apply Refused|left; reflexivity]|].
      destruct (attendee_count (s_id s) db >=? s_maxAttendees s) eqn:Hc;
        [split; [apply Refused|left; reflexivity]|].
      simpl. split; [|intros H; exfalso; apply H; reflexivity].
      apply DidJoin; auto.
      rewrite Z.geb_leb in Hc. apply Z.leb_gt in Hc. exact Hc.
    + rewrite join_handler_rejected by exact Hbad.
      split; [apply Refused|left; reflexivity].
  - destruct (route_id_cases id) as [[sid Hid]|Hbad].
    + rewrite (leave_handler_eq u db Hid).
      destruct (lookup_session sid db) as [s|] eqn:Hs;
        [|split; [apply Refused|left; reflexivity]].
      destruct (lookup_session_some _ _ Hs) as [_ Hsid]. subst sid.
      destruct (s_userId s =? u) eqn:Hu;
        [split; [apply Refused|left; reflexivity]|].
      simpl. split; [|intros H; exfalso; apply H; reflexivity].
      apply Z.eqb_neq in Hu. apply DidLeave; auto.
    + rewrite leave_handler_rejected by exact Hbad.
      split; [apply Refused|left; reflexivity].
  - destruct (route_id_cases id) as [[sid Hid]|Hbad].
    + rewrite (delete_session_handler_eq u db Hid).
      destruct (lookup_session sid db) as [s|] eqn:Hs;
        [|split; [apply Refused|left; reflexivity]].
      destruct (lookup_session_some _ _ Hs) as [_ Hsid]. subst sid.
      destruct (s_userId s =? u) eqn:Hu;
        [|split; [apply Refused|left; reflexivity]].
      simpl. split; [|intros H; exfalso; apply H; reflexivity].
      apply Z.eqb_eq in Hu. apply DidDelete; auto.
    + rewrite delete_session_handler_rejected by exact Hbad.
      split; [apply Refused|left; reflexivity].
Qed.


(** X2.  The session routes never write to the artwork, like and comment
    tables, nor advance the like sequence. *)
Theorem session_routes_keep_artworks r db :
  artworks (snd (handle r db)) = artworks db /\
  likes (snd (handle r db)) = likes db /\
  comments (snd (handle r db)) = comments db /\
  next_like_id (snd (handle r db)) = next_like_id db.
Proof.
  destruct (handle_outcome r db) as [H _].
  destruct H; repeat split; reflexivity.
Qed.

Lemma handle_inv r db : Inv db -> Inv (snd (handle r db)).
Proof. intros H. apply (effect_inv (handle_effect r db) H). Qed.

Lemma outcome_sessions db r db1 s :
  outcome db r db1 -> In s (sessions db1) ->
  In s (sessions db) \/ s_id s = next_session_id db.
Proof.
  intros Ho Hin. destruct Ho; simpl in Hin; auto.
  - apply in_app_or in Hin. destruct Hin as [Hin|[<-|[]]]; auto.
  - apply filter_In in Hin. tauto.
Qed.

Lemma outcome_sequence db r db1 :
  outcome db r db1 -> next_session_id db <= next_session_id db1.
Proof. intros Ho. destruct Ho; simpl; lia. Qed.

Lemma sessions_after_run rs : forall db s,
  Inv db -> In s (sessions (run rs db)) ->
  In s (sessions db) \/ next_session_id db <= s_id s.
Proof.
  induction rs as [|r rs IH]; simpl; intros db s Hinv Hin; [auto|].
  destruct (handle_outcome r db) as [Ho _].
  destruct (IH _ _ (handle_inv r db Hinv) Hin) as [H|H].
  - destruct (outcome_sessions _ _ _ _ Ho H) as [H'|H']; [auto|right; lia].
  - right. pose proof (outcome_sequence _ _ _ Ho). lia.
Qed.

(** X3.  A stored session is never modified and its id is never given to
    another session: whatever session carries that id after any further
    sequence of session requests is the same row, with the same title, date,
    time, capacity and creator. *)
Theorem session_rows_never_change rs db s s' :
  Inv db -> In s (sessions db) -> In s' (sessions (run rs db)) ->
  s_id s' = s_id s -> s' = s.
Proof.
  intros Hinv Hs Hs' Hid.
  destruct (sessions_after_run rs db s' Hinv Hs') as [Hold|Hnew].
  - apply (same_session db); [exact (inv_pkey Hinv)| |exact Hold|exact Hid].
    apply lookup_session_in; [exact (inv_pkey Hinv)|exact Hs].
  - pose proof (inv_fresh Hinv _ Hs). lia.
Qed.

(** X4.  Only its creator can make a session disappear: if a stored session
    is no longer stored after a sequence of session requests, the sequence
    contains a delete-session request by the creator for that session's id. *)
Theorem only_creator_deletes rs : forall db s,
  Inv db -> In s (sessions db) -> ~ In s (sessions (run rs db)) ->
  exists id, In (DeleteSession (s_userId s) id) rs /\ route_id id (s_id s).
Proof.
  induction rs as [|r rs IH]; simpl; intros db s Hinv Hin Hgone;
    [contradiction|].
  assert (Hnext : In s (sessions (snd (handle r db))) ->
                  exists id, In (DeleteSession (s_userId s) id) rs /\
                             route_id id (s_id s))
    by (intros H; apply (IH _ _ (handle_inv r db Hinv) H Hgone)).
  destruct (handle_outcome r db) as [Ho _].
  remember (snd (handle r db)) as db1 eqn:Hdb1. clear Hdb1 Hgone.
  destruct Ho as [r|u b _|u b s0 _ _ _|u id s0 _ _ _ _|u id s0 _ _ _
                 |u id s0 Hid Hl Hu].
  - destruct (Hnext Hin) as [i [H1 H2]]. exists i. auto.
  - destruct (Hnext Hin) as [i [H1 H2]]. exists i. auto.
  - destruct Hnext as [i [H1 H2]]; [|exists i; auto].
    simpl. apply in_or_app. auto.
  - destruct (Hnext Hin) as [i [H1 H2]]. exists i. auto.
  - destruct (Hnext Hin) as [i [H1 H2]]. exists i. auto.
  - destruct (Z.eq_dec (s_id s) (s_id s0)) as [E|E].
    + assert (s = s0)
        by (apply (same_session db); auto; exact (inv_pkey Hinv)).
      subst s0. exists id. subst u. split; [left; reflexivity|exact Hid].
    + destruct Hnext as [i [H1 H2]]; [|exists i; auto].
      simpl. apply filter_In. split; [exact Hin|].
      apply negb_true_iff, Z.eqb_neq. exact E.
Qed.

(** ** Round trips *)

Lemma removed_inserted sid uid db :
  is_attendee sid uid db = false ->
  attendees (removed sid uid (inserted sid uid db)) = attendees db.
Proof.
  intros Hm. simpl. rewrite filter_app. simpl. rewrite !Z.eqb_refl. simpl.
  rewrite app_nil_r. apply filter_all.
  unfold is_attendee in Hm. rewrite existsb_false_iff in *. intros a Hin.
  rewrite (Hm a Hin). reflexivity.
Qed.

(** X5.  Join followed by leave is a round trip: when a user who is neither
    creator nor attendee joins a session with a free seat and then leaves it,
    both requests are answered 200 and the session and attendee tables are
    what they were before the join. *)
Theorem join_then_leave uid id s db :
  route_id id (s_id s) -> lookup_session (s_id s) db = Some s ->
  s_userId s <> uid -> is_attendee (s_id s) uid db = false ->
  attendee_count (s_id s) db < s_maxAttendees s ->
  let joined := join_handler uid id db in
  let left := leave_handler uid id (snd joined) in
  status (fst joined) = 200 /\ status (fst left) = 200 /\
  is_attendee (s_id s) uid (snd joined) = true /\
  sessions (snd left) = sessions db /\
  attendees (snd left) = attendees db.
Proof.
  intros Hid Hl Hne Hm Hc joined left.
  assert (Hj : joined =
               (json (JSession (Some (view_of (inserted (s_id s) uid db) s))),
                inserted (s_id s) uid db)).
  { unfold joined. rewrite (join_handler_eq uid db Hid), Hl, Hm.
    replace (attendee_count (s_id s) db >=? s_maxAttendees s) with false
      by (symmetry; rewrite Z.geb_leb; apply Z.leb_gt; exact Hc).
    reflexivity. }
  assert (Hv : left =
               (json (JSession
                        (Some (view_of (removed (s_id s) uid
                                          (inserted (s_id s) uid db)) s))),
                removed (s_id s) uid (inserted (s_id s) uid db))).
  { unfold left. rewrite Hj. simpl snd.
    rewrite (leave_handler_eq uid (inserted (s_id s) uid db) Hid).
    replace (lookup_session (s_id s) (inserted (s_id s) uid db))
      with (Some s) by (symmetry; exact Hl).
    apply Z.eqb_neq in Hne. rewrite Hne. reflexivity. }
  rewrite Hj, Hv. simpl fst. simpl snd.
  split; [reflexivity|]. split; [reflexivity|]. split.
  - unfold is_attendee. simpl. rewrite existsb_app. simpl.
    rewrite !Z.eqb_refl. simpl. apply orb_true_r.
  - split; [reflexivity|]. apply removed_inserted. exact Hm.
Qed.

Lemma dropped_opened s db :
  Inv db -> s_id s = next_session_id db ->
  sessions (dropped (s_id s) (opened s db)) = sessions db /\
  attendees (dropped (s_id s) (opened s db)) = attendees db.
Proof.
  intros Hinv Hid. simpl. rewrite !filter_app. simpl. rewrite !Z.eqb_refl.
  simpl. rewrite !app_nil_r. split.
  - apply filter_all. apply existsb_false_iff. intros x Hin.
    apply negb_false_iff, negb_true_iff, Z.eqb_neq.
    pose proof (inv_fresh Hinv _ Hin). lia.
  - apply filter_all. apply existsb_false_iff. intros a Hin.
    apply negb_false_iff, negb_true_iff, Z.eqb_neq.
    destruct (inv_fkey Hinv _ Hin) as [s0 [H0 H1]].
    pose proof (inv_fresh Hinv _ H0). lia.
Qed.

(** X6.  Create-session followed by delete-session is a round trip: in a
    reachable state, when a create-session request is answered 200 and its
    creator then deletes the new session, the delete is answered 200 and the
    session and attendee tables are what they were before the creation. *)
Theorem create_then_delete uid b id db :
  reachable db ->
  status (fst (create_session_handler uid b db)) = 200 ->
  route_id id (next_session_id db) ->
  let created := create_session_handler uid b db in
  let deleted := delete_session_handler uid id (snd created) in
  lookup_session (next_session_id db) db = None /\
  (exists s, lookup_session (next_session_id db) (snd created) = Some s /\
             s_userId s = uid) /\
  fst deleted = json (JMessage "Session deleted successfully") /\
  sessions (snd deleted) = sessions db /\
  attendees (snd deleted) = attendees db.
Proof.
  intros Hreach Hok Hid created deleted. unfold deleted, created.
  pose proof (reachable_inv Hreach) as Hinv.
  split; [apply (fresh_lookup Hinv)|].
  destruct (create_session_handler_cases uid b db)
    as [[e He]|[[Hdup He]|(t & d & tm & n & Hb & Hm)]].
  { rewrite He in Hok. simpl in Hok. discriminate. }
  { rewrite He in Hok. simpl in Hok. discriminate. }
  rewrite (@create_session_handler_ok uid b db t d tm n Hb Hm).
  set (s := new_session uid t d tm n db). simpl snd.
  destruct (@opened_view db s Hinv eq_refl) as [Hs _].
  change (s_id s) with (next_session_id db) in Hs.
  split; [exists s; split; [exact Hs|reflexivity]|].
  rewrite (delete_session_handler_eq uid (opened s db) Hid), Hs.
  change (s_userId s) with uid. rewrite Z.eqb_refl. simpl fst. simpl snd.
  split; [reflexivity|].
  apply (dropped_opened s db Hinv eq_refl).
Qed.

(** ** Sessions do not interfere *)

Lemma find_filter_implied {A} (p q : A -> bool) (l : list A) :
  (forall x, p x = true -> q x = true) -> find p (filter q l) = find p l.
Proof.
  intros H. induction l as [|x l IH]; simpl; [reflexivity|].
  destruct (q x) eqn:Hq; simpl.
  - destruct (p x); [reflexivity|exact IH].
  - destruct (p x) eqn:Hp; [|exact IH].
    rewrite (H x Hp) in Hq. discriminate.
Qed.

Lemma filter_filter_implied {A} (p q : A -> bool) (l : list A) :
  (forall x, p x = true -> q x = true) ->
  filter p (filter q l) = filter p l.
Proof.
  intros H. rewrite filter_filter. apply filter_ext. intros x.
  destruct (p x) eqn:Hp; [rewrite (H x Hp); reflexivity|apply andb_false_r].
Qed.

Lemma other_session_kept sid sid' db db' :
  sid' <> sid ->
  db' = db \/ (exists uid, db' = inserted sid uid db) \/
  (exists uid, db' = removed sid uid db) \/ db' = dropped sid db ->
  lookup_session sid' db' = lookup_session sid' db /\
  attendees_of sid' db' = attendees_of sid' db.
Proof.
  intros Hne [ -> | [ [uid -> ] | [ [uid -> ] | -> ] ] ].
  - auto.
  - split; [reflexivity|]. unfold attendees_of. simpl.
    rewrite filter_app. simpl.
    replace (sid =? sid') with false by (symmetry; apply Z.eqb_neq; auto).
    apply app_nil_r.
  - split; [reflexivity|]. unfold attendees_of. simpl.
    apply filter_filter_implied. intros a Ha. apply Z.eqb_eq in Ha.
    rewrite Ha. replace (sid' =? sid) with false
      by (symmetry; apply Z.eqb_neq; auto).
    reflexivity.
  - split.
    + unfold lookup_session. simpl. apply find_filter_implied.
      intros x Hx. apply Z.eqb_eq in Hx. rewrite Hx.
      apply negb_true_iff, Z.eqb_neq. exact Hne.
    + unfold attendees_of. simpl. apply filter_filter_implied.
      intros a Ha. apply Z.eqb_eq in Ha. rewrite Ha.
      apply negb_true_iff, Z.eqb_neq. exact Hne.
Qed.

(** X7.  A join, leave or delete-session request addressed to one session
    does nothing to any other session: the other session's row and its
    attendee list are the same after the request as before it. *)
Theorem other_sessions_untouched uid id sid sid' db :
  route_id id sid -> sid' <> sid ->
  (lookup_session sid' (snd (join_handler uid id db))
     = lookup_session sid' db /\
   attendees_of sid' (snd (join_handler uid id db)) = attendees_of sid' db)
  /\
  (lookup_session sid' (snd (leave_handler uid id db))
     = lookup_session sid' db /\
   attendees_of sid' (snd (leave_handler uid id db)) = attendees_of sid' db)
  /\
  (lookup_session sid' (snd (delete_session_handler uid id db))
     = lookup_session sid' db /\
   attendees_of sid' (snd (delete_session_handler uid id db))
     = attendees_of sid' db).
Proof.
  intros Hid Hne. split; [|split]; apply (other_session_kept sid); auto.
  - rewrite (join_handler_eq uid db Hid).
    destruct (lookup_session sid db); [|auto].
    destruct (is_attendee sid uid db); [auto|].
    destruct (attendee_count sid db >=? s_maxAttendees s); [auto|].
    right. left. exists uid. reflexivity.
  - rewrite (leave_handler_eq uid db Hid).
    destruct (lookup_session sid db); [|auto].
    destruct (s_userId s =? uid); [auto|].
    right. right. left. exists uid. reflexivity.
  - rewrite (delete_session_handler_eq uid db Hid).
    destruct (lookup_session sid db); [|auto].
    destruct (s_userId s =? uid); auto.
Qed.

(** ** Seats *)

Lemma attendee_counts sid uid db :
  is_attendee sid uid db = true -> 1 <= attendee_count sid db.
Proof.
  unfold is_attendee, attendee_count, attendees_of. intros H.
  apply existsb_exists in H. destruct H as [a [Hin Hk]].
  apply andb_true_iff in Hk. destruct Hk as [Hs _].
  assert (Hf : In a (filter (fun a => a_sessionId a =? sid) (attendees db)))
    by (apply filter_In; auto).
  destruct (filter (fun a => a_sessionId a =? sid) (attendees db));
    [destruct Hf|cbn [List.length]; lia].
Qed.

(** X8.  The creator occupies a seat: in a reachable state a session whose
    capacity is 1 or less can be joined by nobody; every join request for it
    is answered 400 and changes nothing. *)
Theorem single_seat_session_is_closed db s uid id :
  reachable db -> In s (sessions db) -> s_maxAttendees s <= 1 ->
  route_id id (s_id s) ->
  status (fst (join_handler uid id db)) = 400 /\
  snd (join_handler uid id db) = db.
Proof.
  intros Hreach Hin Hmax Hid. pose proof (reachable_inv Hreach) as Hinv.
  rewrite (join_handler_eq uid db Hid).
  rewrite (lookup_session_in _ _ (inv_pkey Hinv) Hin).
  destruct (is_attendee (s_id s) uid db); [split; reflexivity|].
  pose proof (attendee_counts _ _ _ (inv_creator Hinv _ Hin)) as Hc.
  replace (attendee_count (s_id s) db >=? s_maxAttendees s) with true
    by (symmetry; rewrite Z.geb_leb; apply Z.leb_le; lia).
  split; reflexivity.
Qed.

Lemma one_seat_freed (l : list SessionAttendee) sid uid :
  NoDup (map attendee_key l) ->
  existsb (fun a => (a_sessionId a =? sid) && (a_userId a =? uid)) l = true ->
  S (List.length
       (filter (fun a => a_sessionId a =? sid)
          (filter (fun a => negb ((a_sessionId a =? sid)
                                  && (a_userId a =? uid))) l)))
  = List.length (filter (fun a => a_sessionId a =? sid) l).
Proof.
  induction l as [|x l IH]; simpl; [discriminate|].
  intros Hnd Hex. inversion Hnd as [|? ? Hx Hl]; subst.
  destruct ((a_sessionId x =? sid) && (a_userId x =? uid)) eqn:E; simpl.
  - apply andb_true_iff in E. destruct E as [E1 E2]. rewrite E1. simpl.
    f_equal. f_equal. f_equal. apply filter_all.
    apply existsb_false_iff. intros a Ha. apply negb_false_iff.
    destruct ((a_sessionId a =? sid) && (a_userId a =? uid)) eqn:Ea;
      [|reflexivity].
    exfalso. apply Hx. apply andb_true_iff in Ea. destruct Ea as [Ea1 Ea2].
    apply Z.eqb_eq in E1, E2, Ea1, Ea2. apply in_map_iff. exists a.
    split; [|exact Ha]. unfold attendee_key. congruence.
  - destruct (a_sessionId x =? sid); simpl; rewrite <- (IH Hl Hex);
      reflexivity.
Qed.

(** X9.  In a reachable state, when an attendee who is not the creator
    leaves, the request is answered 200 with the session's refreshed attendee
    list, the user is no longer an attendee, exactly one seat is freed, and
    the creator is still an attendee. *)
Theorem member_leaves db s uid id :
  reachable db -> In s (sessions db) -> route_id id (s_id s) ->
  s_userId s <> uid -> is_attendee (s_id s) uid db = true ->
  let db' := snd (leave_handler uid id db) in
  fst (leave_handler uid id db) = json (JSession (Some (view_of db' s))) /\
  is_attendee (s_id s) uid db' = false /\
  attendee_count (s_id s) db' = attendee_count (s_id s) db - 1 /\
  is_attendee (s_id s) (s_userId s) db' = true.
Proof.
  intros Hreach Hin Hid Hne Hm db'. unfold db'.
  pose proof (reachable_inv Hreach) as Hinv.
  pose proof (handle_inv (Leave uid id) db Hinv) as Hinv'. simpl in Hinv'.
  pose proof (lookup_session_in _ _ (inv_pkey Hinv) Hin) as Hl.
  assert (Hv : leave_handler uid id db =
               (json (JSession (Some (view_of (removed (s_id s) uid db) s))),
                removed (s_id s) uid db)).
  { rewrite (leave_handler_eq uid db Hid), Hl.
    apply Z.eqb_neq in Hne. rewrite Hne. reflexivity. }
  rewrite Hv in *. simpl fst. simpl snd in *.
  split; [reflexivity|]. split; [|split].
  - unfold is_attendee. simpl. rewrite existsb_filter.
    apply existsb_false_iff. intros a _.
    destruct ((a_sessionId a =? s_id s) && (a_userId a =? uid));
      reflexivity.
  - unfold attendee_count, attendees_of. simpl.
    pose proof (one_seat_freed (attendees db) (s_id s) uid
                  (inv_unique Hinv) Hm).
    lia.
  - apply (inv_creator Hinv'). exact Hin.
Qed.

(* ===================================================================== *)
(** * Further properties of the artwork routes *)
(* ===================================================================== *)




Lemma existsb_agree {A} (p q : A -> bool) (l : list A) :
  (forall x, In x l -> p x = q x) -> existsb p l = existsb q l.
Proof.
  induction l as [|x l IH]; simpl; intros H; [reflexivity|].
  rewrite (H x) by auto. rewrite IH by auto. reflexivity.
Qed.

(** X11.  A like toggle by user U on artwork A touches that one pair only.
    On a like table whose ids and whose (user, artwork) pairs are unique,
    whether any other user likes A, or U likes any other artwork, is the same
    after the toggle as before; the pairs stay unique; and the session,
    attendee, artwork and comment tables are not written. *)
Theorem like_touches_one_pair fk uid id wid db u' w' :
  route_id id wid ->
  NoDup (map l_id (likes db)) -> NoDup (map like_key (likes db)) ->
  (u', w') <> (uid, wid) ->
  let db' := snd (like_handler fk uid id db) in
  has_like u' w' db' = has_like u' w' db /\
  NoDup (map like_key (likes db')) /\
  sessions db' = sessions db /\ attendees db' = attendees db /\
  artworks db' = artworks db /\ comments db' = comments db.
Proof.
  intros Hid Hids Hkeys Hne db'. unfold db'.
  rewrite (like_handler_eq fk uid db Hid).
  destruct (lookup_like uid wid db) as [l|] eqn:Hl.
  - simpl. split; [|split; [apply unique_keys_filter; exact Hkeys|
                            repeat split; reflexivity]].
    unfold has_like. simpl. rewrite existsb_filter.
    apply existsb_agree. intros x Hx.
    destruct ((l_userId x =? u') && (l_artworkId x =? w')) eqn:E;
      [|apply andb_false_r].
    rewrite andb_true_r. apply negb_true_iff, Z.eqb_neq. intros Heq.
    unfold lookup_like in Hl. apply find_some in Hl.
    destruct Hl as [Hin Hk]. apply like_key_eqb in Hk, E.
    assert (x = l) by (apply (NoDup_map_same l_id (likes db)); auto).
    subst x. apply Hne. congruence.
  - destruct (fk_checked fk && _); simpl.
    + split; [reflexivity|]. split; [exact Hkeys|repeat split; reflexivity].
    + split; [|split; [|repeat split; reflexivity]].
      * unfold has_like. simpl. rewrite existsb_app. simpl.
        destruct ((uid =? u') && (wid =? w')) eqn:E.
        -- exfalso. apply Hne. apply andb_true_iff in E.
           destruct E as [E1 E2]. apply Z.eqb_eq in E1, E2. congruence.
        -- simpl. apply orb_false_r.
      * rewrite map_app. simpl. apply NoDup_snoc; [exact Hkeys|].
        unfold like_key at 1. simpl. intros Hin.
        apply has_like_true in Hin. rewrite has_like_lookup, Hl in Hin.
        discriminate.
Qed.

(* ===================================================================== *)
(** * The authentication middleware *)
(* ===================================================================== *)

Lemma split_no_space s : no_space s = true -> split_on " " s = [s].
Proof.
  induction s as [|c r IH]; simpl; [reflexivity|].
  intros H. apply andb_true_iff in H. destruct H as [Hc Hr].
  apply negb_true_iff in Hc. rewrite Hc, (IH Hr). reflexivity.
Qed.

Lemma split_at_space s r :
  no_space s = true ->
  split_on " " (s ++ String " " r)%string = s :: split_on " " r.
Proof.
  induction s as [|c s IH]; simpl; [reflexivity|].
  intros H. apply andb_true_iff in H. destruct H as [Hc Hs].
  apply negb_true_iff in Hc. rewrite Hc, (IH Hs). reflexivity.
Qed.

Lemma falsy_append s r : falsy (Some (s ++ String " " r)%string) = false.
Proof. destruct s; reflexivity. Qed.

(** X12.  The middleware answers 401 'Access denied. No token provided.',
    and the route handler is not run, when the Authorization header is
    missing, when it contains no space, and when nothing or another space
    follows its first space; a route behind the middleware then leaves the
    store as it is. *)
Theorem no_token_no_entry jwt_verify scheme rest handler db :
  no_space scheme = true ->
  let refused := Denied 401 "Access denied. No token provided." in
  authenticateToken jwt_verify None = refused /\
  authenticateToken jwt_verify (Some scheme) = refused /\
  authenticateToken jwt_verify (Some (scheme ++ " ")%string) = refused /\
  authenticateToken jwt_verify (Some (scheme ++ "  " ++ rest)%string)
    = refused /\
  authenticated jwt_verify (Some scheme) handler db =
    (mkResponse 401 (JError "Access denied. No token provided."), db).
Proof.
  intros Hs refused.
  assert (H2 : authenticateToken jwt_verify (Some scheme) = refused).
  { unfold authenticateToken. destruct scheme as [|c r]; [reflexivity|].
    cbv beta iota delta [falsy]. rewrite (split_no_space _ Hs). reflexivity. }
  split; [reflexivity|]. split; [exact H2|]. split; [|split].
  - unfold authenticateToken. rewrite falsy_append.
    rewrite (split_at_space scheme "" Hs). reflexivity.
  - unfold authenticateToken.
    change (scheme ++ "  " ++ rest)%string
      with (scheme ++ String " " (String " " rest))%string.
    rewrite falsy_append. rewrite (split_at_space scheme _ Hs).
    cbn [split_on Ascii.eqb Bool.eqb nth_error]. reflexivity.
  - unfold authenticated. rewrite H2. reflexivity.
Qed.

(** X13.  The middleware reads the token as the text between the first and
    the second space of the Authorization header and never looks at the
    scheme word before it: whatever that word is, and whatever follows a
    second space, the request is answered 403 'Invalid token' when the token
    does not verify and is otherwise handed to the route handler with the
    user id of the token. *)
Theorem token_is_second_word jwt_verify scheme token rest handler db :
  no_space scheme = true -> no_space token = true -> token <> EmptyString ->
  let verdict :=
    match jwt_verify token with
    | Some id => Granted id
    | None => Denied 403 "Invalid token"
    end in
  authenticateToken jwt_verify (Some (scheme ++ " " ++ token)%string)
    = verdict /\
  authenticateToken jwt_verify
    (Some (scheme ++ " " ++ token ++ " " ++ rest)%string) = verdict /\
  authenticated jwt_verify (Some (scheme ++ " " ++ token)%string) handler db
    = match jwt_verify token with
      | Some id => handler id db
      | None => (mkResponse 403 (JError "Invalid token"), db)
      end.
Proof.
  intros Hs Ht Hne verdict.
  assert (H1 : authenticateToken jwt_verify
                 (Some (scheme ++ " " ++ token)%string) = verdict).
  { unfold authenticateToken.
    change (scheme ++ " " ++ token)%string
      with (scheme ++ String " " token)%string.
    rewrite falsy_append, (split_at_space scheme token Hs).
    rewrite (split_no_space _ Ht). cbn [nth_error].
    destruct token; [contradiction|reflexivity]. }
  split; [exact H1|]. split.
  - unfold authenticateToken.
    change (scheme ++ " " ++ token ++ " " ++ rest)%string
      with (scheme ++ String " " (token ++ String " " rest))%string.
    rewrite falsy_append, (split_at_space scheme _ Hs).
    rewrite (split_at_space token rest Ht). cbn [nth_error].
    destruct token; [contradiction|reflexivity].
  - unfold authenticated. rewrite H1. unfold verdict.
    destruct (jwt_verify token); reflexivity.
Qed.

(* ===================================================================== *)
(** * Community posts *)
(* ===================================================================== *)

Lemma tx_check_Int_ok {S} n :
  int32 n = true -> @tx_check_Int S (Some n) = tx_ret n.
Proof. intros H. unfold tx_check_Int. rewrite H. reflexivity. Qed.

Lemma lookup_post_some pid b p :
  lookup_post pid b = Some p -> In p (posts b) /\ p_id p = pid.
Proof.
  unfold lookup_post. intros H. apply find_some in H.
  destruct H as [Hin Hid]. apply Z.eqb_eq in Hid. auto.
Qed.

Lemma lookup_post_in b p :
  NoDup (map p_id (posts b)) -> In p (posts b) ->
  lookup_post (p_id p) b = Some p.
Proof.
  unfold lookup_post. induction (posts b) as [|x l IH]; simpl.
  - intros _ [].
  - intros Hnd [->|Hin]; [rewrite Z.eqb_refl; reflexivity|].
    inversion Hnd as [|? ? Hx Hl]; subst.
    destruct (p_id x =? p_id p) eqn:E; [|apply IH; assumption].
    apply Z.eqb_eq in E. exfalso. apply Hx. rewrite E.
    apply in_map. exact Hin.
Qed.

Lemma delete_post_handler_eq uid id pid b :
  route_id id pid ->
  delete_post_handler uid id b =
  match lookup_post pid b with
  | None => (mkReply 404 (PError "Post not found"), b)
  | Some p =>
      if p_userId p =? uid
      then (mkReply 200 (PMessage "Post deleted successfully"),
            mkBoard (filter (fun p => negb (p_id p =? pid)) (posts b))
                    (next_post_id b))
      else (mkReply 403 (PError "You can only delete your own posts"), b)
  end.
Proof.
  intros [Hp Hr]. unfold delete_post_handler, tx_try, tx_bind.
  unfold post_findUnique, post_delete, tx_bind.
  rewrite Hp, (tx_check_Int_ok pid Hr). unfold tx_ret. cbv beta iota.
  destruct (lookup_post pid b) as [p|] eqn:Hl; [|reflexivity].
  destruct (p_userId p =? uid); [|reflexivity].
  change (negb true) with false. cbv beta iota. rewrite Hl. reflexivity.
Qed.

Lemma delete_post_handler_rejected uid id b :
  (forall pid, ~ route_id id pid) ->
  delete_post_handler uid id b =
  (mkReply 500 (PError "Failed to delete post"), b).
Proof.
  intros H. unfold delete_post_handler, tx_try, tx_bind, post_findUnique,
    tx_bind, tx_check_Int.
  destruct (Js.parseInt id) as [n|] eqn:Hp; [|reflexivity].
  destruct (int32 n) eqn:Hr; [|reflexivity].
  exfalso. apply (H n). split; auto.
Qed.

Lemma route_id_dec id : (exists n, route_id id n) \/ forall n, ~ route_id id n.
Proof.
  unfold route_id. destruct (Js.parseInt id) as [n|].
  - destruct (int32 n) eqn:E.
    + left. exists n. auto.
    + right. intros m [H1 H2]. congruence.
  - right. intros m [H1 _]. discriminate.
Qed.

Lemma create_post_handler_eq uid content b :
  create_post_handler uid content b =
  if falsy content then (mkReply 400 (PError "Content is required"), b)
  else match content with
       | Some text =>
           if text_ok text
           then (mkReply 201 (PPost (mkPost (next_post_id b) text uid)),
                 mkBoard (posts b ++ [mkPost (next_post_id b) text uid])
                         (next_post_id b + 1))
           else (mkReply 500
                   (PErrorWith "Server error: "
                      (StoreFailure ValidationError)), b)
       | None => (mkReply 400 (PError "Content is required"), b)
       end.
Proof.
  unfold create_post_handler, tx_try, tx_bind, post_create, tx_bind,
    tx_check_text.
  destruct content as [[|c r]|]; try reflexivity.
  cbv beta iota delta [falsy]. destruct (text_ok (String c r)); reflexivity.
Qed.

(** X14.  A delete-post request for an identifier that references no post
    is answered 404, and one by a user who is not the author is answered
    403; neither changes the board.  A request by the author is answered 200
    and removes the posts with that id and no other. *)
Theorem delete_post_outcomes uid id pid b :
  route_id id pid ->
  (lookup_post pid b = None ->
   delete_post_handler uid id b =
     (mkReply 404 (PError "Post not found"), b)) /\
  (forall p, lookup_post pid b = Some p -> p_userId p <> uid ->
   delete_post_handler uid id b =
     (mkReply 403 (PError "You can only delete your own posts"), b)) /\
  (forall p, lookup_post pid b = Some p -> p_userId p = uid ->
   let b' := snd (delete_post_handler uid id b) in
   fst (delete_post_handler uid id b) =
     mkReply 200 (PMessage "Post deleted successfully") /\
   lookup_post pid b' = None /\
   (forall q, In q (posts b') <-> In q (posts b) /\ p_id q <> pid) /\
   next_post_id b' = next_post_id b).
Proof.
  intros Hid. rewrite (delete_post_handler_eq uid id pid b Hid).
  split; [|split].
  - intros ->. reflexivity.
  - intros p -> Hne. apply Z.eqb_neq in Hne. rewrite Hne. reflexivity.
  - intros p -> <-. rewrite Z.eqb_refl. simpl.
    split; [reflexivity|]. split; [|split; [|reflexivity]].
    + unfold lookup_post. simpl.
      destruct (find _ (filter _ (posts b))) as [x|] eqn:E; [|reflexivity].
      apply find_some in E. destruct E as [Hin Hx].
      apply filter_In in Hin. destruct Hin as [_ Hn].
      rewrite Hx in Hn. discriminate.
    + intros q. rewrite filter_In, negb_true_iff, Z.eqb_neq. reflexivity.
Qed.

Lemma serve_post_inv r b : BoardInv b -> BoardInv (snd (serve_post r b)).
Proof.
  intros [Hfresh Hpkey]. destruct r as [u c|u id]; simpl.
  - rewrite create_post_handler_eq.
    destruct c as [[|ch r]|]; cbv beta iota delta [falsy];
      try (constructor; assumption).
    destruct (text_ok (String ch r)); [|constructor; assumption].
    constructor; simpl.
    + intros p Hin. apply in_app_or in Hin.
      destruct Hin as [Hin|[<-|[]]]; [specialize (Hfresh _ Hin)|simpl]; lia.
    + rewrite map_app. simpl. apply NoDup_snoc; [assumption|].
      intros Hin. apply in_map_iff in Hin. destruct Hin as [x [Hx Hin]].
      specialize (Hfresh _ Hin). lia.
  - destruct (route_id_dec id) as [[pid Hid]|Hbad].
    + rewrite (delete_post_handler_eq u id pid b Hid).
      destruct (lookup_post pid b) as [p|]; [|constructor; assumption].
      destruct (p_userId p =? u); [|constructor; assumption].
      constructor; simpl.
      * intros q Hin. apply filter_In in Hin. destruct Hin. auto.
      * apply unique_keys_filter. assumption.
    + rewrite (delete_post_handler_rejected u id b Hbad).
      constructor; assumption.
Qed.

(** X15.  Only its author can make a post disappear: on a board whose post
    ids are unique and below the sequence, if a post is no longer on the
    board after a sequence of create-post and delete-post requests, the
    sequence contains a delete-post request by the author for that post's
    id. *)
Theorem only_author_deletes_post rs : forall b p,
  BoardInv b -> In p (posts b) -> ~ In p (posts (run_posts rs b)) ->
  exists id, In (DeletePost (p_userId p) id) rs /\ route_id id (p_id p).
Proof.
  induction rs as [|r rs IH]; simpl; intros b p Hinv Hin Hgone;
    [contradiction|].
  assert (Hnext : In p (posts (snd (serve_post r b))) ->
                  exists id, In (DeletePost (p_userId p) id) rs /\
                             route_id id (p_id p))
    by (intros H; apply (IH _ _ (serve_post_inv r b Hinv) H Hgone)).
  clear Hgone IH. destruct r as [u c|u id]; simpl in Hnext.
  - rewrite create_post_handler_eq in Hnext.
    destruct Hnext as [i [H1 H2]]; [|exists i; auto].
    destruct c as [[|ch r]|]; cbv beta iota delta [falsy]; auto.
    destruct (text_ok (String ch r)); simpl; auto. apply in_or_app. auto.
  - destruct (route_id_dec id) as [[pid Hid]|Hbad].
    + rewrite (delete_post_handler_eq u id pid b Hid) in Hnext.
      destruct (lookup_post pid b) as [q|] eqn:Hq;
        [|destruct (Hnext Hin) as [i [H1 H2]]; exists i; auto].
      destruct (p_userId q =? u) eqn:Hu;
        [|destruct (Hnext Hin) as [i [H1 H2]]; exists i; auto].
      destruct (Z.eq_dec (p_id p) pid) as [E|E].
      * pose proof (lookup_post_in b p (board_pkey Hinv) Hin) as Hp.
        rewrite E, Hq in Hp. inversion Hp; subst q.
        apply Z.eqb_eq in Hu. subst u. exists id.
        split; [left; reflexivity|]. rewrite E. exact Hid.
      * destruct Hnext as [i [H1 H2]]; [|exists i; auto].
        simpl. apply filter_In. split; [exact Hin|].
        apply negb_true_iff, Z.eqb_neq. exact E.
    + rewrite (delete_post_handler_rejected u id b Hbad) in Hnext.
      destruct (Hnext Hin) as [i [H1 H2]]. exists i. auto.
Qed.

(** X16.  A create-post request whose content is missing or empty is
    answered 400 and changes nothing, and one whose content the store does
    not take as text is answered 500 and changes nothing.  Otherwise it is
    answered 201 with a post that carries the given content, the caller as
    author and the next id of the sequence, appended to the board; and when
    the author then deletes that post, the posts on the board are what they
    were before. *)
Theorem create_post_outcomes uid content id b :
  BoardInv b -> route_id id (next_post_id b) ->
  (falsy content = true ->
   create_post_handler uid content b =
     (mkReply 400 (PError "Content is required"), b)) /\
  (forall text, content = Some text -> text <> EmptyString ->
   text_ok text = false ->
   create_post_handler uid content b =
     (mkReply 500 (PErrorWith "Server error: " (StoreFailure ValidationError)),
      b)) /\
  (forall text, content = Some text -> text <> EmptyString ->
   text_ok text = true ->
   let post := mkPost (next_post_id b) text uid in
   let b' := snd (create_post_handler uid content b) in
   fst (create_post_handler uid content b) = mkReply 201 (PPost post) /\
   posts b' = posts b ++ [post] /\
   code (fst (delete_post_handler uid id b')) = 200 /\
   posts (snd (delete_post_handler uid id b')) = posts b).
Proof.
  intros Hinv Hid. rewrite create_post_handler_eq. split; [|split].
  - intros ->. reflexivity.
  - intros text -> Hne Hbad. destruct text as [|c r]; [contradiction|].
    cbv beta iota delta [falsy]. rewrite Hbad. reflexivity.
  - intros text -> Hne Hok. destruct text as [|c r]; [contradiction|].
    cbv beta iota delta [falsy]. rewrite Hok.
    simpl. split; [reflexivity|]. split; [reflexivity|].
    rewrite (delete_post_handler_eq uid id (next_post_id b) _ Hid).
    unfold lookup_post. simpl. rewrite find_app_none.
    + simpl. rewrite !Z.eqb_refl. simpl. split; [reflexivity|].
      rewrite filter_app. simpl. rewrite Z.eqb_refl. simpl.
      rewrite app_nil_r. apply filter_all. apply existsb_false_iff.
      intros p Hin. apply negb_false_iff, negb_true_iff, Z.eqb_neq.
      pose proof (board_fresh Hinv _ Hin). lia.
    + destruct (find _ (posts b)) as [p|] eqn:E; [|reflexivity].
      apply find_some in E. destruct E as [Hin Hp]. apply Z.eqb_eq in Hp.
      pose proof (board_fresh Hinv _ Hin). lia.
Qed.

(* ===================================================================== *)
(** * Accounts *)
(* ===================================================================== *)

Section AccountProperties.

Variable bcrypt_hash : string -> Z -> string.
Variable bcrypt_compare : string -> string -> bool.
Variable jwt_sign : Z -> Z -> string.

Lemma lookup_user_some email acc u :
  lookup_user email acc = Some u -> In u (users acc) /\ u_email u = email.
Proof.
  unfold lookup_user. intros H. apply find_some in H.
  destruct H as [Hin He]. apply String.eqb_eq in He. auto.
Qed.

Lemma lookup_user_in acc u :
  unique_emails acc -> In u (users acc) ->
  lookup_user (u_email u) acc = Some u.
Proof.
  unfold unique_emails, lookup_user.
  induction (users acc) as [|x l IH]; simpl.
  - intros _ [].
  - intros Hnd [->|Hin]; [rewrite String.eqb_refl; reflexivity|].
    inversion Hnd as [|? ? Hx Hl]; subst.
    destruct (String.eqb (u_email x) (u_email u)) eqn:E;
      [|apply IH; assumption].
    apply String.eqb_eq in E. exfalso. apply Hx. rewrite E.
    apply in_map. exact Hin.
Qed.

Lemma falsy_false v :
  falsy v = false -> exists s, v = Some s /\ s <> EmptyString.
Proof.
  destruct v as [[|c r]|]; try discriminate.
  intros _. exists (String c r). split; [reflexivity|discriminate].
Qed.

Lemma signup_eq salt now b acc :
  signup_handler bcrypt_hash jwt_sign salt now b acc =
  if falsy (f_email b) || falsy (f_password b) || falsy (f_name b)
  then (mkReply 400 (PError "All fields are required"), acc)
  else match f_email b, f_password b, f_name b with
       | Some email, Some password, Some name =>
           if text_ok email
           then
             match lookup_user email acc with
             | Some _ => (mkReply 400 (PError "User already exists"), acc)
             | None =>
                 if text_ok (bcrypt_hash password salt) && text_ok name
                 then
                   (mkReply 201
                      (PAuth (jwt_sign (next_user_id acc) now)
                             (next_user_id acc) email name),
                    mkAccounts
                      (users acc ++
                       [mkUser (next_user_id acc) email
                               (bcrypt_hash password salt) name])
                      (next_user_id acc + 1))
                 else
                   (mkReply 500
                      (PErrorWith "Server error: "
                                  (StoreFailure ValidationError)), acc)
             end
           else
             (mkReply 500
                (PErrorWith "Server error: " (StoreFailure ValidationError)),
              acc)
       | _, _, _ => (mkReply 400 (PError "All fields are required"), acc)
       end.
Proof.
  unfold signup_handler, tx_try.
  destruct (falsy (f_email b) || falsy (f_password b) || falsy (f_name b));
    [reflexivity|].
  destruct (f_email b) as [e|]; [|reflexivity].
  destruct (f_password b) as [p|]; [|reflexivity].
  destruct (f_name b) as [n|]; [|reflexivity].
  unfold tx_bind, user_findUnique, user_create, tx_check_text, tx_throw,
    tx_ret.
  destruct (text_ok e) eqn:Ht; [|reflexivity]. simpl.
  destruct (lookup_user e acc) eqn:Hl; [reflexivity|].
  unfold tx_bind.
  destruct (text_ok (bcrypt_hash p salt)); [|reflexivity].
  destruct (text_ok n); [|reflexivity].
  simpl. rewrite Hl. reflexivity.
Qed.

Lemma signin_eq now b acc :
  signin_handler bcrypt_compare jwt_sign now b acc =
  match f_email b with
  | None =>
      (mkReply 500 (PErrorWith "Server error: " (StoreFailure ValidationError)),
       acc)
  | Some email =>
      if text_ok email
      then
        match lookup_user email acc with
        | None => (mkReply 400 (PError "Invalid credentials"), acc)
        | Some u =>
            match f_password b with
            | None =>
                (mkReply 500 (PErrorWith "Server error: " IllegalArguments),
                 acc)
            | Some password =>
                if bcrypt_compare password (u_password u)
                then (mkReply 200
                        (PAuth (jwt_sign (u_id u) now) (u_id u) (u_email u)
                               (u_name u)), acc)
                else (mkReply 400 (PError "Invalid credentials"), acc)
            end
        end
      else
        (mkReply 500
           (PErrorWith "Server error: " (StoreFailure ValidationError)), acc)
  end.
Proof.
  unfold signin_handler, tx_try, tx_bind, user_findUnique, compare,
    tx_check_text, tx_throw.
  destruct (f_email b) as [e|]; [|reflexivity].
  destruct (text_ok e); [|reflexivity]. simpl.
  destruct (lookup_user e acc) as [u|]; [|reflexivity].
  destruct (f_password b) as [p|]; [|reflexivity].
  unfold tx_ret. destruct (bcrypt_compare p (u_password u)); reflexivity.
Qed.

(** X17.  A signup request with a missing or empty email, password or name
    is answered 400 'All fields are required'; one for an email that the
    store accepts as text and that is already registered is answered 400
    'User already exists'; one for an email that the store refuses as text
    is answered 500.  None of them writes anything. *)
Theorem signup_rejections salt now b acc :
  (falsy (f_email b) || falsy (f_password b) || falsy (f_name b) = true ->
   signup_handler bcrypt_hash jwt_sign salt now b acc =
     (mkReply 400 (PError "All fields are required"), acc)) /\
  (forall email u,
   falsy (f_email b) || falsy (f_password b) || falsy (f_name b) = false ->
   f_email b = Some email -> text_ok email = true ->
   lookup_user email acc = Some u ->
   signup_handler bcrypt_hash jwt_sign salt now b acc =
     (mkReply 400 (PError "User already exists"), acc)) /\
  (forall email,
   falsy (f_email b) || falsy (f_password b) || falsy (f_name b) = false ->
   f_email b = Some email -> text_ok email = false ->
   signup_handler bcrypt_hash jwt_sign salt now b acc =
     (mkReply 500
        (PErrorWith "Server error: " (StoreFailure ValidationError)), acc)).
Proof.
  rewrite signup_eq. split; [|split].
  - intros ->. reflexivity.
  - intros email u Hf He Ht Hl. rewrite Hf, He.
    apply orb_false_iff in Hf. destruct Hf as [Hf Hn].
    apply orb_false_iff in Hf. destruct Hf as [_ Hp].
    destruct (falsy_false _ Hp) as [p [-> _]].
    destruct (falsy_false _ Hn) as [n [-> _]].
    rewrite Ht, Hl. reflexivity.
  - intros email Hf He Ht. rewrite Hf, He.
    apply orb_false_iff in Hf. destruct Hf as [Hf Hn].
    apply orb_false_iff in Hf. destruct Hf as [_ Hp].
    destruct (falsy_false _ Hp) as [p [-> _]].
    destruct (falsy_false _ Hn) as [n [-> _]].
    rewrite Ht. reflexivity.
Qed.

Lemma serve_account_grows r acc :
  unique_emails acc ->
  unique_emails (snd (serve_account bcrypt_hash bcrypt_compare jwt_sign r acc))
  /\ forall u, In u (users acc) ->
     In u (users (snd (serve_account bcrypt_hash bcrypt_compare jwt_sign
                         r acc))).
Proof.
  intros Hu. destruct r as [salt now b|now b]; simpl.
  - rewrite signup_eq.
    destruct (falsy (f_email b) || falsy (f_password b) || falsy (f_name b));
      [auto|].
    destruct (f_email b) as [e|]; [|auto].
    destruct (f_password b) as [p|]; [|auto].
    destruct (f_name b) as [n|]; [|auto].
    destruct (text_ok e); [|auto].
    destruct (lookup_user e acc) eqn:Hl; [auto|].
    destruct (text_ok (bcrypt_hash p salt) && text_ok n); [|auto].
    simpl. split.
    + unfold unique_emails. simpl. rewrite map_app. simpl.
      apply NoDup_snoc; [exact Hu|]. intros Hin.
      apply in_map_iff in Hin. destruct Hin as [x [Hx Hin]].
      unfold lookup_user in Hl. apply (find_none _ _ Hl) in Hin.
      rewrite Hx, String.eqb_refl in Hin. discriminate.
    + intros u Hin. apply in_or_app. auto.
  - rewrite signin_eq.
    destruct (f_email b) as [e|]; [|auto].
    destruct (text_ok e); [|auto].
    destruct (lookup_user e acc) as [u|]; [|auto].
    destruct (f_password b) as [p|]; [|auto].
    destruct (bcrypt_compare p (u_password u)); auto.
Qed.

(** X18.  Accounts only grow: along any sequence of signup and signin
    requests no user row is removed or changed, and the emails of the stored
    users stay pairwise different. *)
Theorem accounts_only_grow rs : forall acc,
  unique_emails acc ->
  unique_emails (run_accounts bcrypt_hash bcrypt_compare jwt_sign rs acc) /\
  forall u, In u (users acc) ->
    In u (users (run_accounts bcrypt_hash bcrypt_compare jwt_sign rs acc)).
Proof.
  induction rs as [|r rs IH]; simpl; intros acc Hu; [auto|].
  destruct (serve_account_grows r acc Hu) as [H1 H2].
  destruct (IH _ H1) as [H3 H4]. split; [exact H3|].
  intros u Hin. apply H4, H2, Hin.
Qed.

(** X19.  Signup followed by signin is a round trip.  Provided bcrypt
    accepts a password against its own hash, once a signup is answered 201
    for an email and a password, a signin with that email and password is
    answered 200 for the same user id, also after any further sequence of
    signup and signin requests. *)
Theorem signup_then_signin salt now now' b b' rs acc :
  (forall password s, bcrypt_compare password (bcrypt_hash password s) = true)
  -> unique_emails acc ->
  code (fst (signup_handler bcrypt_hash jwt_sign salt now b acc)) = 201 ->
  f_email b' = f_email b -> f_password b' = f_password b ->
  exists email name,
    f_email b = Some email /\ f_name b = Some name /\
    fst (signup_handler bcrypt_hash jwt_sign salt now b acc) =
      mkReply 201 (PAuth (jwt_sign (next_user_id acc) now)
                         (next_user_id acc) email name) /\
    signin_handler bcrypt_compare jwt_sign now' b'
      (run_accounts bcrypt_hash bcrypt_compare jwt_sign rs
         (snd (signup_handler bcrypt_hash jwt_sign salt now b acc))) =
      (mkReply 200 (PAuth (jwt_sign (next_user_id acc) now')
                          (next_user_id acc) email name),
       run_accounts bcrypt_hash bcrypt_compare jwt_sign rs
         (snd (signup_handler bcrypt_hash jwt_sign salt now b acc))).
Proof.
  intros Hbcrypt Hu Hok He Hp. rewrite signup_eq in *.
  destruct (falsy (f_email b) || falsy (f_password b) || falsy (f_name b));
    [discriminate|].
  destruct (f_email b) as [e|]; [|discriminate].
  destruct (f_password b) as [p|]; [|discriminate].
  destruct (f_name b) as [n|]; [|discriminate].
  destruct (text_ok e) eqn:Ht; [|discriminate].
  destruct (lookup_user e acc) eqn:Hl; [discriminate|].
  destruct (text_ok (bcrypt_hash p salt) && text_ok n); [|discriminate].
  exists e, n. split; [reflexivity|]. split; [reflexivity|].
  split; [reflexivity|]. simpl snd.
  set (u := mkUser (next_user_id acc) e (bcrypt_hash p salt) n).
  set (acc1 := mkAccounts (users acc ++ [u]) (next_user_id acc + 1)).
  assert (Hu1 : unique_emails acc1).
  { unfold unique_emails, acc1. simpl. rewrite map_app. simpl.
    apply NoDup_snoc; [exact Hu|]. intros Hin.
    apply in_map_iff in Hin. destruct Hin as [x [Hx Hin]].
    unfold lookup_user in Hl. apply (find_none _ _ Hl) in Hin.
    rewrite Hx, String.eqb_refl in Hin. discriminate. }
  destruct (accounts_only_grow rs acc1 Hu1) as [Hu2 Hkeep].
  assert (Hin : In u (users (run_accounts bcrypt_hash bcrypt_compare
                               jwt_sign rs acc1)))
    by (apply Hkeep; unfold acc1; simpl; apply in_or_app; right; left;
        reflexivity).
  pose proof (lookup_user_in _ u Hu2 Hin) as Hfind.
  change (u_email u) with e in Hfind.
  rewrite signin_eq, He, Ht, Hfind, Hp. simpl. rewrite Hbcrypt. reflexivity.
Qed.

(** X20.  A signin request does not tell an unknown email from a wrong
    password: for an email that the store accepts as text both are answered
    400 'Invalid credentials'; an email that the store refuses as text is
    answered 500; and no signin request writes to the accounts. *)
Theorem signin_hides_accounts now b acc email :
  f_email b = Some email ->
  (text_ok email = true -> lookup_user email acc = None ->
   signin_handler bcrypt_compare jwt_sign now b acc =
     (mkReply 400 (PError "Invalid credentials"), acc)) /\
  (forall u password,
   text_ok email = true ->
   lookup_user email acc = Some u -> f_password b = Some password ->
   bcrypt_compare password (u_password u) = false ->
   signin_handler bcrypt_compare jwt_sign now b acc =
     (mkReply 400 (PError "Invalid credentials"), acc)) /\
  (text_ok email = false ->
   signin_handler bcrypt_compare jwt_sign now b acc =
     (mkReply 500
        (PErrorWith "Server error: " (StoreFailure ValidationError)), acc)) /\
  snd (signin_handler bcrypt_compare jwt_sign now b acc) = acc.
Proof.
  intros He. rewrite signin_eq, He. split; [|split; [|split]].
  - intros -> ->. reflexivity.
  - intros u p -> -> -> ->. reflexivity.
  - intros ->. reflexivity.
  - destruct (text_ok email); [|reflexivity].
    destruct (lookup_user email acc) as [u|]; [|reflexivity].
    destruct (f_password b) as [p|]; [|reflexivity].
    destruct (bcrypt_compare p (u_password u)); reflexivity.
Qed.

End AccountProperties.

(* ===================================================================== *)
(** * Learning progress *)
(* ===================================================================== *)

Lemma find_map_same_test {A} (p : A -> bool) (f : A -> A) (l : list A) :
  (forall x, p (f x) = p x) -> find p (map f l) = option_map f (find p l).
Proof.
  intros H. induction l as [|x l IH]; simpl; [reflexivity|].
  rewrite H. destruct (p x); [reflexivity|exact IH].
Qed.

Lemma find_app_miss {A} (p : A -> bool) (l : list A) (x : A) :
  p x = false -> find p (l ++ [x]) = find p l.
Proof.
  intros H. induction l as [|y l IH]; simpl; [rewrite H; reflexivity|].
  destruct (p y); [reflexivity|exact IH].
Qed.

Lemma map_untouched {A} (p : A -> bool) (f : A -> A) (l : list A) :
  find p l = None -> map (fun x => if p x then f x else x) l = l.
Proof.
  induction l as [|x l IH]; simpl; [reflexivity|].
  destruct (p x); [discriminate|]. intros H. rewrite IH by exact H.
  reflexivity.
Qed.

Lemma is_progress_key uid mid g :
  is_progress uid mid g = true <-> progress_key g = (uid, mid).
Proof.
  unfold is_progress, progress_key. rewrite andb_true_iff, !Z.eqb_eq. split.
  - intros [-> ->]. reflexivity.
  - intros H. inversion H. auto.
Qed.

Lemma update_progress_handler_eq accepts uid m mid c l :
  route_id m mid ->
  update_progress_handler accepts uid m c l =
  match lookup_progress uid mid l with
  | Some row =>
      (mkReply 200
         (PProgress (mkProgress (g_id row) (g_userId row) (g_moduleId row) c)),
       mkLedger
         (map (fun g => if is_progress uid mid g
                        then mkProgress (g_id g) (g_userId g) (g_moduleId g) c
                        else g) (progress l))
         (next_progress_id l + 1))
  | None =>
      if accepts mid
      then (mkReply 200
              (PProgress (mkProgress (next_progress_id l) uid mid c)),
            mkLedger (progress l ++ [mkProgress (next_progress_id l) uid mid c])
                     (next_progress_id l + 1))
      else (mkReply 500
              (PErrorWith "Server error: "
                 (StoreFailure ForeignKeyConstraintFailed)),
            mkLedger (progress l) (next_progress_id l + 1))
  end.
Proof.
  intros [Hp Hr]. unfold update_progress_handler, tx_try, tx_bind.
  unfold progress_upsert, tx_bind. rewrite Hp, (tx_check_Int_ok mid Hr).
  unfold tx_ret. cbv beta iota.
  destruct (lookup_progress uid mid l); [reflexivity|].
  destruct (accepts mid); reflexivity.
Qed.

Lemma update_progress_handler_rejected accepts uid m c l :
  (forall mid, ~ route_id m mid) ->
  update_progress_handler accepts uid m c l =
  (mkReply 500 (PErrorWith "Server error: " (StoreFailure ValidationError)),
   l).
Proof.
  intros H. unfold update_progress_handler, tx_try, tx_bind, progress_upsert,
    tx_bind, tx_check_Int.
  destruct (Js.parseInt m) as [n|] eqn:Hp; [|reflexivity].
  destruct (int32 n) eqn:Hr; [|reflexivity].
  exfalso. apply (H n). split; auto.
Qed.

(** X21.  An upsert of (user, module, completed) that the store takes - the
    row exists already, or the module id is accepted - is answered 200 with
    the row of that pair, which afterwards is stored with the given
    [completed] value; the rows of every other (user, module) pair are as
    before, and the pairs stay unique. *)
Theorem upsert_sets_progress accepts uid m mid c l :
  route_id m mid -> NoDup (map progress_key (progress l)) ->
  lookup_progress uid mid l <> None \/ accepts mid = true ->
  let l' := snd (update_progress_handler accepts uid m c l) in
  exists row,
    fst (update_progress_handler accepts uid m c l)
      = mkReply 200 (PProgress row) /\
    lookup_progress uid mid l' = Some row /\
    progress_key row = (uid, mid) /\ g_completed row = c /\
    NoDup (map progress_key (progress l')) /\
    (forall u' m', (u', m') <> (uid, mid) ->
       lookup_progress u' m' l' = lookup_progress u' m' l).
Proof.
  intros Hid Hnd Htake l'. unfold l'.
  rewrite (update_progress_handler_eq accepts uid m mid c l Hid).
  set (f := fun g => mkProgress (g_id g) (g_userId g) (g_moduleId g) c).
  destruct (lookup_progress uid mid l) as [row|] eqn:Hl.
  - exists (f row). simpl fst. simpl snd.
    assert (Hrow : is_progress uid mid row = true)
      by (unfold lookup_progress in Hl; apply find_some in Hl; tauto).
    split; [reflexivity|]. split; [|split; [|split; [reflexivity|split]]].
    + unfold lookup_progress. simpl.
      rewrite (find_map_same_test (is_progress uid mid)
                 (fun g => if is_progress uid mid g then f g else g)).
      * unfold lookup_progress in Hl. rewrite Hl. simpl. rewrite Hrow.
        reflexivity.
      * intros x. destruct (is_progress uid mid x) eqn:E; [|exact E].
        exact E.
    + apply is_progress_key in Hrow. exact Hrow.
    + simpl. rewrite map_map.
      rewrite (map_ext _ progress_key); [exact Hnd|].
      intros x. destruct (is_progress uid mid x); reflexivity.
    + intros u' m' Hne. unfold lookup_progress. simpl.
      rewrite (find_map_same_test (is_progress u' m')
                 (fun g => if is_progress uid mid g then f g else g)).
      * destruct (find (is_progress u' m') (progress l)) as [x|] eqn:E;
          [|reflexivity].
        simpl. apply find_some in E. destruct E as [_ E].
        destruct (is_progress uid mid x) eqn:E'; [|reflexivity].
        apply is_progress_key in E, E'. exfalso. apply Hne. congruence.
      * intros x. destruct (is_progress uid mid x); reflexivity.
  - destruct Htake as [H|H]; [contradiction|]. rewrite H.
    exists (mkProgress (next_progress_id l) uid mid c). simpl fst. simpl snd.
    split; [reflexivity|]. split; [|split; [reflexivity|
                                     split; [reflexivity|split]]].
    + unfold lookup_progress in *. simpl. rewrite find_app_none by exact Hl.
      unfold is_progress. simpl. rewrite !Z.eqb_refl. reflexivity.
    + simpl. rewrite map_app. simpl. apply NoDup_snoc; [exact Hnd|].
      unfold progress_key at 1. simpl. intros Hin.
      apply in_map_iff in Hin. destruct Hin as [x [Hx Hin]].
      unfold lookup_progress in Hl. apply (find_none _ _ Hl) in Hin.
      apply is_progress_key in Hx. congruence.
    + intros u' m' Hne. unfold lookup_progress. simpl.
      apply find_app_miss. unfold is_progress. simpl.
      destruct ((uid =? u') && (mid =? m')) eqn:E; [|reflexivity].
      apply andb_true_iff in E. destruct E as [E1 E2].
      apply Z.eqb_eq in E1, E2. exfalso. apply Hne. congruence.
Qed.

(** X22.  The last upsert wins: whatever the ledger and the inputs, an
    upsert of a (user, module) pair that follows another upsert of the same
    pair is answered, and leaves the progress rows, exactly as if the
    earlier one had not been made; in particular repeating an upsert changes
    no row.  The id sequence tells the two apart: every upsert that reaches
    the store draws an id, also one that updates a row or is refused. *)
Theorem upsert_last_write_wins accepts uid m c1 c2 l :
  let once := update_progress_handler accepts uid m c2 l in
  let twice := update_progress_handler accepts uid m c2
                 (snd (update_progress_handler accepts uid m c1 l)) in
  fst twice = fst once /\
  progress (snd twice) = progress (snd once) /\
  (forall mid, route_id m mid ->
     next_progress_id (snd once) = next_progress_id l + 1 /\
     next_progress_id (snd twice) = next_progress_id l + 2) /\
  ((forall mid, ~ route_id m mid) -> snd once = l /\ snd twice = l).
Proof.
  intros once twice. unfold once, twice. clear once twice.
  destruct (route_id_dec m) as [[mid Hid]|Hbad].
  - assert (Hseq : forall c k,
              next_progress_id
                (snd (update_progress_handler accepts uid m c k))
              = next_progress_id k + 1).
    { intros c k.
      rewrite (update_progress_handler_eq accepts uid m mid c k Hid).
      destruct (lookup_progress uid mid k); [reflexivity|].
      destruct (accepts mid); reflexivity. }
    assert (Hrows :
      fst (update_progress_handler accepts uid m c2
             (snd (update_progress_handler accepts uid m c1 l)))
        = fst (update_progress_handler accepts uid m c2 l) /\
      progress (snd (update_progress_handler accepts uid m c2
                       (snd (update_progress_handler accepts uid m c1 l))))
        = progress (snd (update_progress_handler accepts uid m c2 l))).
    { rewrite (update_progress_handler_eq accepts uid m mid c1 l Hid).
      rewrite (update_progress_handler_eq accepts uid m mid c2 l Hid).
      destruct (lookup_progress uid mid l) as [row|] eqn:Hl.
      + simpl snd.
        rewrite (update_progress_handler_eq accepts uid m mid c2 _ Hid).
        assert (Hrow : is_progress uid mid row = true)
          by (unfold lookup_progress in Hl; apply find_some in Hl; tauto).
        unfold lookup_progress in *. simpl.
        rewrite (find_map_same_test (is_progress uid mid)
                   (fun g => if is_progress uid mid g
                             then mkProgress (g_id g) (g_userId g)
                                             (g_moduleId g) c1
                             else g)).
        * rewrite Hl. simpl. rewrite Hrow. simpl. split; [reflexivity|].
          rewrite map_map. apply map_ext. intros x.
          destruct (is_progress uid mid x) eqn:E; [|rewrite E; reflexivity].
          unfold is_progress in *. simpl. rewrite E. reflexivity.
        * intros x. destruct (is_progress uid mid x) eqn:E; exact E.
      + destruct (accepts mid) eqn:Ha; simpl snd.
        * rewrite (update_progress_handler_eq accepts uid m mid c2 _ Hid).
          unfold lookup_progress in *. simpl.
          rewrite find_app_none by exact Hl.
          assert (Hnew : is_progress uid mid
                           (mkProgress (next_progress_id l) uid mid c1)
                         = true)
            by (unfold is_progress; simpl; rewrite !Z.eqb_refl; reflexivity).
          rewrite map_app. simpl. rewrite !Hnew. simpl.
          split; [reflexivity|]. f_equal.
          apply (map_untouched (is_progress uid mid)
                   (fun g => mkProgress (g_id g) (g_userId g) (g_moduleId g)
                                        c2)).
          exact Hl.
        * rewrite (update_progress_handler_eq accepts uid m mid c2 _ Hid).
          unfold lookup_progress in *. simpl. rewrite Hl, Ha.
          split; reflexivity. }
    destruct Hrows as [H1 H2]. split; [exact H1|]. split; [exact H2|]. split.
    + intros mid' _. rewrite !Hseq. split; lia.
    + intros Hno. exfalso. exact (Hno mid Hid).
  - rewrite !(update_progress_handler_rejected accepts uid m c1 l Hbad).
    simpl snd.
    rewrite !(update_progress_handler_rejected accepts uid m c2 l Hbad).
    simpl. split; [reflexivity|]. split; [reflexivity|]. split.
    + intros mid Hid. exfalso. exact (Hbad mid Hid).
    + intros _. split; reflexivity.
Qed.

(* ===================================================================== *)
(** * Comments *)
(* ===================================================================== *)

(** X23.  A comment request whose content is missing or empty is answered
    400 and writes nothing, whatever the route id.  A content that the store
    refuses as text is answered 500 and writes nothing either.  With a
    content that the store accepts, on an existing artwork, the request is
    answered 201 with a comment that carries the content, the caller and the
    artwork id, appended to the comment table while every other table is
    left alone; and once the owner deletes the artwork, no comment of that
    artwork is stored. *)
Theorem comment_outcomes fk uid id wid w content t :
  (falsy content = true ->
   comment_handler fk uid id content t =
     (mkReply 400 (PError "Comment content is required"), t)) /\
  (forall text, content = Some text -> text <> EmptyString ->
   text_ok text = false ->
   comment_handler fk uid id content t =
     (mkReply 500
        (PErrorWith "Server error: " (StoreFailure ValidationError)), t)) /\
  (forall text, content = Some text -> text <> EmptyString ->
   text_ok text = true ->
   route_id id wid -> lookup_artwork wid (t_db t) = Some w ->
   let row := mkComment (next_comment_id t) text uid wid in
   let t' := snd (comment_handler fk uid id content t) in
   fst (comment_handler fk uid id content t) = mkReply 201 (PComment row) /\
   t_db t' = set_comments (comments (t_db t) ++ [row]) (t_db t) /\
   next_comment_id t' = next_comment_id t + 1 /\
   forall c, In c (comments
                     (snd (delete_artwork_handler fk (w_userId w) id
                             (t_db t')))) ->
             c_artworkId c <> wid).
Proof.
  split; [|split].
  - intros H. unfold comment_handler, tx_try. rewrite H. reflexivity.
  - intros text -> Hne Ht.
    unfold comment_handler, tx_try, tx_bind, comment_create, tx_bind,
      tx_check_text.
    destruct text as [|ch r]; [contradiction|]. cbv beta iota delta [falsy].
    rewrite Ht. reflexivity.
  - intros text -> Hne Ht [Hp Hr] Hw row t'. unfold t'.
    assert (Hc : comment_handler fk uid id (Some text) t =
                 (mkReply 201 (PComment row),
                  mkThread (set_comments (comments (t_db t) ++ [row])
                                         (t_db t))
                           (next_comment_id t + 1))).
    { unfold comment_handler, tx_try, tx_bind, comment_create, tx_bind,
        tx_check_text.
      destruct text as [|ch r]; [contradiction|]. cbv beta iota delta [falsy].
      rewrite Ht, Hp, (tx_check_Int_ok wid Hr). unfold tx_ret.
      cbv beta iota. rewrite Hw, andb_false_r. reflexivity. }
    rewrite Hc. simpl fst. simpl snd. simpl t_db.
    split; [reflexivity|]. split; [reflexivity|]. split; [reflexivity|].
    rewrite (delete_artwork_handler_eq fk (w_userId w) _ (conj Hp Hr)).
    replace (lookup_artwork wid
               (set_comments (comments (t_db t) ++ [row]) (t_db t)))
      with (Some w) by (symmetry; exact Hw).
    rewrite Z.eqb_refl. simpl snd. intros c Hin.
    unfold purged, stripped in Hin. simpl in Hin.
    apply filter_In in Hin. destruct Hin as [_ Hin].
    apply negb_true_iff, Z.eqb_neq in Hin. exact Hin.
Qed.

End Properties.

(* ===================================================================== *)
(** * The properties on sample stores *)
(* ===================================================================== *)

#[local] Existing Instance four_digit_years.

Example scenario_statuses :
  statuses scenario empty_db = [200; 200; 400; 200; 400; 200].
Proof. reflexivity. Qed.

(** C1, as stated, fails.  A session created with [maxAttendees: 0] is stored
    with capacity 0 and already has its creator as attendee, so its attendee
    count 1 exceeds its maximum 0.  And a join by a user who is already an
    attendee of a full session is answered 'Already joined this session',
    not 'Session is full'. *)
Lemma capacity_exceeded_at_creation :
  let db := run [CreateSession 1 zero_capacity] empty_db in
  let full := run [CreateSession 1 solo] empty_db in
  (lookup_session 1 db =
     Some (mkSession 1 "Breathwork" 1736467200000 "18:00" 0 1) /\
   attendee_count 1 db = 1 /\ ~ attendee_count 1 db <= 0) /\
  (lookup_session 1 full =
     Some (mkSession 1 "Solo" 1736467200000 "07:30" 1 1) /\
   attendee_count 1 full >= 1 /\
   join_handler 1 "1" full =
     (mkResponse 400 (JError "Already joined this session"), full) /\
   join_handler 1 "1" full <>
     (mkResponse 400 (JError "Session is full"), full)).
Proof.
  split; [split; [reflexivity|split; [reflexivity|]]|].
  - vm_compute. intros H. apply H. reflexivity.
  - split; [reflexivity|]. split; [vm_compute; discriminate|].
    split; [reflexivity|]. vm_compute. discriminate.
Qed.

Lemma capacity_bound_witness :
  let full := run [CreateSession 1 breathwork; Join 2 "1"] empty_db in
  let free := run [CreateSession 1 breathwork] empty_db in
  (attendee_count 1 full <= 2 /\
   join_handler 3 "1" full =
   (mkResponse 400 (JError "Session is full"), full)) /\
  (attendee_count 1 free < 2 /\
   snd (join_handler 2 "1" free) = inserted 1 2 free).
Proof.
  intros full free.
  assert (Hfull : reachable full) by (eexists; reflexivity).
  assert (Hfree : reachable free) by (eexists; reflexivity).
  split.
  - destruct (@capacity_bound _ full
                (mkSession 1 "Breathwork" 1736467200000 "18:00" 2 1) 3 "1"
                Hfull)
      as [H1 [H2 _]].
    + simpl. left. reflexivity.
    + split; reflexivity.
    + split; [exact H1|]. apply H2; [reflexivity|]. vm_compute. discriminate.
  - destruct (@capacity_bound _ free
                (mkSession 1 "Breathwork" 1736467200000 "18:00" 2 1) 2 "1"
                Hfree)
      as [_ [_ H3]].
    + simpl. left. reflexivity.
    + split; reflexivity.
    + destruct H3 as [H3 [_ H4]]; [vm_compute; discriminate|].
      split; [exact H3|exact H4].
Defined.

Lemma already_joined_witness :
  let db := run [CreateSession 1 breathwork; Join 2 "1"] empty_db in
  join_handler 2 "1" db =
    (mkResponse 400 (JError "Already joined this session"), db) /\
  NoDup (map attendee_key (attendees db)) /\
  sessionAttendee_create (Some 1) 2 db =
    (inl UniqueConstraintFailed, skip_attendee_id db) /\
  sessions (skip_attendee_id db) = sessions db /\
  attendees (skip_attendee_id db) = attendees db.
Proof.
  intros db.
  apply (@already_joined _ db
           (mkSession 1 "Breathwork" 1736467200000 "18:00" 2 1) 2 "1").
  - exists [CreateSession 1 breathwork; Join 2 "1"]. reflexivity.
  - simpl. left. reflexivity.
  - split; reflexivity.
  - reflexivity.
Defined.

Lemma creator_stays_witness :
  let db := run [CreateSession 1 breathwork; Join 2 "1"] empty_db in
  (is_attendee 1 1 db = true /\
   leave_handler 1 "1" db =
     (mkResponse 400 (JError "Cannot leave a session you created"), db)) /\
  (exists s' row,
     create_session_handler 2 solo db =
       (json (JSession (Some (mkView s' [row]))), opened s' db) /\
     s_userId s' = 2 /\ attendee_key row = (s_id s', 2) /\
     lookup_session (s_id s') (opened s' db) = Some s' /\
     attendees_of (s_id s') (opened s' db) = [row]) /\
  snd (create_session_handler 2 (mkSessionBody None None None "x") db) = db.
Proof.
  intros db.
  assert (Hdb : reachable db) by (eexists; reflexivity).
  split; [|split].
  - destruct (@creator_stays _ db
                (mkSession 1 "Breathwork" 1736467200000 "18:00" 2 1) "1"
                2 solo Hdb) as [H _].
    apply H; [simpl; left; reflexivity | split; reflexivity].
  - destruct (@creator_stays _ db
                (mkSession 1 "Breathwork" 1736467200000 "18:00" 2 1) "1"
                2 solo Hdb) as [_ [H _]].
    apply H. reflexivity.
  - destruct (@creator_stays _ db
                (mkSession 1 "Breathwork" 1736467200000 "18:00" 2 1) "1"
                2 (mkSessionBody None None None "x") Hdb) as [_ [_ H]].
    apply H. vm_compute. discriminate.
Defined.

(** C4 does not hold of the code.  The leave handler reads [session.userId]
    without checking that the session was found; for an identifier that
    references no session the read throws and the handler answers 500
    'Failed to leave session', where the join and delete handlers answer 404
    'Session not found' on the same input. *)
Theorem leave_missing_session :
  let db := run [CreateSession 1 breathwork] empty_db in
  lookup_session 7 db = None /\
  leave_handler 2 "7" db =
    (mkResponse 500 (JError "Failed to leave session"), db) /\
  join_handler 2 "7" db = (mkResponse 404 (JError "Session not found"), db) /\
  delete_session_handler 2 "7" db =
    (mkResponse 404 (JError "Session not found"), db).
Proof. repeat split; reflexivity. Qed.

(** C5, as stated, fails: a create-session request with capacity 0 is
    answered 200 and writes a session of capacity 0 with its attendee row. *)
Lemma zero_capacity_accepted :
  let '(resp, db) := create_session_handler 1 zero_capacity empty_db in
  status resp = 200 /\
  sessions db = [mkSession 1 "Breathwork" 1736467200000 "18:00" 0 1] /\
  attendees db = [mkAttendee 1 1 1].
Proof. repeat split; reflexivity. Qed.

Lemma create_session_capacity_witness :
  let db := run [CreateSession 1 breathwork] empty_db in
  let b := mkSessionBody (Some "Night walk") (Some 1736467200000)
                         (Some "23:00") "-3 people" in
  let s := mkSession 2 "Night walk" 1736467200000 "23:00" (-3) 4 in
  (create_session_handler 4 b db =
     (json (JSession (Some (mkView s [mkAttendee 2 2 4]))), opened s db) /\
   lookup_session 2 (opened s db) = Some s) /\
  create_session_handler 4
    (mkSessionBody (Some "Night walk") (Some 1736467200000) (Some "23:00")
                   "many") db =
  (mkResponse 500 (JErrorWith "Failed to create session: " ValidationError),
   db) /\
  create_session_handler 4
    (mkSessionBody (Some "Night walk") (Some 8640000000000000)
                   (Some "23:00") "5") db =
  (mkResponse 500 (JErrorWith "Failed to create session: " ValidationError),
   db) /\
  create_session_handler 4
    (mkSessionBody (Some (String "a" (String Ascii.zero "b")))
                   (Some 1736467200000) (Some "23:00") "5") db =
  (mkResponse 500 (JErrorWith "Failed to create session: " ValidationError),
   db).
Proof.
  intros db b s.
  assert (Hdb : reachable db) by (eexists; reflexivity).
  split; [|split; [|split]]; cycle 3.
  - destruct (@create_session_capacity _ db 4
                (mkSessionBody (Some (String "a" (String Ascii.zero "b")))
                               (Some 1736467200000) (Some "23:00") "5")
                (String "a" (String Ascii.zero "b")) 1736467200000 "23:00"
                Hdb eq_refl eq_refl eq_refl) as [_ [_ Hbad]].
    apply Hbad. left. reflexivity.
  - destruct (@create_session_capacity _ db 4 b "Night walk" 1736467200000
                "23:00" Hdb eq_refl eq_refl eq_refl) as [Hok _].
    destruct (Hok eq_refl eq_refl eq_refl (-3) eq_refl eq_refl)
      as [H1 [_ [_ H4]]].
    split; [exact H1|exact H4].
  - destruct (@create_session_capacity _ db 4
                (mkSessionBody (Some "Night walk") (Some 1736467200000)
                               (Some "23:00") "many")
                "Night walk" 1736467200000 "23:00" Hdb eq_refl eq_refl
                eq_refl) as [_ [Hnan _]].
    apply Hnan. reflexivity.
  - destruct (@create_session_capacity _ db 4
                (mkSessionBody (Some "Night walk") (Some 8640000000000000)
                               (Some "23:00") "5")
                "Night walk" 8640000000000000 "23:00" Hdb eq_refl eq_refl
                eq_refl) as [_ [_ Hbad]].
    apply Hbad. right. left. reflexivity.
Defined.

(** C6, as stated, fails: the like route does not look the artwork up.  On
    an identifier that references no artwork it answers 500 when the store
    keeps a foreign key from Like to Artwork, and 200 when it does not;
    whatever the foreign-key mode, the answer is not 404. *)
Lemma like_missing_artwork_not_404 :
  lookup_artwork 7 empty_db = None /\
  status (fst (like_handler Restrict 1 "7" empty_db)) = 500 /\
  status (fst (like_handler Cascade 1 "7" empty_db)) = 500 /\
  status (fst (like_handler NoForeignKey 1 "7" empty_db)) = 200.
Proof. repeat split; reflexivity. Qed.

Lemma like_missing_artwork_witness :
  (like_handler Restrict 1 "7" empty_db =
     (mkResponse 500 (JErrorWith "Server error: " ForeignKeyConstraintFailed),
      skip_like_id empty_db) /\
   likes (skip_like_id empty_db) = likes empty_db) /\
  like_handler NoForeignKey 1 "7" empty_db =
    (json (JLiked "Liked" true), liked 1 7 empty_db).
Proof.
  split.
  - destruct (proj1 (proj2 (@like_missing_artwork Restrict 1 "7" 7 empty_db
                              (conj eq_refl eq_refl) eq_refl eq_refl))
                eq_refl) as [H1 [H2 _]].
    split; [exact H1|exact H2].
  - apply (proj2 (proj2 (@like_missing_artwork NoForeignKey 1 "7" 7 empty_db
                            (conj eq_refl eq_refl) eq_refl eq_refl))).
    reflexivity.
Defined.

Lemma gallery_likes_unique : NoDup (map like_key (likes gallery)).
Proof. simpl. constructor; [intros []|constructor]. Qed.

Lemma like_toggle_witness :
  (fst (like_handler Restrict 2 "5" gallery) = json (JLiked "Unliked" false)
   /\ has_like 2 5 (snd (like_handler Restrict 2 "5" gallery)) = false) /\
  (fst (like_handler Restrict 3 "5" gallery) = json (JLiked "Liked" true)
   /\ has_like 3 5 (snd (like_handler Restrict 3 "5" gallery)) = true) /\
  has_like 2 5
    (snd (like_handler Restrict 2 "5"
            (snd (like_handler Restrict 2 "5" gallery))))
  = has_like 2 5 gallery.
Proof.
  pose proof (@like_toggle Restrict 2 "5" 5
                (mkArtwork 5 "Dawn" "oil on canvas" "dawn.png" 1) gallery
                (conj eq_refl eq_refl) eq_refl gallery_likes_unique) as H2.
  pose proof (@like_toggle Restrict 3 "5" 5
                (mkArtwork 5 "Dawn" "oil on canvas" "dawn.png" 1) gallery
                (conj eq_refl eq_refl) eq_refl gallery_likes_unique) as H3.
  simpl in H2, H3.
  split; [|split].
  - apply (proj1 H2). reflexivity.
  - apply (proj1 (proj2 H3)). reflexivity.
  - exact (proj2 (proj2 H2)).
Defined.

Lemma delete_session_outcomes_witness :
  let db := run [CreateSession 1 breathwork; Join 2 "1"] empty_db in
  delete_session_handler 2 "7" db =
    (mkResponse 404 (JError "Session not found"), db) /\
  delete_session_handler 2 "1" db =
    (mkResponse 403 (JError "You can only delete your own sessions"), db) /\
  (fst (delete_session_handler 1 "1" db) =
     json (JMessage "Session deleted successfully") /\
   snd (delete_session_handler 1 "1" db) = dropped 1 db /\
   lookup_session 1 (snd (delete_session_handler 1 "1" db)) = None).
Proof.
  intros db. split; [|split].
  - apply (proj1 (@delete_session_outcomes db 2 "7" 7 (conj eq_refl eq_refl))).
    reflexivity.
  - apply (proj1 (proj2 (@delete_session_outcomes db 2 "1" 1
                           (conj eq_refl eq_refl)))
             (mkSession 1 "Breathwork" 1736467200000 "18:00" 2 1)).
    + reflexivity.
    + simpl. discriminate.
  - destruct (proj2 (proj2 (@delete_session_outcomes db 1 "1" 1
                              (conj eq_refl eq_refl)))
                (mkSession 1 "Breathwork" 1736467200000 "18:00" 2 1)
                eq_refl eq_refl) as [H1 [H2 [_ [H4 _]]]].
    split; [exact H1|]. split; [exact H2|exact H4].
Defined.

Lemma leave_non_member_witness :
  let db := run [CreateSession 1 breathwork; Join 2 "1"] empty_db in
  leave_handler 3 "1" db =
    (mkResponse 200
       (JSession
          (Some (mkView (mkSession 1 "Breathwork" 1736467200000 "18:00" 2 1)
                        (attendees_of 1 db)))), db).
Proof.
  intros db.
  apply (@leave_non_member db 3 "1" 1
           (mkSession 1 "Breathwork" 1736467200000 "18:00" 2 1)).
  - split; reflexivity.
  - reflexivity.
  - simpl. discriminate.
  - reflexivity.
Defined.

Lemma delete_artwork_outcomes_witness :
  delete_artwork_handler Restrict 1 "9" gallery =
    (mkResponse 404 (JError "Artwork not found"), gallery) /\
  delete_artwork_handler Restrict 2 "5" gallery =
    (mkResponse 403 (JError "You can only delete your own artworks"),
     gallery) /\
  delete_artwork_handler Restrict 1 "5" gallery =
    (json (JMessage "Artwork deleted successfully"), purged 5 gallery) /\
  referenced 5 (stripped 5 gallery) = false /\
  artwork_delete Restrict (Some 5) (stripped 5 gallery) =
    (inr tt, purged 5 gallery).
Proof.
  split; [|split].
  - apply (proj1 (@delete_artwork_outcomes Restrict gallery 1 "9" 9
                    (conj eq_refl eq_refl))).
    reflexivity.
  - apply (proj1 (proj2 (@delete_artwork_outcomes Restrict gallery 2 "5" 5
                           (conj eq_refl eq_refl)))
             (mkArtwork 5 "Dawn" "oil on canvas" "dawn.png" 1)).
    + reflexivity.
    + simpl. discriminate.
  - destruct (proj2 (proj2 (@delete_artwork_outcomes Restrict gallery 1 "5" 5
                              (conj eq_refl eq_refl)))
                (mkArtwork 5 "Dawn" "oil on canvas" "dawn.png" 1)
                eq_refl eq_refl) as [H1 [_ [H3 [_ [H5 _]]]]].
    split; [exact H1|]. split; [exact H3|exact H5].
Defined.

(** Outside the schema invariants a refused request can lose ids: on a store
    with a dangling attendee row the nested insert of a create-session
    request hits the unique index, the transaction is rolled back, and the
    two ids it drew are gone although no row is written. *)
Example rolled_back_create_loses_ids :
  ~ Inv dangling /\
  handle (CreateSession 7 breathwork) dangling =
    (mkResponse 500
       (JErrorWith "Failed to create session: " UniqueConstraintFailed),
     aborted dangling) /\
  aborted dangling <> dangling /\
  sessions (aborted dangling) = sessions dangling /\
  attendees (aborted dangling) = attendees dangling.
Proof.
  split; [|split; [reflexivity|split; [discriminate|split; reflexivity]]].
  intros H. destruct (inv_fkey H (mkAttendee 1 1 7)) as [s [Hs _]].
  - left. reflexivity.
  - exact Hs.
Qed.


Lemma session_rows_never_change_witness :
  let db := run [CreateSession 1 breathwork] empty_db in
  let rs := [Join 2 "1"; DeleteSession 2 "1"; CreateSession 2 solo;
             Leave 2 "1"] in
  hd (mkSession 0 "" 0 "" 0 0) (sessions (run rs db)) =
  mkSession 1 "Breathwork" 1736467200000 "18:00" 2 1.
Proof.
  intros db rs.
  apply (session_rows_never_change rs db
           (mkSession 1 "Breathwork" 1736467200000 "18:00" 2 1)).
  - apply reachable_inv. exists [CreateSession 1 breathwork]. reflexivity.
  - simpl. left. reflexivity.
  - simpl. left. reflexivity.
  - reflexivity.
Defined.

Lemma only_creator_deletes_witness :
  let db := run [CreateSession 1 breathwork; Join 2 "1"] empty_db in
  let rs := [DeleteSession 2 "1"; Leave 2 "1"; DeleteSession 1 " 0x1"] in
  exists id, In (DeleteSession 1 id) rs /\ route_id id 1.
Proof.
  intros db rs.
  apply (only_creator_deletes rs db
           (mkSession 1 "Breathwork" 1736467200000 "18:00" 2 1)).
  - apply reachable_inv.
    exists [CreateSession 1 breathwork; Join 2 "1"]. reflexivity.
  - simpl. left. reflexivity.
  - simpl. intros [].
Defined.

Lemma join_then_leave_witness :
  let db := run [CreateSession 1 breathwork] empty_db in
  let joined := join_handler 2 "1" db in
  let left := leave_handler 2 "1" (snd joined) in
  status (fst joined) = 200 /\ status (fst left) = 200 /\
  is_attendee 1 2 (snd joined) = true /\
  sessions (snd left) = sessions db /\
  attendees (snd left) = attendees db.
Proof.
  intros db.
  apply (join_then_leave 2 "1"
           (mkSession 1 "Breathwork" 1736467200000 "18:00" 2 1) db).
  - split; reflexivity.
  - reflexivity.
  - simpl. discriminate.
  - reflexivity.
  - vm_compute. reflexivity.
Defined.

Lemma create_then_delete_witness :
  let db := run [CreateSession 1 breathwork; Join 2 "1"] empty_db in
  let created := create_session_handler 2 solo db in
  let deleted := delete_session_handler 2 "2" (snd created) in
  lookup_session 2 db = None /\
  (exists s, lookup_session 2 (snd created) = Some s /\ s_userId s = 2) /\
  fst deleted = json (JMessage "Session deleted successfully") /\
  sessions (snd deleted) = sessions db /\
  attendees (snd deleted) = attendees db.
Proof.
  intros db.
  apply (create_then_delete 2 solo "2" db).
  - exists [CreateSession 1 breathwork; Join 2 "1"]. reflexivity.
  - reflexivity.
  - split; reflexivity.
Defined.

Lemma other_sessions_untouched_witness :
  let db := run [CreateSession 1 breathwork; CreateSession 2 solo;
                 Join 3 "1"] empty_db in
  attendees_of 1 (snd (join_handler 2 "2" db)) = attendees_of 1 db /\
  attendees_of 2 (snd (leave_handler 3 "1" db)) = attendees_of 2 db /\
  lookup_session 1 (snd (delete_session_handler 2 "2" db))
    = lookup_session 1 db.
Proof.
  intros db. split; [|split].
  - apply (other_sessions_untouched 2 "2" 2 1 db);
      [split; reflexivity|discriminate].
  - apply (other_sessions_untouched 3 "1" 1 2 db);
      [split; reflexivity|discriminate].
  - apply (other_sessions_untouched 2 "2" 2 1 db);
      [split; reflexivity|discriminate].
Defined.

Lemma single_seat_session_is_closed_witness :
  let db := run [CreateSession 1 solo] empty_db in
  status (fst (join_handler 2 "1" db)) = 400 /\
  snd (join_handler 2 "1" db) = db.
Proof.
  intros db.
  apply (single_seat_session_is_closed db
           (mkSession 1 "Solo" 1736467200000 "07:30" 1 1) 2 "1").
  - exists [CreateSession 1 solo]. reflexivity.
  - simpl. left. reflexivity.
  - simpl. lia.
  - split; reflexivity.
Defined.

Lemma member_leaves_witness :
  let db := run [CreateSession 1 breathwork; Join 2 "1"] empty_db in
  let db' := snd (leave_handler 2 "1" db) in
  is_attendee 1 2 db' = false /\
  attendee_count 1 db' = attendee_count 1 db - 1 /\
  is_attendee 1 1 db' = true.
Proof.
  intros db db'.
  destruct (member_leaves db
              (mkSession 1 "Breathwork" 1736467200000 "18:00" 2 1) 2 "1")
    as [_ H].
  - exists [CreateSession 1 breathwork; Join 2 "1"]. reflexivity.
  - simpl. left. reflexivity.
  - split; reflexivity.
  - simpl. discriminate.
  - reflexivity.
  - exact H.
Defined.


Lemma like_touches_one_pair_witness :
  let db' := snd (like_handler Restrict 3 "5" gallery) in
  has_like 2 5 db' = has_like 2 5 gallery /\
  NoDup (map like_key (likes db')) /\
  sessions db' = sessions gallery /\ attendees db' = attendees gallery /\
  artworks db' = artworks gallery /\ comments db' = comments gallery.
Proof.
  apply (like_touches_one_pair Restrict 3 "5" 5 gallery 2 5).
  - split; reflexivity.
  - simpl. constructor; [intros []|constructor].
  - exact gallery_likes_unique.
  - discriminate.
Defined.

Lemma no_token_no_entry_witness :
  authenticateToken sample_verify (Some "tok-1") =
    Denied 401 "Access denied. No token provided." /\
  authenticateToken sample_verify (Some "Bearer  tok-1") =
    Denied 401 "Access denied. No token provided." /\
  authenticated sample_verify (Some "tok-1")
      (fun uid => delete_session_handler uid "1")
      (run [CreateSession 1 solo] empty_db) =
    (mkResponse 401 (JError "Access denied. No token provided."),
     run [CreateSession 1 solo] empty_db).
Proof.
  split; [|split].
  - apply (no_token_no_entry sample_verify "tok-1" ""
             (fun uid => delete_session_handler uid "1") empty_db).
    reflexivity.
  - apply (no_token_no_entry sample_verify "Bearer" "tok-1"
             (fun uid => delete_session_handler uid "1") empty_db).
    reflexivity.
  - apply (no_token_no_entry sample_verify "tok-1" ""
             (fun uid => delete_session_handler uid "1")
             (run [CreateSession 1 solo] empty_db)).
    reflexivity.
Defined.

Lemma token_is_second_word_witness :
  authenticateToken sample_verify (Some "Basic tok-1") = Granted 1 /\
  authenticateToken sample_verify (Some "Bearer tok-1 and more")
    = Granted 1 /\
  authenticated sample_verify (Some "Bearer tok-2")
      (fun uid => delete_session_handler uid "1")
      (run [CreateSession 1 solo] empty_db) =
    (mkResponse 403 (JError "Invalid token"),
     run [CreateSession 1 solo] empty_db).
Proof.
  split; [|split].
  - apply (token_is_second_word sample_verify "Basic" "tok-1" ""
             (fun uid => delete_session_handler uid "1") empty_db);
      [reflexivity|reflexivity|discriminate].
  - apply (token_is_second_word sample_verify "Bearer" "tok-1" "and more"
             (fun uid => delete_session_handler uid "1") empty_db);
      [reflexivity|reflexivity|discriminate].
  - apply (token_is_second_word sample_verify "Bearer" "tok-2" ""
             (fun uid => delete_session_handler uid "1")
             (run [CreateSession 1 solo] empty_db));
      [reflexivity|reflexivity|discriminate].
Defined.

Lemma delete_post_outcomes_witness :
  delete_post_handler 1 "9" board =
    (mkReply 404 (PError "Post not found"), board) /\
  delete_post_handler 1 "2" board =
    (mkReply 403 (PError "You can only delete your own posts"), board) /\
  (fst (delete_post_handler 2 "2" board) =
     mkReply 200 (PMessage "Post deleted successfully") /\
   lookup_post 2 (snd (delete_post_handler 2 "2" board)) = None).
Proof.
  split; [|split].
  - apply (proj1 (delete_post_outcomes 1 "9" 9 board (conj eq_refl eq_refl))).
    reflexivity.
  - apply (proj1 (proj2 (delete_post_outcomes 1 "2" 2 board
                           (conj eq_refl eq_refl)))
             (mkPost 2 "welcome" 2)).
    + reflexivity.
    + simpl. discriminate.
  - destruct (proj2 (proj2 (delete_post_outcomes 2 "2" 2 board
                              (conj eq_refl eq_refl)))
                (mkPost 2 "welcome" 2) eq_refl eq_refl) as [H1 [H2 _]].
    split; [exact H1|exact H2].
Defined.

Lemma board_inv : BoardInv board.
Proof.
  constructor; simpl.
  - intros p [<-|[<-|[]]]; simpl; lia.
  - repeat constructor; simpl; intuition discriminate.
Qed.

Lemma only_author_deletes_post_witness :
  let rs := [DeletePost 1 "2"; CreatePost 1 (Some "again");
             DeletePost 2 "+2"] in
  exists id, In (DeletePost 2 id) rs /\ route_id id 2.
Proof.
  intros rs.
  apply (only_author_deletes_post rs board (mkPost 2 "welcome" 2)).
  - exact board_inv.
  - simpl. right. left. reflexivity.
  - simpl. intros [H|[H|[]]]; discriminate.
Defined.

Lemma create_post_outcomes_witness :
  create_post_handler 3 (Some "") board =
    (mkReply 400 (PError "Content is required"), board) /\
  create_post_handler 3 (Some (String Ascii.zero "b")) board =
    (mkReply 500 (PErrorWith "Server error: " (StoreFailure ValidationError)),
     board) /\
  (fst (create_post_handler 3 (Some "hi all") board) =
     mkReply 201 (PPost (mkPost 3 "hi all" 3)) /\
   posts (snd (delete_post_handler 3 "3"
                 (snd (create_post_handler 3 (Some "hi all") board))))
   = posts board).
Proof.
  split; [|split].
  - apply (proj1 (create_post_outcomes 3 (Some "") "3" board board_inv
                    (conj eq_refl eq_refl))).
    reflexivity.
  - apply (proj1 (proj2 (create_post_outcomes 3
                           (Some (String Ascii.zero "b")) "3" board
                           board_inv (conj eq_refl eq_refl)))
             (String Ascii.zero "b") eq_refl).
    + discriminate.
    + reflexivity.
  - destruct (proj2 (proj2 (create_post_outcomes 3 (Some "hi all") "3" board
                              board_inv (conj eq_refl eq_refl)))
                "hi all" eq_refl) as [H1 [_ [_ H4]]].
    + discriminate.
    + reflexivity.
    + split; [exact H1|exact H4].
Defined.

Lemma members_unique : unique_emails members.
Proof. unfold unique_emails. simpl. constructor; [intros []|constructor]. Qed.

Lemma sample_bcrypt password s :
  sample_compare password (sample_hash password s) = true.
Proof. unfold sample_compare, sample_hash. apply String.eqb_refl. Qed.

Lemma signup_rejections_witness :
  signup_handler sample_hash sample_sign 7 100
    (mkCredentials (Some "eve@example.org") (Some "pw") (Some "")) members
  = (mkReply 400 (PError "All fields are required"), members) /\
  signup_handler sample_hash sample_sign 7 100 ada members
  = (mkReply 400 (PError "User already exists"), members) /\
  signup_handler sample_hash sample_sign 7 100
    (mkCredentials (Some (String "e" (String Ascii.zero "ve"))) (Some "pw")
                   (Some "Eve")) members
  = (mkReply 500 (PErrorWith "Server error: " (StoreFailure ValidationError)),
     members).
Proof.
  split; [|split].
  - apply (proj1 (signup_rejections sample_hash sample_sign 7 100
                    (mkCredentials (Some "eve@example.org") (Some "pw")
                                   (Some "")) members)).
    reflexivity.
  - apply (proj1 (proj2 (signup_rejections sample_hash sample_sign 7 100 ada
                           members))
             "ada@example.org"
             (mkUser 1 "ada@example.org" "$2a$10$s3cret" "Ada"));
      reflexivity.
  - apply (proj2 (proj2 (signup_rejections sample_hash sample_sign 7 100
                           (mkCredentials
                              (Some (String "e" (String Ascii.zero "ve")))
                              (Some "pw") (Some "Eve")) members))
             (String "e" (String Ascii.zero "ve")));
      reflexivity.
Defined.

Lemma accounts_only_grow_witness :
  let rs := [Signup 7 100 bob; Signin 101 ada; Signup 8 102 ada] in
  unique_emails
    (run_accounts sample_hash sample_compare sample_sign rs members) /\
  In (mkUser 1 "ada@example.org" "$2a$10$s3cret" "Ada")
     (users (run_accounts sample_hash sample_compare sample_sign rs members)).
Proof.
  intros rs.
  destruct (accounts_only_grow sample_hash sample_compare sample_sign rs
              members members_unique) as [H1 H2].
  split; [exact H1|]. apply H2. simpl. left. reflexivity.
Defined.

Lemma signup_then_signin_witness :
  let rs := [Signin 101 ada; Signup 8 102 ada] in
  exists email name,
    f_email bob = Some email /\ f_name bob = Some name /\
    fst (signup_handler sample_hash sample_sign 7 100 bob members) =
      mkReply 201 (PAuth (sample_sign 2 100) 2 email name) /\
    signin_handler sample_compare sample_sign 103
      (mkCredentials (Some "bob@example.org") (Some "hunter2") None)
      (run_accounts sample_hash sample_compare sample_sign rs
         (snd (signup_handler sample_hash sample_sign 7 100 bob members))) =
    (mkReply 200 (PAuth (sample_sign 2 103) 2 email name),
     run_accounts sample_hash sample_compare sample_sign rs
       (snd (signup_handler sample_hash sample_sign 7 100 bob members))).
Proof.
  intros rs.
  apply (signup_then_signin sample_hash sample_compare sample_sign 7 100 103
           bob (mkCredentials (Some "bob@example.org") (Some "hunter2") None)
           rs members).
  - exact sample_bcrypt.
  - exact members_unique.
  - reflexivity.
  - reflexivity.
  - reflexivity.
Defined.

Lemma signin_hides_accounts_witness :
  signin_handler sample_compare sample_sign 100 bob members =
    (mkReply 400 (PError "Invalid credentials"), members) /\
  signin_handler sample_compare sample_sign 100
    (mkCredentials (Some "ada@example.org") (Some "guess") None) members =
    (mkReply 400 (PError "Invalid credentials"), members) /\
  signin_handler sample_compare sample_sign 100
    (mkCredentials (Some (String "e" (String Ascii.zero "ve"))) (Some "pw")
                   None) members =
    (mkReply 500 (PErrorWith "Server error: " (StoreFailure ValidationError)),
     members).
Proof.
  split; [|split].
  - apply (proj1 (signin_hides_accounts sample_compare sample_sign 100 bob
                    members "bob@example.org" eq_refl));
      reflexivity.
  - apply (proj1 (proj2 (signin_hides_accounts sample_compare sample_sign 100
                           (mkCredentials (Some "ada@example.org")
                                          (Some "guess") None)
                           members "ada@example.org" eq_refl))
             (mkUser 1 "ada@example.org" "$2a$10$s3cret" "Ada") "guess");
      reflexivity.
  - apply (proj1 (proj2 (proj2
             (signin_hides_accounts sample_compare sample_sign 100
                (mkCredentials (Some (String "e" (String Ascii.zero "ve")))
                               (Some "pw") None)
                members (String "e" (String Ascii.zero "ve")) eq_refl))));
      reflexivity.
Defined.

Lemma upsert_sets_progress_witness :
  let accepts := fun mid => mid =? 4 in
  (exists row,
     fst (update_progress_handler accepts 1 "4" true ledger)
       = mkReply 200 (PProgress row) /\
     lookup_progress 1 4
       (snd (update_progress_handler accepts 1 "4" true ledger)) = Some row /\
     g_completed row = true) /\
  (exists row,
     fst (update_progress_handler accepts 3 "4" false ledger)
       = mkReply 200 (PProgress row) /\
     lookup_progress 2 4
       (snd (update_progress_handler accepts 3 "4" false ledger))
     = lookup_progress 2 4 ledger).
Proof.
  intros accepts.
  assert (Hnd : NoDup (map progress_key (progress ledger))).
  { simpl. repeat constructor; simpl; intuition discriminate. }
  split.
  - destruct (upsert_sets_progress accepts 1 "4" 4 true ledger
                (conj eq_refl eq_refl) Hnd)
      as [row [H1 [H2 [_ [H4 _]]]]].
    + left. simpl. discriminate.
    + exists row. auto.
  - destruct (upsert_sets_progress accepts 3 "4" 4 false ledger
                (conj eq_refl eq_refl) Hnd)
      as [row [H1 [_ [_ [_ [_ H6]]]]]].
    + right. reflexivity.
    + exists row. split; [exact H1|]. apply H6. discriminate.
Defined.

Lemma upsert_last_write_wins_witness :
  let accepts := fun mid => mid =? 4 in
  let once := update_progress_handler accepts 1 "4" true ledger in
  let twice := update_progress_handler accepts 1 "4" true
                 (snd (update_progress_handler accepts 1 "4" false ledger)) in
  (fst twice = fst once /\ progress (snd twice) = progress (snd once)) /\
  (next_progress_id ledger = 3 /\ next_progress_id (snd once) = 4 /\
   next_progress_id (snd twice) = 5) /\
  snd (update_progress_handler accepts 1 "four" true ledger) = ledger.
Proof.
  intros accepts once twice.
  pose proof (upsert_last_write_wins accepts 1 "4" false true ledger) as H.
  cbv zeta in H. destruct H as [H1 [H2 [H3 _]]].
  destruct (H3 4 (conj eq_refl eq_refl)) as [Ha Hb].
  split; [split; [exact H1|exact H2]|].
  split; [split; [reflexivity|split; [exact Ha|exact Hb]]|].
  pose proof (upsert_last_write_wins accepts 1 "four" false true ledger) as H.
  cbv zeta in H. destruct H as [_ [_ [_ H4]]].
  apply H4. intros mid [Hp _]. discriminate Hp.
Defined.

Lemma comment_outcomes_witness :
  let t := mkThread gallery 3 in
  comment_handler Restrict 2 "not a number" None t =
    (mkReply 400 (PError "Comment content is required"), t) /\
  comment_handler Restrict 2 "5" (Some (String "s" (String Ascii.zero "o"))) t
  = (mkReply 500 (PErrorWith "Server error: " (StoreFailure ValidationError)),
     t) /\
  fst (comment_handler Restrict 2 "5" (Some "so calm") t) =
    mkReply 201 (PComment (mkComment 3 "so calm" 2 5)).
Proof.
  intros t. split; [|split].
  - apply (proj1 (comment_outcomes Restrict 2 "not a number" 0
                    (mkArtwork 5 "Dawn" "oil on canvas" "dawn.png" 1)
                    None t)).
    reflexivity.
  - apply (proj1 (proj2 (comment_outcomes Restrict 2 "5" 5
                           (mkArtwork 5 "Dawn" "oil on canvas" "dawn.png" 1)
                           (Some (String "s" (String Ascii.zero "o"))) t))
             (String "s" (String Ascii.zero "o")) eq_refl).
    + discriminate.
    + reflexivity.
  - apply (proj2 (proj2 (comment_outcomes Restrict 2 "5" 5
                           (mkArtwork 5 "Dawn" "oil on canvas" "dawn.png" 1)
                           (Some "so calm") t)) "so calm" eq_refl).
    + discriminate.
    + reflexivity.
    + split; reflexivity.
    + reflexivity.
Defined.
